(** * URL <-> form synchronisation of [FilteredAbstractComponent]

    A shallow embedding of
    [src/app/shared/components/filtered-abstract.component.ts] (the abstract
    base class that projects a reactive form to the query string, reconciles
    the query string back into the form and gates the data fetch) and of
    [StatsComponent], the one concrete screen of the repository, followed by
    the properties of the synchronisation that hold on this code.

    The file has four layers:
    - [JS]: the parts of the ECMAScript runtime the code calls
      ([String.prototype.split], [padStart], [includes], [Array.prototype.join],
      [Number(string)], [String(number)] and the [Date] object);
    - [Forms]: Angular's [FormGroup] of [FormControl]s, as far as the code
      uses it ([value], [controls], [get], [valid], [patchValue]);
    - [FilteredAbstract]: the base class, over its abstract members;
    - [Stats]: [StatsComponent]. *)

From Stdlib Require Import ZArith QArith List String Ascii Bool Lia Permutation.
From Stdlib Require Import Decimal DecimalString DecimalZ DecimalPos.
Import ListNotations.

Local Open Scope string_scope.
Local Open Scope Z_scope.

(* ================================================================== *)
(** * The ECMAScript runtime *)
(* ================================================================== *)

Module JS.

(** ** Strings

    A JavaScript string is modelled by a [string]: a sequence of 8-bit code
    units, i.e. the Latin-1 range of JavaScript's UTF-16 code units. *)

(** [s.split(sep)] for a one-character separator. *)
Fixpoint split (sep : ascii) (s : string) : list string :=
  match s with
  | EmptyString => [EmptyString]
  | String c s' =>
      if Ascii.eqb c sep then EmptyString :: split sep s'
      else match split sep s' with
           | [] => [String c EmptyString]
           | p :: ps => String c p :: ps
           end
  end.

(** [arr.join(sep)] on an array of strings. *)
Fixpoint join (sep : string) (l : list string) : string :=
  match l with
  | [] => EmptyString
  | [x] => x
  | x :: rest => x ++ sep ++ join sep rest
  end.

Fixpoint replicate (n : nat) (c : ascii) : string :=
  match n with
  | O => EmptyString
  | S k => String c (replicate k c)
  end.

(** [s.padStart(n, c)] for a one-character filler. *)
Definition padStart (n : nat) (c : ascii) (s : string) : string :=
  replicate (n - String.length s) c ++ s.

(** [hay.includes(needle)]. *)
Fixpoint includes (hay needle : string) : bool :=
  String.prefix needle hay
  || match hay with
     | EmptyString => false
     | String _ hay' => includes hay' needle
     end.

Fixpoint span (p : ascii -> bool) (s : string) : string * string :=
  match s with
  | EmptyString => (EmptyString, EmptyString)
  | String c s' =>
      if p c then let '(a, b) := span p s' in (String c a, b)
      else (EmptyString, s)
  end.

Fixpoint forall_chars (p : ascii -> bool) (s : string) : bool :=
  match s with
  | EmptyString => true
  | String c s' => p c && forall_chars p s'
  end.

Definition is_empty (s : string) : bool :=
  match s with EmptyString => true | _ => false end.

(** ** Numbers

    A Number is NaN, an infinity or a finite binary64 value, kept as the
    rational it denotes.  The sign of zero is not tracked: nothing in the
    code observes it. *)

Inductive num : Type :=
| NaN
| Inf (negative : bool)
| Fin (q : Q).

Definition code (c : ascii) : Z := Z.of_N (N_of_ascii c).

Definition is_digit (c : ascii) : bool := (48 <=? code c) && (code c <=? 57).

(** WhiteSpace and LineTerminator code points below 256: TAB, LF, VT, FF, CR,
    SP and NBSP. *)
Definition is_space (c : ascii) : bool :=
  ((9 <=? code c) && (code c <=? 13)) || (code c =? 32) || (code c =? 160).

Fixpoint trimStart (s : string) : string :=
  match s with
  | EmptyString => EmptyString
  | String c s' => if is_space c then trimStart s' else s
  end.

Fixpoint trimEnd (s : string) : string :=
  match s with
  | EmptyString => EmptyString
  | String c s' =>
      let t := trimEnd s' in
      if is_space c && is_empty t then EmptyString else String c t
  end.

Definition trim (s : string) : string := trimEnd (trimStart s).

(** The mathematical value of a run of decimal digits; [None] if a character
    is not a digit.  The empty run has value 0. *)
Definition DecimalDigits (s : string) : option Z :=
  option_map Z.of_uint (NilEmpty.uint_of_string s).

Definition digit_in_radix (radix : Z) (c : ascii) : option Z :=
  let k := code c in
  let v := if (48 <=? k) && (k <=? 57) then k - 48
           else if (97 <=? k) && (k <=? 102) then k - 87
           else if (65 <=? k) && (k <=? 70) then k - 55
           else radix in
  if v <? radix then Some v else None.

Fixpoint radix_digits (radix : Z) (acc : Z) (s : string) : option Z :=
  match s with
  | EmptyString => Some acc
  | String c s' =>
      match digit_in_radix radix c with
      | Some v => radix_digits radix (acc * radix + v) s'
      | None => None
      end
  end.

(** NonDecimalIntegerLiteral: [0x], [0o] or [0b] (either case) followed by at
    least one digit of that radix. *)
Definition NonDecimalIntegerLiteral (s : string) : option Z :=
  match s with
  | String z (String c ds) =>
      let radix :=
        if Ascii.eqb c "x" || Ascii.eqb c "X" then Some 16
        else if Ascii.eqb c "o" || Ascii.eqb c "O" then Some 8
        else if Ascii.eqb c "b" || Ascii.eqb c "B" then Some 2
        else None in
      match radix with
      | Some r =>
          if Ascii.eqb z "0" && negb (is_empty ds) then radix_digits r 0 ds
          else None
      | None => None
      end
  | _ => None
  end.

(** The value [digits(ip ++ fp) * 10 ^ (e - length fp)] of a decimal literal
    with integer part [ip], fraction [fp] and exponent [e]. *)
Definition decimal_value (ip fp : string) (e : Z) : option Q :=
  match DecimalDigits (ip ++ fp) with
  | Some n =>
      let k := e - Z.of_nat (String.length fp) in
      Some (if 0 <=? k then (n * 10 ^ k) # 1 else n # Z.to_pos (10 ^ (- k)))
  | None => None
  end.

Definition SignedInteger (s : string) : option Z :=
  match s with
  | EmptyString => None
  | String c ds =>
      if Ascii.eqb c "+" then
        if is_empty ds then None else DecimalDigits ds
      else if Ascii.eqb c "-" then
        if is_empty ds then None else option_map Z.opp (DecimalDigits ds)
      else DecimalDigits s
  end.

Definition with_exponent (ip fp rest : string) : option Q :=
  match rest with
  | EmptyString => decimal_value ip fp 0
  | String c es =>
      if Ascii.eqb c "e" || Ascii.eqb c "E" then
        match SignedInteger es with
        | Some e => decimal_value ip fp e
        | None => None
        end
      else None
  end.

(** The result of reading a literal: an infinity or a rational still to be
    rounded. *)
Inductive literal : Type :=
| LitInfinity
| LitValue (q : Q).

Definition StrUnsignedDecimalLiteral (s : string) : option literal :=
  if String.eqb s "Infinity" then Some LitInfinity
  else
    let '(ip, r1) := span is_digit s in
    option_map LitValue
      match r1 with
      | String c r =>
          if Ascii.eqb c "." then
            let '(fp, r2) := span is_digit r in
            if is_empty ip && is_empty fp then None else with_exponent ip fp r2
          else if is_empty ip then None else with_exponent ip EmptyString r1
      | EmptyString => if is_empty ip then None else with_exponent ip EmptyString r1
      end.

(** Round a rational to binary64, to nearest with ties to even.  Integers of
    magnitude at most 2^53 are representable and returned as they are; the
    general case scales by the unit in the last place, rounds the quotient
    and overflows to an infinity from 2^1024. *)
Definition round_binary64 (q : Q) : num :=
  let n := Z.abs (Qnum q) in
  let d := Zpos (Qden q) in
  let negative := Qnum q <? 0 in
  if (d =? 1) && (n <=? 2 ^ 53) then Fin (Qnum q # 1)
  else if n =? 0 then Fin 0
  else
    let e0 := Z.log2 n - Z.log2 d in
    let below := if 0 <=? e0 then n <? d * 2 ^ e0 else n * 2 ^ (- e0) <? d in
    let e := if below then e0 - 1 else e0 in
    let s := Z.max e (-1022) - 52 in
    let '(a, b) := if 0 <=? s then (n, d * 2 ^ s) else (n * 2 ^ (- s), d) in
    let k := a / b in
    let r := a mod b in
    let k' := if 2 * r <? b then k
              else if b <? 2 * r then k + 1
              else if Z.even k then k else k + 1 in
    let m := if negative then - k' else k' in
    if 0 <=? s then
      if 2 ^ 1024 <=? k' * 2 ^ s then Inf negative else Fin (m * 2 ^ s # 1)
    else Fin (Qred (m # Z.to_pos (2 ^ (- s)))).

Definition negate (x : num) : num :=
  match x with
  | NaN => NaN
  | Inf b => Inf (negb b)
  | Fin q => Fin (Qopp q)
  end.

Definition of_literal (l : option literal) : num :=
  match l with
  | None => NaN
  | Some LitInfinity => Inf false
  | Some (LitValue q) => round_binary64 q
  end.

(** [Number(s)], i.e. StringToNumber. *)
Definition Number (s : string) : num :=
  let t := trim s in
  if is_empty t then Fin 0
  else
    match NonDecimalIntegerLiteral t with
    | Some n => round_binary64 (n # 1)
    | None =>
        match t with
        | String c u =>
            if Ascii.eqb c "+" then of_literal (StrUnsignedDecimalLiteral u)
            else if Ascii.eqb c "-" then negate (of_literal (StrUnsignedDecimalLiteral u))
            else of_literal (StrUnsignedDecimalLiteral t)
        | EmptyString => of_literal (StrUnsignedDecimalLiteral t)
        end
    end.

(** [x - y] on Numbers. *)
Definition sub (x y : num) : num :=
  match x, y with
  | NaN, _ | _, NaN => NaN
  | Inf a, Inf b => if Bool.eqb a b then NaN else Inf a
  | Inf a, Fin _ => Inf a
  | Fin _, Inf b => Inf (negb b)
  | Fin p, Fin q => round_binary64 (Qminus p q)
  end.

(** ToIntegerOrInfinity, for the finite case: truncation towards zero. *)
Definition truncate (q : Q) : Z := Z.quot (Qnum q) (Zpos (Qden q)).

(** A non-empty run of decimal digits that spells [z]. *)
Definition spells (s : string) (z : Z) : Prop :=
  forall_chars is_digit s = true /\ s <> EmptyString /\ DecimalDigits s = Some z.

(** ** Dates

    ECMAScript's day and year arithmetic, on exact integers. *)

Definition msPerDay : Z := 86400000.

Definition Day (t : Z) : Z := t / msPerDay.

Definition TimeWithinDay (t : Z) : Z := t mod msPerDay.

Definition is_leap (y : Z) : bool :=
  (y mod 4 =? 0) && (negb (y mod 100 =? 0) || (y mod 400 =? 0)).

Definition DaysInYear (y : Z) : Z := if is_leap y then 366 else 365.

Definition DayFromYear (y : Z) : Z :=
  365 * (y - 1970) + (y - 1969) / 4 - (y - 1901) / 100 + (y - 1601) / 400.

(** The largest [y] with [DayFromYear y <= d]: the mean-year estimate is off
    by at most one. *)
Definition YearFromDay (d : Z) : Z :=
  let y := 1970 + (400 * d) / 146097 in
  if DayFromYear (y + 1) <=? d then y + 1
  else if DayFromYear y <=? d then y
  else y - 1.

Definition YearFromTime (t : Z) : Z := YearFromDay (Day t).

Definition DayWithinYear (t : Z) : Z := Day t - DayFromYear (YearFromTime t).

Definition InLeapYear (t : Z) : Z := if is_leap (YearFromTime t) then 1 else 0.

Definition MonthFromTime (t : Z) : Z :=
  let d := DayWithinYear t in
  let l := InLeapYear t in
  if d <? 31 then 0
  else if d <? 59 + l then 1
  else if d <? 90 + l then 2
  else if d <? 120 + l then 3
  else if d <? 151 + l then 4
  else if d <? 181 + l then 5
  else if d <? 212 + l then 6
  else if d <? 243 + l then 7
  else if d <? 273 + l then 8
  else if d <? 304 + l then 9
  else if d <? 334 + l then 10
  else 11.

Definition DateFromTime (t : Z) : Z :=
  let d := DayWithinYear t in
  let l := InLeapYear t in
  match MonthFromTime t with
  | 0 => d + 1
  | 1 => d - 30
  | 2 => d - 58 - l
  | 3 => d - 89 - l
  | 4 => d - 119 - l
  | 5 => d - 150 - l
  | 6 => d - 180 - l
  | 7 => d - 211 - l
  | 8 => d - 242 - l
  | 9 => d - 272 - l
  | 10 => d - 303 - l
  | _ => d - 333 - l
  end.

(** Days of the year before the first of month [mn] (0-based). *)
Definition DaysBeforeMonth (mn : Z) (leap : bool) : Z :=
  let l := if leap then 1 else 0 in
  match mn with
  | 0 => 0
  | 1 => 31
  | 2 => 59 + l
  | 3 => 90 + l
  | 4 => 120 + l
  | 5 => 151 + l
  | 6 => 181 + l
  | 7 => 212 + l
  | 8 => 243 + l
  | 9 => 273 + l
  | 10 => 304 + l
  | _ => 334 + l
  end.

(** MakeDay: NaN ([None]) unless the three arguments are finite; the month
    carries into the year and the day number is counted from the first of
    the month, so that out-of-range months and days roll over. *)
Definition MakeDay (year month date : num) : option Z :=
  match year, month, date with
  | Fin y, Fin m, Fin dt =>
      let y := truncate y in
      let m := truncate m in
      let dt := truncate dt in
      let ym := y + m / 12 in
      let mn := m mod 12 in
      Some (DayFromYear ym + DaysBeforeMonth mn (is_leap ym) + dt - 1)
  | _, _, _ => None
  end.

Definition MakeDate (day time : Z) : Z := day * msPerDay + time.

Definition maxTime : Z := 8640000000000000.

Definition TimeClip (t : Z) : option Z :=
  if maxTime <? Z.abs t then None else Some t.

(** The host: its local time zone, as a fixed offset from UTC in
    milliseconds. *)
Class Host : Type := { LocalTZA : Z }.

(** A Date object holds a time value: milliseconds since the epoch in UTC, or
    NaN ([None], an Invalid Date). *)
Definition Date : Type := option Z.

Section WithHost.
Context {host : Host}.

Definition LocalTime (t : Z) : Z := t + LocalTZA.

Definition UTC (t : Z) : Z := t - LocalTZA.

(** [new Date(year, monthIndex, day)]: a year that truncates into 0..99 means
    1900 + year; the time of day is midnight, local time. *)
Definition Date_new (year monthIndex day : num) : Date :=
  let yr :=
    match year with
    | Fin q =>
        let yi := truncate q in
        if (0 <=? yi) && (yi <=? 99) then Fin (1900 + yi # 1) else year
    | _ => year
    end in
  match MakeDay yr monthIndex day with
  | Some d => TimeClip (UTC (MakeDate d 0))
  | None => None
  end.

(** The local-time getters return NaN ([None]) on an Invalid Date and an
    integer otherwise. *)
Definition getFullYear (d : Date) : option Z :=
  option_map (fun t => YearFromTime (LocalTime t)) d.

Definition getMonth (d : Date) : option Z :=
  option_map (fun t => MonthFromTime (LocalTime t)) d.

Definition getDate (d : Date) : option Z :=
  option_map (fun t => DateFromTime (LocalTime t)) d.

(** Date-only equality: the same local year, month and day of the month
    (and two Invalid Dates are alike). *)
Definition same_calendar_day (a b : Date) : Prop :=
  getFullYear a = getFullYear b
  /\ getMonth a = getMonth b
  /\ getDate a = getDate b.

(** The date at local midnight of the same local day. *)
Definition start_of_day (d : Date) : Date :=
  option_map (fun t => UTC (MakeDate (Day (LocalTime t)) 0)) d.

End WithHost.

(** [x + 1] on a Number that is NaN or an integer. *)
Definition succ (x : option Z) : option Z := option_map (fun z => z + 1) x.

(** [String(x)] on a Number that is NaN or an integer below 10^21 in
    magnitude, as every date field is. *)
Definition ToString (x : option Z) : string :=
  match x with
  | None => "NaN"
  | Some z => NilZero.string_of_int (Z.to_int z)
  end.

(** The number of days of month [mn] (0-based). *)
Definition DaysInMonth (mn : Z) (leap : bool) : Z :=
  match mn with
  | 1 => if leap then 29 else 28
  | 3 | 5 | 8 | 10 => 30
  | _ => 31
  end.

End JS.

(* ================================================================== *)
(** * Values, objects and Angular forms *)
(* ================================================================== *)

(** The values a filter control holds: [null], [undefined], booleans, strings,
    dates and arrays of strings. *)
Inductive jsval : Type :=
| Vnull
| Vundefined
| Vbool (b : bool)
| Vstring (s : string)
| Vdate (d : JS.Date)
| Varray (l : list string).

(** An exception value. *)
Inductive exn : Type := Error (message : string).

(** How a call completes: it returns or it throws. *)
Inductive completion (A : Type) : Type :=
| Normal (a : A)
| Abrupt (e : exn).
Arguments Normal {A} a.
Arguments Abrupt {A} e.

(** A plain object used as a record: its own properties in the order
    [Object.keys] enumerates them, which is taken to be the order of
    insertion (JavaScript puts property names that are array indices first;
    no control or parameter here is named by a number).  Property names are
    unique. *)
Definition object (A : Type) : Type := list (string * A).

Module Obj.

Definition keys {A} (o : object A) : list string := map fst o.

Fixpoint lookup {A} (k : string) (o : object A) : option A :=
  match o with
  | [] => None
  | (k', v) :: o' => if String.eqb k' k then Some v else lookup k o'
  end.

(** [o[k] = v]: an existing property keeps its place, a new one goes last. *)
Fixpoint set {A} (k : string) (v : A) (o : object A) : object A :=
  match o with
  | [] => [(k, v)]
  | (k', v') :: o' =>
      if String.eqb k' k then (k', v) :: o' else (k', v') :: set k v o'
  end.

End Obj.

Module Forms.

(** A [FormControl]: its value, whether it is enabled, and its validator
    ([true] when the value has no error). *)
Record FormControl : Type := {
  value_of : jsval;
  enabled : bool;
  validator : jsval -> bool
}.

(** A flat [FormGroup]: its [controls] object. *)
Definition FormGroup : Type := object FormControl.

(** [Validators.required]. *)
Definition required (v : jsval) : bool :=
  match v with
  | Vnull | Vundefined => false
  | Vstring s => negb (JS.is_empty s)
  | Varray [] => false
  | _ => true
  end.

Definition set_value (v : jsval) (c : FormControl) : FormControl :=
  {| value_of := v; enabled := enabled c; validator := validator c |}.

(** A group is disabled exactly when it has controls and all are disabled. *)
Definition disabled (fg : FormGroup) : bool :=
  match fg with
  | [] => false
  | _ => forallb (fun kc => negb (enabled (snd kc))) fg
  end.

(** [fg.value]: the values of the enabled controls, or of all controls when
    the group is disabled. *)
Definition value (fg : FormGroup) : object jsval :=
  map (fun kc => (fst kc, value_of (snd kc)))
      (filter (fun kc => enabled (snd kc) || disabled fg) fg).

(** [fg.valid]: the status is VALID, i.e. the group is not disabled and no
    enabled control has an error. *)
Definition valid (fg : FormGroup) : bool :=
  negb (disabled fg)
  && forallb (fun kc => negb (enabled (snd kc))
                        || validator (snd kc) (value_of (snd kc))) fg.

(** [fg.get(path)]: the path is split at dots and followed through nested
    groups; the controls of a flat group have no children. *)
Definition get (fg : FormGroup) (path : string) : option FormControl :=
  match JS.split "." path with
  | [name] => Obj.lookup name fg
  | _ => None
  end.

Fixpoint patch_control (name : string) (v : jsval) (fg : FormGroup) : FormGroup :=
  match fg with
  | [] => []
  | (k, c) :: fg' =>
      if String.eqb k name then (k, set_value v c) :: fg'
      else (k, c) :: patch_control name v fg'
  end.

(** [fg.patchValue(patch, ...)]: every property of the patch that names a
    control sets that control's value, enabled or not; the others are
    ignored. *)
Definition patchValue (patch : object jsval) (fg : FormGroup) : FormGroup :=
  fold_left (fun g kv => patch_control (fst kv) (snd kv) g) patch fg.



(** [control.enable()] and [control.disable()]: the value stays. *)
Definition set_enabled (on : bool) (c : FormControl) : FormControl :=
  {| value_of := value_of c; enabled := on; validator := validator c |}.

(** What a change of value keeps of a control: its name, whether it is
    enabled, and its validator. *)
Definition shape_of (kc : string * FormControl) : string * bool * (jsval -> bool) :=
  (fst kc, enabled (snd kc), validator (snd kc)).

(** The group after a call that changes the control [name] into [f] of
    it. *)
Fixpoint update_control (name : string) (f : FormControl -> FormControl)
    (fg : FormGroup) : FormGroup :=
  match fg with
  | [] => []
  | (k, c) :: fg' =>
      if String.eqb k name then (k, f c) :: fg'
      else (k, c) :: update_control name f fg'
  end.

End Forms.

(* ================================================================== *)
(** * The component: state, effects and abstract members *)
(* ================================================================== *)

(** The options object passed to [router.navigate]. *)
Record NavigationExtras : Type := {
  queryParams : object string;
  queryParamsHandling : string;
  replaceUrl : bool
}.

(** A [console.warn] of the reconciler. *)
Inductive diagnostic : Type :=
| NoFormControl (urlKey : string) (formKey : option string)
| FailedToDeserialize (urlKey : string) (error : exn).

(** The state a component instance and its collaborators hold.  [D] is the
    type of the loaded data. *)
Record Component (D : Type) : Type := {
  filterFormGroup : Forms.FormGroup;
  isLoading : bool;
  data : option D;
  (** the [dataUpdateRequested$] pipeline: the notifications sent to the
      subject, the errors [retry] has absorbed, and whether the subscriber is
      still attached *)
  requested : nat;
  retried : nat;
  subscribed : bool;
  (** the [valueChanges] pipeline: when the pending debounced emission is
      due, in milliseconds *)
  debounce : option Z;
  (** the router: the current query parameters and the calls to [navigate] *)
  query : object string;
  navigations : list NavigationExtras;
  (** the console: the warnings *)
  warnings : list diagnostic;
  (** the fetch collaborator: the form value each [loadData] call saw *)
  loads : list (object jsval);
  (** errors that went past every handler *)
  unhandled : list exn
}.
Arguments filterFormGroup {D} c.
Arguments isLoading {D} c.
Arguments data {D} c.
Arguments requested {D} c.
Arguments retried {D} c.
Arguments subscribed {D} c.
Arguments debounce {D} c.
Arguments query {D} c.
Arguments navigations {D} c.
Arguments warnings {D} c.
Arguments loads {D} c.
Arguments unhandled {D} c.

(** The members a concrete screen provides. [loadData] is given the form it
    reads and the number of calls made before this one; it returns the data
    or fails. *)
Class Screen (D : Type) : Type := {
  createFilters : Forms.FormGroup;
  loadData : Forms.FormGroup -> nat -> completion D;
  getUrlParamKey : string -> string;
  deserializeUrlParam : string -> string -> completion jsval
}.

Section Effects.
Context {D : Type}.

Definition with_form (f : Forms.FormGroup) (c : Component D) : Component D :=
  {| filterFormGroup := f; isLoading := isLoading c; data := data c;
     requested := requested c; retried := retried c;
     subscribed := subscribed c; debounce := debounce c;
     query := query c; navigations := navigations c; warnings := warnings c;
     loads := loads c; unhandled := unhandled c |}.

Definition with_loading (b : bool) (c : Component D) : Component D :=
  {| filterFormGroup := filterFormGroup c; isLoading := b; data := data c;
     requested := requested c; retried := retried c;
     subscribed := subscribed c; debounce := debounce c;
     query := query c; navigations := navigations c; warnings := warnings c;
     loads := loads c; unhandled := unhandled c |}.

Definition with_data (d : option D) (c : Component D) : Component D :=
  {| filterFormGroup := filterFormGroup c; isLoading := isLoading c; data := d;
     requested := requested c; retried := retried c;
     subscribed := subscribed c; debounce := debounce c;
     query := query c; navigations := navigations c; warnings := warnings c;
     loads := loads c; unhandled := unhandled c |}.

Definition with_retried (n : nat) (c : Component D) : Component D :=
  {| filterFormGroup := filterFormGroup c; isLoading := isLoading c; data := data c;
     requested := requested c; retried := n;
     subscribed := subscribed c; debounce := debounce c;
     query := query c; navigations := navigations c; warnings := warnings c;
     loads := loads c; unhandled := unhandled c |}.

Definition with_requested (n : nat) (c : Component D) : Component D :=
  {| filterFormGroup := filterFormGroup c; isLoading := isLoading c; data := data c;
     requested := n; retried := retried c;
     subscribed := subscribed c; debounce := debounce c;
     query := query c; navigations := navigations c; warnings := warnings c;
     loads := loads c; unhandled := unhandled c |}.

Definition with_subscribed (b : bool) (c : Component D) : Component D :=
  {| filterFormGroup := filterFormGroup c; isLoading := isLoading c; data := data c;
     requested := requested c; retried := retried c;
     subscribed := b; debounce := debounce c;
     query := query c; navigations := navigations c; warnings := warnings c;
     loads := loads c; unhandled := unhandled c |}.

Definition with_debounce (t : option Z) (c : Component D) : Component D :=
  {| filterFormGroup := filterFormGroup c; isLoading := isLoading c; data := data c;
     requested := requested c; retried := retried c;
     subscribed := subscribed c; debounce := t;
     query := query c; navigations := navigations c; warnings := warnings c;
     loads := loads c; unhandled := unhandled c |}.

Definition with_query (q : object string) (c : Component D) : Component D :=
  {| filterFormGroup := filterFormGroup c; isLoading := isLoading c; data := data c;
     requested := requested c; retried := retried c;
     subscribed := subscribed c; debounce := debounce c;
     query := q; navigations := navigations c; warnings := warnings c;
     loads := loads c; unhandled := unhandled c |}.

Definition with_navigations (l : list NavigationExtras) (c : Component D) : Component D :=
  {| filterFormGroup := filterFormGroup c; isLoading := isLoading c; data := data c;
     requested := requested c; retried := retried c;
     subscribed := subscribed c; debounce := debounce c;
     query := query c; navigations := l; warnings := warnings c;
     loads := loads c; unhandled := unhandled c |}.

Definition with_warnings (l : list diagnostic) (c : Component D) : Component D :=
  {| filterFormGroup := filterFormGroup c; isLoading := isLoading c; data := data c;
     requested := requested c; retried := retried c;
     subscribed := subscribed c; debounce := debounce c;
     query := query c; navigations := navigations c; warnings := l;
     loads := loads c; unhandled := unhandled c |}.

Definition with_loads (l : list (object jsval)) (c : Component D) : Component D :=
  {| filterFormGroup := filterFormGroup c; isLoading := isLoading c; data := data c;
     requested := requested c; retried := retried c;
     subscribed := subscribed c; debounce := debounce c;
     query := query c; navigations := navigations c; warnings := warnings c;
     loads := l; unhandled := unhandled c |}.

Definition with_unhandled (l : list exn) (c : Component D) : Component D :=
  {| filterFormGroup := filterFormGroup c; isLoading := isLoading c; data := data c;
     requested := requested c; retried := retried c;
     subscribed := subscribed c; debounce := debounce c;
     query := query c; navigations := navigations c; warnings := warnings c;
     loads := loads c; unhandled := l |}.

(** A method: it reads and writes the component and returns or throws. *)
Definition M (A : Type) : Type := Component D -> completion A * Component D.

Definition ret {A} (a : A) : M A := fun c => (Normal a, c).

Definition bind {A B} (m : M A) (f : A -> M B) : M B :=
  fun c => match m c with
           | (Normal a, c') => f a c'
           | (Abrupt e, c') => (Abrupt e, c')
           end.

(** [try { m } catch (e) { handler e }]. *)
Definition try_catch {A} (m : M A) (handler : exn -> M A) : M A :=
  fun c => match m c with
           | (Normal a, c') => (Normal a, c')
           | (Abrupt e, c') => handler e c'
           end.

Definition call {A} (r : completion A) : M A := fun c => (r, c).

Definition read {A} (field : Component D -> A) : M A := fun c => (Normal (field c), c).

Definition modify (f : Component D -> Component D) : M unit :=
  fun c => (Normal tt, f c).

(** [list.forEach(body)], the variables the callback assigns threaded
    through as [s]. *)
Fixpoint forEach {A S} (l : list A) (body : A -> S -> M S) (s : S) : M S :=
  match l with
  | [] => ret s
  | x :: l' => bind (body x s) (forEach l' body)
  end.

(** [console.warn]. *)
Definition warn (d : diagnostic) : M unit :=
  modify (fun c => with_warnings (warnings c ++ [d]) c).

(** [router.navigate([], extras)]: the query parameters of the current route
    are replaced, unless the handling asks to merge or to preserve them. *)
Definition navigate (extras : NavigationExtras) : M unit :=
  modify (fun c =>
    let next :=
      if String.eqb (queryParamsHandling extras) "merge" then
        fold_left (fun q kv => Obj.set (fst kv) (snd kv) q) (queryParams extras) (query c)
      else if String.eqb (queryParamsHandling extras) "preserve" then query c
      else queryParams extras in
    with_navigations (navigations c ++ [extras]) (with_query next c)).

End Effects.
Arguments M D A : clear implicits.

Declare Scope method_scope.
Delimit Scope method_scope with method.
Notation "x <- m ;; k" := (bind m (fun x => k))
  (at level 61, m at next level, right associativity) : method_scope.
Notation "m ;; k" := (bind m (fun _ => k))
  (at level 61, right associativity) : method_scope.

(* ================================================================== *)
(** * [FilteredAbstractComponent] *)
(* ================================================================== *)

Module FilteredAbstractComponent.

Section Base.
Context {host : JS.Host} {D : Type} {screen : Screen D}.

Local Open Scope method_scope.

(** [serializeUrlParam(key, value)]; [None] is [null]. *)
Definition serializeUrlParam (key : string) (v : jsval) : option string :=
  match v with
  | Vnull | Vundefined => None
  | Vdate d =>
      let year := JS.ToString (JS.getFullYear d) in
      let month := JS.padStart 2 "0" (JS.ToString (JS.succ (JS.getMonth d))) in
      let day := JS.padStart 2 "0" (JS.ToString (JS.getDate d)) in
      Some (year ++ "-" ++ month ++ "-" ++ day)
  | Varray l => Some (JS.join "," l)
  | Vbool b => Some (if b then "true" else "false")
  | Vstring s => Some s
  end.

(** [getFormControlKey(urlKey)]: the first control whose URL key is
    [urlKey]; [|| null] turns a miss, and an empty name, into [null]. *)
Definition getFormControlKey (fg : Forms.FormGroup) (urlKey : string) : option string :=
  match find (fun key => String.eqb (getUrlParamKey key) urlKey) (Obj.keys fg) with
  | Some key => if JS.is_empty key then None else Some key
  | None => None
  end.

(** One turn of the loop of [updateUrl], on the field [kv] of the form
    value. *)
Definition project_step (queryParams : object string) (kv : string * jsval) : object string :=
  let urlKey := getUrlParamKey (fst kv) in
  match serializeUrlParam urlKey (snd kv) with
  | Some serialized => Obj.set urlKey serialized queryParams
  | None => queryParams
  end.

(** The query parameters [updateUrl] builds from a form value. *)
Definition project (formValue : object jsval) : object string :=
  fold_left project_step formValue [].

(** [updateUrl()]. *)
Definition updateUrl : M D unit :=
  formValue <- read (fun c => Forms.value (filterFormGroup c)) ;;
  let queryParams := project formValue in
  navigate {| queryParams := queryParams;
              queryParamsHandling := "replace";
              replaceUrl := true |}.

(** One turn of the loop of [updateFormFromUrl], on the entry
    [urlKey = value]; [formValue] and [hasChanges] are the variables the
    callback assigns. *)
Definition reconcile_entry (entry : string * string)
    (locals : object jsval * bool) : M D (object jsval * bool) :=
  let '(urlKey, value) := entry in
  let '(formValue, hasChanges) := locals in
  if negb (JS.is_empty value) then
    try_catch
      (fg <- read filterFormGroup ;;
       let formKey := getFormControlKey fg urlKey in
       match formKey with
       | Some key =>
           match Forms.get fg key with
           | Some _ =>
               deserializedValue <- call (deserializeUrlParam urlKey value) ;;
               ret (Obj.set key deserializedValue formValue, true)
           | None =>
               warn (NoFormControl urlKey formKey) ;; ret (formValue, hasChanges)
           end
       | None =>
           warn (NoFormControl urlKey formKey) ;; ret (formValue, hasChanges)
       end)
      (fun error =>
         warn (FailedToDeserialize urlKey error) ;; ret (formValue, hasChanges))
  else ret (formValue, hasChanges).

(** The loop of [updateFormFromUrl]: it returns [formValue], the patch, and
    [hasChanges]. *)
Definition reconcile (params : object string) : M D (object jsval * bool) :=
  forEach params reconcile_entry ([], false).

(** [updateFormFromUrl(params)].  The patch is applied with
    [emitEvent: false]: [valueChanges] does not emit, so no debounced
    emission is scheduled. *)
Definition updateFormFromUrl (params : object string) : M D unit :=
  locals <- reconcile params ;;
  let '(formValue, hasChanges) := locals in
  if (hasChanges : bool) then
    modify (fun c => with_form (Forms.patchValue formValue (filterFormGroup c)) c)
  else ret tt.

Definition loadFromUrl : M D unit :=
  params <- read query ;;
  updateFormFromUrl params.

(** The subscription to [dataUpdateRequested$], run on one [next]:
    [tap] sets the loading flag, [switchMap] calls [loadData], whose result
    is taken to arrive before the next event; on a result the second [tap]
    and the subscriber run; on an error [catchError] clears the flag and
    rethrows into [retry({count: 3})], which resubscribes to the subject
    while it has absorbed fewer than 3 errors and otherwise lets the error
    through to a subscriber that has no error handler.  A subject with no
    subscriber left drops the notification, which is counted all the same. *)
Definition dataUpdateRequested_next : M D unit :=
  modify (fun c => with_requested (S (requested c)) c) ;;
  live <- read subscribed ;;
  if (live : bool) then
    modify (with_loading true) ;;
    fg <- read filterFormGroup ;;
    calls <- read loads ;;
    modify (with_loads (calls ++ [Forms.value fg])) ;;
    match loadData fg (List.length calls) with
    | Normal d =>
        modify (with_loading false) ;;
        modify (with_data (Some d))
    | Abrupt error =>
        modify (with_loading false) ;;
        soFar <- read retried ;;
        if (soFar <? 3)%nat then modify (with_retried (S soFar))
        else
          modify (with_subscribed false) ;;
          modify (fun c => with_unhandled (unhandled c ++ [error]) c)
    end
  else ret tt.

(** The subscriber of the debounced [valueChanges]. *)
Definition onDebouncedValueChange : M D unit :=
  updateUrl ;;
  fg <- read filterFormGroup ;;
  if Forms.valid fg then dataUpdateRequested_next else ret tt.

(** [ngOnInit()]: the form is created and loaded from the URL, the
    pipelines are subscribed, [route.queryParams] emits the current
    parameters to its new subscriber, and the first load is requested. *)
Definition ngOnInit : M D unit :=
  modify (with_form createFilters) ;;
  loadFromUrl ;;
  modify (with_subscribed true) ;;
  modify (with_retried 0) ;;
  params <- read query ;;
  updateFormFromUrl params ;;
  dataUpdateRequested_next.

(** ** The event loop

    What reaches the component: [valueChanges] emitting after the form was
    mutated, and [route.queryParams] emitting.  Each emission of
    [valueChanges] is a fresh object, so [distinctUntilChanged()] lets all of
    them through; [valueChanges] never errors, so the [retry] of that
    pipeline never resubscribes. *)
Inductive event : Type :=
| ValueChange (mutation : Forms.FormGroup -> Forms.FormGroup)
| QueryParams (params : object string).

Definition debounceTime : Z := 300.

(** The debounce timer fires if it is due at time [now]. *)
Definition fire_due (now : Z) : M D unit :=
  pending <- read debounce ;;
  match pending with
  | Some due =>
      if due <=? now then modify (with_debounce None) ;; onDebouncedValueChange
      else ret tt
  | None => ret tt
  end.

(** An event arriving at time [now]: a timer that is due runs first; a
    value change restarts the timer. *)
Definition dispatch (now : Z) (e : event) : M D unit :=
  fire_due now ;;
  match e with
  | ValueChange mutation =>
      modify (fun c => with_form (mutation (filterFormGroup c)) c) ;;
      modify (with_debounce (Some (now + debounceTime)))
  | QueryParams params =>
      modify (with_query params) ;;
      updateFormFromUrl params
  end.

Fixpoint run (trace : list (Z * event)) : M D unit :=
  match trace with
  | [] => ret tt
  | (now, e) :: rest => dispatch now e ;; run rest
  end.

(** Time passes with no further event: a pending timer fires. *)
Definition settle : M D unit :=
  pending <- read debounce ;;
  match pending with
  | Some due => fire_due due
  | None => ret tt
  end.

(** ** Notions the statements use *)

(** The options [updateUrl] passes to [router.navigate] for a form. *)
Definition wire_write (fg : Forms.FormGroup) : NavigationExtras :=
  {| queryParams := project (Forms.value fg);
     queryParamsHandling := "replace";
     replaceUrl := true |}.

(** What one entry of the incoming record comes to, given the form: it is
    skipped, it sets a property of the patch, or it is warned about. *)
Inductive entry_result : Type :=
| Skipped
| Patched (key : string) (v : jsval)
| Warned (d : diagnostic).

Definition entry_outcome (fg : Forms.FormGroup) (entry : string * string) : entry_result :=
  let '(urlKey, value) := entry in
  if JS.is_empty value then Skipped
  else
    match getFormControlKey fg urlKey with
    | Some key =>
        match Forms.get fg key with
        | Some _ =>
            match deserializeUrlParam urlKey value with
            | Normal v => Patched key v
            | Abrupt e => Warned (FailedToDeserialize urlKey e)
            end
        | None => Warned (NoFormControl urlKey (Some key))
        end
    | None => Warned (NoFormControl urlKey None)
    end.

(** The assignments to the patch and the warnings an incoming record leads
    to, in order. *)
Definition assignments (fg : Forms.FormGroup) (params : object string) : list (string * jsval) :=
  flat_map (fun entry => match entry_outcome fg entry with
                         | Patched key v => [(key, v)]
                         | _ => []
                         end) params.

Definition diagnostics (fg : Forms.FormGroup) (params : object string) : list diagnostic :=
  flat_map (fun entry => match entry_outcome fg entry with
                         | Warned d => [d]
                         | _ => []
                         end) params.

Definition assign (patch : object jsval) (kv : string * jsval) : object jsval :=
  Obj.set (fst kv) (snd kv) patch.

(** The entries [updateUrl] writes, one per field that serializes. *)
Definition serialized (formValue : object jsval) : object string :=
  flat_map (fun kv => match serializeUrlParam (getUrlParamKey (fst kv)) (snd kv) with
                      | Some s => [(getUrlParamKey (fst kv), s)]
                      | None => []
                      end) formValue.

Definition changed (l : list (string * jsval)) : bool :=
  match l with [] => false | _ => true end.

(** The component after [updateFormFromUrl(params)]. *)
Definition reconciled (params : object string) (c : Component D) : Component D :=
  let fg := filterFormGroup c in
  with_form (Forms.patchValue (fold_left assign (assignments fg params) []) fg)
            (with_warnings (warnings c ++ diagnostics fg params) c).

(** An entry of the incoming record with a non-empty value. *)
Definition present (entry : string * string) : bool :=
  negb (JS.is_empty (snd entry)).

(** The entries a control contributes to the wire; [dis] tells whether the
    group is disabled. *)
Definition wire_of_control (dis : bool) (kc : string * Forms.FormControl) : object string :=
  if Forms.enabled (snd kc) || dis then
    match serializeUrlParam (getUrlParamKey (fst kc)) (Forms.value_of (snd kc)) with
    | Some s => [(getUrlParamKey (fst kc), s)]
    | None => []
    end
  else [].

(** An entry of the wire under another key than [k]. *)
Definition other_key (k : string) (kv : string * string) : bool :=
  negb (String.eqb (fst kv) k).

(** A value that is absent. *)
Definition absent (v : jsval) : Prop := v = Vnull \/ v = Vundefined.

(** A control name that [getFormControlKey] and [FormGroup.get] accept: not
    empty and without a dot. *)
Definition plain_name (k : string) : Prop :=
  JS.is_empty k = false /\ JS.split "." k = [k].





(** [n] notifications of [dataUpdateRequested$] in a row. *)
Fixpoint requests (n : nat) : M D unit :=
  match n with
  | O => ret tt
  | S k => dataUpdateRequested_next ;; requests k
  end.

(** A burst of value changes: the times and the mutations.  Each change
    comes less than the debounce time after the one before, the first one
    after [last]. *)
Fixpoint in_window (last : Z) (changes : list (Z * (Forms.FormGroup -> Forms.FormGroup))) : Prop :=
  match changes with
  | [] => True
  | (now, _) :: rest =>
      last <= now < last + debounceTime /\ in_window now rest
  end.

Definition value_changes (changes : list (Z * (Forms.FormGroup -> Forms.FormGroup)))
  : list (Z * event) :=
  map (fun tm => (fst tm, ValueChange (snd tm))) changes.

(** The form after the mutations of a burst. *)
Definition mutated (changes : list (Z * (Forms.FormGroup -> Forms.FormGroup)))
    (fg : Forms.FormGroup) : Forms.FormGroup :=
  fold_left (fun g tm => snd tm g) changes fg.

(** [value === null || value === undefined]. *)
Definition is_absent (v : jsval) : bool :=
  match v with
  | Vnull | Vundefined => true
  | _ => false
  end.

(** A control that reaches the wire: it is in [fg.value] and its value is
    not absent. *)
Definition on_wire (fg : Forms.FormGroup) (kc : string * Forms.FormControl) : bool :=
  (Forms.enabled (snd kc) || Forms.disabled fg)
  && negb (is_absent (Forms.value_of (snd kc))).

(** The call of [loadData] number [call] on the form [fg] fails. *)
Definition fails (fg : Forms.FormGroup) (call : nat) : bool :=
  match loadData fg call with
  | Abrupt _ => true
  | Normal _ => false
  end.

(** How many of the [n] calls from number [first] on fail. *)
Fixpoint failures (fg : Forms.FormGroup) (first n : nat) : nat :=
  match n with
  | O => O
  | S k => ((if fails fg first then 1 else 0) + failures fg (S first) k)%nat
  end.

End Base.

(** The screen with another deserializer. *)
Definition with_deserializer {D} (f : string -> string -> completion jsval)
    (screen : Screen D) : Screen D :=
  Build_Screen D createFilters loadData getUrlParamKey f.

End FilteredAbstractComponent.

(* ================================================================== *)
(** * [StatsComponent] *)
(* ================================================================== *)

Module StatsComponent.

Section Stats.
Context {host : JS.Host}.

(** [StatsModel] is the empty object type. *)
Definition StatsModel : Type := unit.

Definition of_field (x : option Z) : JS.num :=
  match x with
  | Some z => JS.Fin (z # 1)
  | None => JS.NaN
  end.

Definition control (v : jsval) (on : bool) : Forms.FormControl :=
  {| Forms.value_of := v; Forms.enabled := on; Forms.validator := Forms.required |}.

(** [createFilters()], [today] being [new Date()]. *)
Definition createFilters (today : JS.Date) : Forms.FormGroup :=
  [ ("dateFrom",
     control (Vdate (JS.Date_new (of_field (JS.getFullYear today))
                                 (of_field (JS.getMonth today))
                                 (of_field (option_map (fun d => d - 14) (JS.getDate today)))))
             true);
    ("dateTo", control (Vdate today) true);
    ("compareDateFrom", control Vnull false);
    ("compareDateTo", control Vnull false) ].

(** [loadData()]: [of([])]. *)
Definition loadData (fg : Forms.FormGroup) (calls : nat) : completion (list StatsModel) :=
  Normal [].

Definition getUrlParamKey (formControlName : string) : string := formControlName.

(** [key.includes('date') || key.includes('Date')]. *)
Definition date_key (key : string) : bool :=
  JS.includes key "date" || JS.includes key "Date".

(** [deserializeUrlParam(key, value)].  The destructuring takes the first
    three elements of the split, [undefined] where there are fewer, and
    [undefined] is NaN as a number. *)
Definition deserializeUrlParam (key value : string) : completion jsval :=
  if date_key key then
    let parts := map JS.Number (JS.split "-" value) in
    let year := nth 0 parts JS.NaN in
    let month := nth 1 parts JS.NaN in
    let day := nth 2 parts JS.NaN in
    Normal (Vdate (JS.Date_new year (JS.sub month (JS.Fin 1)) day))
  else Normal (Vstring value).

(** The screen, created at the date [today]. *)
Definition screen (today : JS.Date) : Screen (list StatsModel) :=
  Build_Screen _ (createFilters today) loadData getUrlParamKey deserializeUrlParam.

(** The names of the controls. *)
Definition names : list string :=
  ["dateFrom"; "dateTo"; "compareDateFrom"; "compareDateTo"].

(** The values the codec carries faithfully: no value, an Invalid Date, or a
    valid date whose local year is at least 100. *)
Definition codec_date (d : JS.Date) : Prop :=
  match d with
  | Some t => Z.abs t <= JS.maxTime /\ 100 <= JS.YearFromTime (JS.LocalTime t)
  | None => True
  end.






(** A call on [this.filterFormGroup.get(name)], followed by [k]: a
    [TypeError] when [get] returns [null]. *)
Definition on_control {A} (name : string) (f : Forms.FormControl -> Forms.FormControl)
    (k : Forms.FormGroup -> completion A * Forms.FormGroup)
    (fg : Forms.FormGroup) : completion A * Forms.FormGroup :=
  match Forms.get fg name with
  | Some _ => k (Forms.update_control name f fg)
  | None => (Abrupt (Error "TypeError"), fg)
  end.

(** [toggleCompare()], on the form: it returns what [isCompareMode] is set
    to, and the form as the calls have left it. *)
Definition toggleCompare (fg : Forms.FormGroup) : completion bool * Forms.FormGroup :=
  let isCompareMode_set fg' :=
    match Forms.get fg' "compareDateFrom" with
    | Some from => (Normal (Forms.enabled from), fg')
    | None => (Abrupt (Error "TypeError"), fg')
    end in
  match Forms.get fg "compareDateFrom" with
  | Some from =>
      if Forms.enabled from then
        on_control "compareDateFrom" (Forms.set_value Vnull)
          (on_control "compareDateTo" (Forms.set_value Vnull)
             (on_control "compareDateFrom" (Forms.set_enabled false)
                (on_control "compareDateTo" (Forms.set_enabled false)
                   isCompareMode_set))) fg
      else
        on_control "compareDateFrom" (Forms.set_enabled true)
          (on_control "compareDateTo" (Forms.set_enabled true)
             isCompareMode_set) fg
  | None => (Abrupt (Error "TypeError"), fg)
  end.

(** What [toggleCompare()], called at time [now], sends to [valueChanges]:
    the last [enable()] or [disable()] emits at once, with the form as the
    calls have left it, and the [updateValueAndValidity()] of the zero-delay
    timer emits again, [delay] later, with the form as it is. *)
Definition toggleCompare_emits (now delay : Z)
  : list (Z * (Forms.FormGroup -> Forms.FormGroup)) :=
  [ (now, fun fg => snd (toggleCompare fg));
    (now + delay, fun fg => fg) ].


(** The text [y-mm-dd] of a calendar date, the month counted from 1. *)
Definition date_text (y m d : Z) : string :=
  JS.ToString (Some y) ++ "-" ++ JS.padStart 2 "0" (JS.ToString (Some m))
  ++ "-" ++ JS.padStart 2 "0" (JS.ToString (Some d)).

(** An entry of the query string under the name of a control. *)
Definition known (entry : string * string) : bool :=
  existsb (String.eqb (fst entry)) names.

End Stats.

End StatsComponent.

(* ================================================================== *)
(** * A host, a screen and a component to run the code on *)
(* ================================================================== *)

Module Example.

(** A host on UTC. *)
Definition utc : JS.Host := {| JS.LocalTZA := 0 |}.

(** 2024-01-31T10:34:56.789Z. *)
Definition today : JS.Date := Some 1706697296789.

Definition stats : Screen (list StatsComponent.StatsModel) :=
  StatsComponent.screen (host := utc) today.

(** A component before [ngOnInit]. *)
Definition blank {D : Type} : Component D :=
  {| filterFormGroup := []; isLoading := false; data := None;
     requested := 0; retried := 0; subscribed := false; debounce := None;
     query := []; navigations := []; warnings := []; loads := []; unhandled := [] |}.

(** The stats screen after [ngOnInit], opened without query parameters. *)
Definition opened : Component (list StatsComponent.StatsModel) :=
  snd (FilteredAbstractComponent.ngOnInit (screen := stats) blank).

(** A screen of three filters whose data source always fails and whose
    deserializer throws on the key [b]. *)
Definition failing : Screen unit :=
  {| createFilters :=
       [ ("a", {| Forms.value_of := Vnull; Forms.enabled := true;
                  Forms.validator := fun _ => true |});
         ("b", {| Forms.value_of := Vstring "old"; Forms.enabled := true;
                  Forms.validator := fun _ => true |});
         ("c", {| Forms.value_of := Vnull; Forms.enabled := true;
                  Forms.validator := Forms.required |}) ];
     loadData := fun _ _ => Abrupt (Error "unavailable");
     getUrlParamKey := fun name => name;
     deserializeUrlParam := fun key value =>
       if String.eqb key "b" then Abrupt (Error "malformed")
       else Normal (Vstring value) |}.

Definition failing_opened : Component unit :=
  snd (FilteredAbstractComponent.ngOnInit (screen := failing) blank).

(** A screen of one filter whose data source fails on every other call,
    from the first one on. *)
Definition flaky : Screen unit :=
  {| createFilters :=
       [ ("q", {| Forms.value_of := Vstring "x"; Forms.enabled := true;
                  Forms.validator := fun _ => true |}) ];
     loadData := fun _ calls =>
       if Nat.even calls then Abrupt (Error "unavailable") else Normal tt;
     getUrlParamKey := fun name => name;
     deserializeUrlParam := fun key value => Normal (Vstring value) |}.

End Example.

(** Case analysis on the comparisons of the month table. *)
Ltac month_cases :=
  repeat match goal with
         | |- context [?a <? ?b] =>
             let E := fresh "E" in
             destruct (a <? b) eqn:E;
             [apply Z.ltb_lt in E|apply Z.ltb_ge in E]
         end.

(* ================================================================== *)
(** * Properties *)
(* ================================================================== *)

Module JSFacts.
Import JS.

Lemma append_empty_r (s : string) : (s ++ EmptyString)%string = s.
Proof. induction s; simpl; congruence. Qed.

Lemma forall_chars_app p a b :
  forall_chars p (a ++ b) = forall_chars p a && forall_chars p b.
Proof. induction a; simpl; [reflexivity|]. rewrite IHa. apply andb_assoc. Qed.

Lemma span_all p s : forall_chars p s = true -> span p s = (s, EmptyString).
Proof.
  induction s as [|c s IH]; simpl; [reflexivity|].
  intros H. apply andb_prop in H. destruct H as [Hc Hs].
  rewrite Hc, (IH Hs). reflexivity.
Qed.

Lemma digit_not_space c : is_digit c = true -> is_space c = false.
Proof.
  unfold is_digit, is_space. intros H.
  apply andb_prop in H. destruct H as [H1 H2].
  apply Z.leb_le in H1. apply Z.leb_le in H2.
  apply orb_false_iff. split; [apply orb_false_iff; split|].
  - apply andb_false_iff. right. apply Z.leb_gt. lia.
  - apply Z.eqb_neq. lia.
  - apply Z.eqb_neq. lia.
Qed.

Lemma digit_neq c (k : ascii) : is_digit c = true -> is_digit k = false -> Ascii.eqb c k = false.
Proof.
  intros H1 H2. destruct (Ascii.eqb_spec c k); [subst; congruence|reflexivity].
Qed.

Lemma trimEnd_digits s : forall_chars is_digit s = true -> trimEnd s = s.
Proof.
  induction s as [|c s IH]; simpl; [reflexivity|].
  intros H. apply andb_prop in H. destruct H as [Hc Hs].
  rewrite (IH Hs), (digit_not_space _ Hc). reflexivity.
Qed.

Lemma trim_digits s : forall_chars is_digit s = true -> trim s = s.
Proof.
  intros H. unfold trim.
  replace (trimStart s) with s; [apply trimEnd_digits; exact H|].
  destruct s as [|c s]; simpl; [reflexivity|].
  simpl in H. apply andb_prop in H. destruct H as [Hc _].
  rewrite (digit_not_space _ Hc). reflexivity.
Qed.

(** A non-empty run of digits reads as the integer it spells. *)
Lemma Number_digits s z :
  forall_chars is_digit s = true -> s <> EmptyString ->
  DecimalDigits s = Some z -> Z.abs z <= 2 ^ 53 ->
  Number s = Fin (z # 1).
Proof.
  intros Hd Hne Hz Hb. unfold Number. rewrite (trim_digits _ Hd).
  destruct s as [|c s]; [congruence|]. cbn [is_empty].
  pose proof Hd as Hd'. simpl in Hd'. apply andb_prop in Hd'. destruct Hd' as [Hc Hs].
  assert (HN : NonDecimalIntegerLiteral (String c s) = None).
  { unfold NonDecimalIntegerLiteral. destruct s as [|c' s']; [reflexivity|].
    simpl in Hs. apply andb_prop in Hs. destruct Hs as [Hc' _].
    rewrite !(digit_neq c') by (exact Hc' || reflexivity). reflexivity. }
  rewrite HN.
  rewrite !(digit_neq c) by (exact Hc || reflexivity).
  unfold StrUnsignedDecimalLiteral.
  assert (HI : String.eqb (String c s) "Infinity" = false).
  { destruct (String.eqb_spec (String c s) "Infinity") as [E|]; [|reflexivity].
    rewrite E in Hd. discriminate Hd. }
  rewrite HI, (span_all _ _ Hd). cbn [is_empty option_map with_exponent].
  unfold decimal_value. rewrite append_empty_r, Hz.
  change (Z.of_nat (String.length EmptyString)) with 0.
  change (0 <=? 0 - 0) with true. change (0 - 0) with 0.
  cbn [of_literal option_map].
  unfold round_binary64. cbn [Qnum Qden].
  replace (z * 10 ^ 0) with z by (rewrite Z.pow_0_r; lia).
  replace ((1 =? 1) && (Z.abs z <=? 2 ^ 53)) with true; [reflexivity|].
  symmetry. apply andb_true_intro. split; [reflexivity|apply Z.leb_le; exact Hb].
Qed.

Lemma string_of_uint_digits d :
  forall_chars is_digit (NilEmpty.string_of_uint d) = true.
Proof. induction d; simpl; try rewrite IHd; reflexivity. Qed.

Lemma DecimalDigits_uint d :
  DecimalDigits (NilZero.string_of_uint d) = Some (Z.of_uint d).
Proof.
  unfold DecimalDigits. destruct d; try reflexivity;
    unfold NilZero.string_of_uint; rewrite NilEmpty.usu; reflexivity.
Qed.

(** Printing a non-negative integer gives a non-empty run of digits that
    reads back as the integer. *)
Lemma ToString_nonneg z :
  0 <= z ->
  forall_chars is_digit (ToString (Some z)) = true
  /\ ToString (Some z) <> EmptyString
  /\ DecimalDigits (ToString (Some z)) = Some z.
Proof.
  intros Hz. unfold ToString.
  assert (E : exists d, Z.to_int z = Decimal.Pos d).
  { destruct z; simpl; eauto. lia. }
  destruct E as [d E]. rewrite E. simpl.
  assert (Ez : Z.of_uint d = z).
  { pose proof (DecimalZ.of_to z) as H. rewrite E in H. exact H. }
  repeat split.
  - destruct d; try reflexivity; apply string_of_uint_digits.
  - destruct d; discriminate.
  - rewrite DecimalDigits_uint. congruence.
Qed.

Lemma replicate_zero_digits n s :
  forall_chars is_digit s = true ->
  forall_chars is_digit (replicate n "0" ++ s) = true.
Proof. intros H. induction n; simpl; assumption. Qed.

Lemma DecimalDigits_zero s : DecimalDigits (String "0" s) = DecimalDigits s.
Proof.
  unfold DecimalDigits. simpl.
  destruct (NilEmpty.uint_of_string s); reflexivity.
Qed.

Lemma padStart_digits n s z :
  forall_chars is_digit s = true -> s <> EmptyString -> DecimalDigits s = Some z ->
  forall_chars is_digit (padStart n "0" s) = true
  /\ padStart n "0" s <> EmptyString
  /\ DecimalDigits (padStart n "0" s) = Some z.
Proof.
  intros Hd Hne Hz. unfold padStart.
  generalize (n - String.length s)%nat. intros k. repeat split.
  - apply replicate_zero_digits. exact Hd.
  - destruct k; simpl; [exact Hne|discriminate].
  - induction k; simpl; [exact Hz|]. rewrite DecimalDigits_zero. exact IHk.
Qed.

Lemma split_digits_last s :
  forall_chars is_digit s = true -> split "-" s = [s].
Proof.
  induction s as [|c s IH]; simpl; [reflexivity|].
  intros H. apply andb_prop in H. destruct H as [Hc Hs].
  rewrite (digit_neq c "-" Hc eq_refl), (IH Hs). reflexivity.
Qed.

Lemma split_digits_cons s rest :
  forall_chars is_digit s = true ->
  split "-" (s ++ String "-" rest) = s :: split "-" rest.
Proof.
  induction s as [|c s IH]; simpl; [reflexivity|].
  intros H. apply andb_prop in H. destruct H as [Hc Hs].
  rewrite (digit_neq c "-" Hc eq_refl), (IH Hs). reflexivity.
Qed.

(** *** The calendar *)

Lemma DayFromYear_step y : DayFromYear (y + 1) = DayFromYear y + DaysInYear y.
Proof.
  unfold DayFromYear, DaysInYear, is_leap.
  destruct (y mod 4 =? 0) eqn:E4; destruct (y mod 100 =? 0) eqn:E100;
    destruct (y mod 400 =? 0) eqn:E400; cbn [andb orb negb];
    rewrite ?Z.eqb_eq, ?Z.eqb_neq in *;
    Z.div_mod_to_equations; lia.
Qed.

Lemma DayFromYear_mono a b : a <= b -> DayFromYear a <= DayFromYear b.
Proof. intros H. unfold DayFromYear. Z.div_mod_to_equations. lia. Qed.

(** [YearFromDay d] is the year that contains day [d]. *)
Lemma YearFromDay_spec d :
  DayFromYear (YearFromDay d) <= d < DayFromYear (YearFromDay d + 1).
Proof.
  unfold YearFromDay.
  set (y := 1970 + 400 * d / 146097).
  destruct (DayFromYear (y + 1) <=? d) eqn:E1;
    [apply Z.leb_le in E1|apply Z.leb_gt in E1].
  - split; [exact E1|]. subst y. unfold DayFromYear in *.
    Z.div_mod_to_equations. lia.
  - destruct (DayFromYear y <=? d) eqn:E2;
      [apply Z.leb_le in E2|apply Z.leb_gt in E2].
    + split; assumption.
    + replace (y - 1 + 1) with y by lia. split; [|exact E2].
      subst y. unfold DayFromYear in *. Z.div_mod_to_equations. lia.
Qed.

Lemma DayWithinYear_range t :
  0 <= DayWithinYear t < 365 + InLeapYear t.
Proof.
  unfold DayWithinYear, InLeapYear, YearFromTime.
  pose proof (YearFromDay_spec (Day t)) as H.
  rewrite DayFromYear_step in H. unfold DaysInYear in H.
  destruct (is_leap (YearFromDay (Day t))); lia.
Qed.

Lemma MonthFromTime_range t : 0 <= MonthFromTime t <= 11.
Proof.
  unfold MonthFromTime.
  repeat match goal with |- context [if ?b then _ else _] => destruct b end; lia.
Qed.

Lemma InLeapYear_range t : 0 <= InLeapYear t <= 1.
Proof. unfold InLeapYear. destruct (is_leap _); lia. Qed.

Lemma DateFromTime_range t : 1 <= DateFromTime t <= 31.
Proof.
  pose proof (DayWithinYear_range t) as Hd.
  pose proof (InLeapYear_range t) as Hl.
  unfold DateFromTime, MonthFromTime.
  set (d := DayWithinYear t) in *. set (l := InLeapYear t) in *.
  month_cases; cbn [Z.leb]; lia.
Qed.

(** A day is the first day of its year, plus the days before its month, plus
    its day of the month. *)
Lemma Day_decomposition t :
  Day t = DayFromYear (YearFromTime t)
          + DaysBeforeMonth (MonthFromTime t) (is_leap (YearFromTime t))
          + DateFromTime t - 1.
Proof.
  pose proof (DayWithinYear_range t) as Hd.
  unfold DateFromTime, MonthFromTime, DaysBeforeMonth.
  assert (El : InLeapYear t = if is_leap (YearFromTime t) then 1 else 0) by reflexivity.
  assert (Ed : DayWithinYear t = Day t - DayFromYear (YearFromTime t)) by reflexivity.
  set (d := DayWithinYear t) in *. set (l := InLeapYear t) in *.
  rewrite <- El.
  month_cases; cbn [Z.leb]; lia.
Qed.

Lemma Day_of_midnight k : Day (k * msPerDay) = k.
Proof. unfold Day, msPerDay. apply Z.div_mul. lia. Qed.

Lemma fields_of_Day t1 t2 :
  Day t1 = Day t2 ->
  YearFromTime t1 = YearFromTime t2
  /\ MonthFromTime t1 = MonthFromTime t2
  /\ DateFromTime t1 = DateFromTime t2.
Proof.
  intros E.
  assert (Ey : YearFromTime t1 = YearFromTime t2) by (unfold YearFromTime; congruence).
  assert (Ed : DayWithinYear t1 = DayWithinYear t2).
  { unfold DayWithinYear. rewrite E, Ey. reflexivity. }
  assert (El : InLeapYear t1 = InLeapYear t2).
  { unfold InLeapYear. rewrite Ey. reflexivity. }
  assert (Em : MonthFromTime t1 = MonthFromTime t2).
  { unfold MonthFromTime. rewrite Ed, El. reflexivity. }
  repeat split; try assumption.
  unfold DateFromTime. rewrite Ed, El, Em. reflexivity.
Qed.

Lemma YearFromTime_bound t :
  Z.abs t <= maxTime + msPerDay -> Z.abs (YearFromTime t) <= 300000.
Proof.
  intros H. unfold YearFromTime.
  pose proof (YearFromDay_spec (Day t)) as Hs.
  assert (Hd : -100000001 <= Day t <= 100000001).
  { unfold Day, maxTime, msPerDay in *. Z.div_mod_to_equations. lia. }
  set (y := YearFromDay (Day t)) in *. clearbody y.
  unfold DayFromYear in Hs. Z.div_mod_to_equations. lia.
Qed.

Lemma year_100_day t : 100 <= YearFromTime t -> DayFromYear 100 <= Day t.
Proof.
  intros H. pose proof (YearFromDay_spec (Day t)) as Hs.
  pose proof (DayFromYear_mono 100 (YearFromTime t) H).
  unfold YearFromTime in *. lia.
Qed.

Lemma sub_one z :
  Z.abs z <= 2 ^ 53 -> sub (Fin (z + 1 # 1)) (Fin 1) = Fin (z # 1).
Proof.
  intros H. unfold sub, round_binary64. cbn [Qminus Qplus Qopp Qnum Qden Pos.mul].
  replace ((z + 1) * 1 + - (1) * 1) with z by lia.
  replace ((1 =? 1) && (Z.abs z <=? 2 ^ 53)) with true; [reflexivity|].
  symmetry. apply andb_true_intro. split; [reflexivity|apply Z.leb_le; exact H].
Qed.

Lemma truncate_integer z : truncate (z # 1) = z.
Proof. unfold truncate. cbn [Qnum Qden]. apply Z.quot_1_r. Qed.

Section Dates.
Context {host : Host}.

(** [new Date(y, m, d)] on the fields of a date from year 100 on gives the
    local midnight of that day. *)
Lemma Date_new_of_fields t :
  Z.abs t <= maxTime -> Z.abs LocalTZA <= msPerDay ->
  100 <= YearFromTime (LocalTime t) ->
  Date_new (Fin (YearFromTime (LocalTime t) # 1))
           (Fin (MonthFromTime (LocalTime t) # 1))
           (Fin (DateFromTime (LocalTime t) # 1))
  = start_of_day (Some t).
Proof.
  intros Ht Hz Hy. unfold Date_new, start_of_day, MakeDay. cbn [option_map].
  rewrite !truncate_integer.
  replace ((0 <=? YearFromTime (LocalTime t)) && (YearFromTime (LocalTime t) <=? 99))
    with false.
  2:{ symmetry. apply andb_false_iff. right. apply Z.leb_gt. lia. }
  rewrite !truncate_integer.
  pose proof (MonthFromTime_range (LocalTime t)) as Hm.
  rewrite (Z.div_small _ 12), (Z.mod_small _ 12) by lia.
  rewrite Z.add_0_r, <- Day_decomposition.
  unfold TimeClip.
  replace (maxTime <? Z.abs (UTC (MakeDate (Day (LocalTime t)) 0))) with false;
    [reflexivity|].
  symmetry. apply Z.ltb_ge.
  pose proof (year_100_day _ Hy) as Hd.
  change (DayFromYear 100) with (-683003) in Hd.
  unfold UTC, MakeDate, LocalTime, Day, maxTime, msPerDay in *.
  Z.div_mod_to_equations. lia.
Qed.

Lemma start_of_day_same d : same_calendar_day d (start_of_day d).
Proof.
  destruct d as [t|]; [|repeat split].
  unfold same_calendar_day, getFullYear, getMonth, getDate, start_of_day.
  cbn [option_map].
  assert (E : Day (LocalTime t) = Day (LocalTime (UTC (MakeDate (Day (LocalTime t)) 0)))).
  { unfold LocalTime at 2, UTC, MakeDate.
    replace (Day (LocalTime t) * msPerDay + 0 - LocalTZA + LocalTZA)
      with (Day (LocalTime t) * msPerDay) by lia.
    symmetry. apply Day_of_midnight. }
  destruct (fields_of_Day _ _ E) as (Ey & Em & Ed).
  rewrite Ey, Em, Ed. repeat split.
Qed.

End Dates.

End JSFacts.

Module CodecFacts.
Import JS JSFacts FilteredAbstractComponent.

Lemma forall_below (P : Z -> bool) (lo n : Z) :
  forallb P (map (fun i => lo + Z.of_nat i) (seq 0 (Z.to_nat n))) = true ->
  forall z, lo <= z < lo + n -> P z = true.
Proof.
  intros H z Hz. rewrite forallb_forall in H. apply H.
  apply in_map_iff. exists (Z.to_nat (z - lo)). split; [lia|].
  apply in_seq. lia.
Qed.

Lemma four_digit_year y :
  1000 <= y <= 9999 -> String.length (ToString (Some y)) = 4%nat.
Proof.
  intros H. apply Nat.eqb_eq.
  apply (forall_below (fun y => Nat.eqb (String.length (ToString (Some y))) 4) 1000 9000);
    [vm_compute; reflexivity|lia].
Qed.

Lemma two_digit_pad z :
  0 <= z <= 99 -> String.length (padStart 2 "0" (ToString (Some z))) = 2%nat.
Proof.
  intros H. apply Nat.eqb_eq.
  apply (forall_below
           (fun z => Nat.eqb (String.length (padStart 2 "0" (ToString (Some z)))) 2) 0 100);
    [vm_compute; reflexivity|lia].
Qed.

Lemma spells_ToString z : 0 <= z -> spells (ToString (Some z)) z.
Proof. apply ToString_nonneg. Qed.

Lemma spells_padStart n s z : spells s z -> spells (padStart n "0" s) z.
Proof. intros (H1 & H2 & H3). apply padStart_digits; assumption. Qed.

Lemma spells_not_empty s z : spells s z -> JS.is_empty s = false.
Proof. intros (_ & H & _). destruct s; [congruence|reflexivity]. Qed.

Section Codec.
Context {host : Host}.

(** What [deserializeUrlParam] makes of three runs of digits joined by
    dashes. *)
Lemma deserialize_spelled key ys ms ds y m d :
  StatsComponent.date_key key = true ->
  spells ys y -> spells ms (m + 1) -> spells ds d ->
  Z.abs y <= 2 ^ 53 -> Z.abs m <= 2 ^ 52 -> Z.abs d <= 2 ^ 53 ->
  StatsComponent.deserializeUrlParam key (ys ++ "-" ++ ms ++ "-" ++ ds)
  = Normal (Vdate (Date_new (Fin (y # 1)) (Fin (m # 1)) (Fin (d # 1)))).
Proof.
  intros Hk (Y1 & Y2 & Y3) (M1 & M2 & M3) (D1 & D2 & D3) By Bm Bd.
  unfold StatsComponent.deserializeUrlParam. fold (StatsComponent.date_key key). rewrite Hk.
  change ("-" ++ ms ++ "-" ++ ds) with (String "-" (ms ++ String "-" ds)).
  rewrite (split_digits_cons _ _ Y1), (split_digits_cons _ _ M1), (split_digits_last _ D1).
  cbn [map nth].
  rewrite (Number_digits _ _ Y1 Y2 Y3 By).
  rewrite (Number_digits _ _ M1 M2 M3) by lia.
  rewrite (Number_digits _ _ D1 D2 D3 Bd).
  rewrite sub_one by lia. reflexivity.
Qed.

Lemma serialize_date key d :
  serializeUrlParam key (Vdate d)
  = Some (ToString (getFullYear d) ++ "-"
          ++ padStart 2 "0" (ToString (succ (getMonth d))) ++ "-"
          ++ padStart 2 "0" (ToString (getDate d))).
Proof. reflexivity. Qed.


(** Serializing a date of the codec and deserializing the result gives the
    local midnight of the same day. *)
Lemma codec_round_trip key key' d s :
  Z.abs LocalTZA <= msPerDay -> StatsComponent.date_key key' = true -> StatsComponent.codec_date d ->
  serializeUrlParam key (Vdate d) = Some s ->
  StatsComponent.deserializeUrlParam key' s = Normal (Vdate (start_of_day d)).
Proof.
  intros Hz Hk Hd. rewrite serialize_date. intros E. injection E as <-.
  destruct d as [t|].
  - destruct Hd as [Ht Hy].
    cbn [getFullYear getMonth getDate option_map succ].
    pose proof (MonthFromTime_range (LocalTime t)) as Hm.
    pose proof (DateFromTime_range (LocalTime t)) as Hdd.
    assert (Hb : Z.abs (YearFromTime (LocalTime t)) <= 300000).
    { apply YearFromTime_bound. unfold LocalTime. lia. }
    rewrite <- Date_new_of_fields by assumption.
    apply deserialize_spelled; try lia.
    + exact Hk.
    + apply spells_ToString. lia.
    + apply spells_padStart, spells_ToString. lia.
    + apply spells_padStart, spells_ToString. lia.
  - cbn [getFullYear getMonth getDate option_map succ ToString start_of_day].
    unfold StatsComponent.deserializeUrlParam. fold (StatsComponent.date_key key'). rewrite Hk.
    vm_compute. reflexivity.
Qed.

End Codec.
End CodecFacts.

Local Open Scope list_scope.

Module BaseFacts.
Import FilteredAbstractComponent.

Section Records.
Context {D : Type}.
Implicit Type c : Component D.

Lemma with_warnings_same c : with_warnings (warnings c) c = c.
Proof. destruct c; reflexivity. Qed.

Lemma with_form_same c : with_form (filterFormGroup c) c = c.
Proof. destruct c; reflexivity. Qed.

Lemma with_warnings_twice w1 w2 c :
  with_warnings w2 (with_warnings w1 c) = with_warnings w2 c.
Proof. reflexivity. Qed.

End Records.

Section Reconciler.
Context {host : JS.Host} {D : Type} {screen : Screen D}.
Implicit Type c : Component D.

Lemma reconcile_entry_outcome entry patch hasChanges c :
  reconcile_entry entry (patch, hasChanges) c =
  match entry_outcome (filterFormGroup c) entry with
  | Skipped => (Normal (patch, hasChanges), c)
  | Patched key v => (Normal (Obj.set key v patch, true), c)
  | Warned d => (Normal (patch, hasChanges), with_warnings (warnings c ++ [d]) c)
  end.
Proof.
  destruct entry as [urlKey value].
  unfold reconcile_entry, entry_outcome.
  destruct (JS.is_empty value); [reflexivity|]. cbn [negb].
  unfold try_catch, bind, read, call, warn, modify, ret.
  destruct (getFormControlKey (filterFormGroup c) urlKey) as [key|]; [|reflexivity].
  destruct (Forms.get (filterFormGroup c) key); [|reflexivity].
  destruct (deserializeUrlParam urlKey value); reflexivity.
Qed.

Lemma forEach_reconcile params : forall patch hasChanges c,
  forEach params reconcile_entry (patch, hasChanges) c =
  (Normal (fold_left assign (assignments (filterFormGroup c) params) patch,
           hasChanges || changed (assignments (filterFormGroup c) params)),
   with_warnings (warnings c ++ diagnostics (filterFormGroup c) params) c).
Proof.
  induction params as [|entry params IH]; intros patch hasChanges c.
  - cbn. rewrite orb_false_r, app_nil_r, with_warnings_same. reflexivity.
  - cbn [forEach]. unfold bind at 1. rewrite reconcile_entry_outcome.
    unfold assignments, diagnostics. cbn [flat_map].
    fold (assignments (filterFormGroup c) params).
    fold (diagnostics (filterFormGroup c) params).
    destruct (entry_outcome (filterFormGroup c) entry) as [|key v|d].
    + rewrite IH. reflexivity.
    + rewrite IH. cbn [List.app fold_left changed]. rewrite orb_true_r. reflexivity.
    + rewrite IH. cbn [List.app filterFormGroup with_warnings warnings].
      rewrite <- app_assoc. reflexivity.
Qed.

Lemma updateFormFromUrl_reconciled params c :
  updateFormFromUrl params c = (Normal tt, reconciled params c).
Proof.
  unfold updateFormFromUrl, reconcile, bind. rewrite forEach_reconcile.
  unfold reconciled. cbn [orb].
  destruct (assignments (filterFormGroup c) params) as [|a l] eqn:E.
  - cbn [changed fold_left Forms.patchValue]. unfold ret.
    destruct c; reflexivity.
  - reflexivity.
Qed.

End Reconciler.
End BaseFacts.

Module ReconcilerFacts.
Import FilteredAbstractComponent BaseFacts.

Lemma lookup_patch_control k name v fg :
  Obj.lookup k (Forms.patch_control name v fg)
  = if String.eqb k name then option_map (Forms.set_value v) (Obj.lookup k fg)
    else Obj.lookup k fg.
Proof.
  induction fg as [|[k' c'] fg IH]; cbn [Forms.patch_control Obj.lookup].
  - destruct (String.eqb k name); reflexivity.
  - destruct (String.eqb_spec k' name) as [E1|N1]; cbn [Obj.lookup].
    + subst k'. destruct (String.eqb_spec name k) as [E2|N2].
      * subst k. rewrite String.eqb_refl. reflexivity.
      * destruct (String.eqb_spec k name); [congruence|reflexivity].
    + destruct (String.eqb_spec k' k) as [E2|N2].
      * subst k'. destruct (String.eqb_spec k name); [congruence|reflexivity].
      * exact IH.
Qed.

Lemma is_empty_false s : s <> EmptyString -> JS.is_empty s = false.
Proof. destruct s; [congruence|reflexivity]. Qed.

Lemma is_empty_true s : JS.is_empty s = true -> s = EmptyString.
Proof. destruct s; [reflexivity|discriminate]. Qed.

Section Reconciler.
Context {host : JS.Host} {D : Type} {screen : Screen D}.
Implicit Type c : Component D.

Lemma getFormControlKey_url fg urlKey key :
  getFormControlKey fg urlKey = Some key -> getUrlParamKey key = urlKey.
Proof.
  unfold getFormControlKey.
  destruct (find _ _) as [k|] eqn:E; [|discriminate].
  destruct (JS.is_empty k); [discriminate|].
  intros H. injection H as <-.
  apply find_some in E. destruct E as [_ E]. apply String.eqb_eq. exact E.
Qed.

Lemma outcome_patched fg urlKey value key v :
  value <> EmptyString -> getFormControlKey fg urlKey = Some key ->
  Forms.get fg key <> None -> deserializeUrlParam urlKey value = Normal v ->
  entry_outcome fg (urlKey, value) = Patched key v.
Proof.
  intros Hv Hk Hg Hd. unfold entry_outcome.
  rewrite (is_empty_false _ Hv), Hk, Hd.
  destruct (Forms.get fg key); [reflexivity|congruence].
Qed.

Lemma outcome_failed fg urlKey value key e :
  value <> EmptyString -> getFormControlKey fg urlKey = Some key ->
  Forms.get fg key <> None -> deserializeUrlParam urlKey value = Abrupt e ->
  entry_outcome fg (urlKey, value) = Warned (FailedToDeserialize urlKey e).
Proof.
  intros Hv Hk Hg Hd. unfold entry_outcome.
  rewrite (is_empty_false _ Hv), Hk, Hd.
  destruct (Forms.get fg key); [reflexivity|congruence].
Qed.

Lemma outcome_empty fg urlKey : entry_outcome fg (urlKey, EmptyString) = Skipped.
Proof. reflexivity. Qed.

Lemma assign_two k1 v1 k2 v2 :
  k1 <> k2 ->
  fold_left assign [(k1, v1); (k2, v2)] [] = [(k1, v1); (k2, v2) : string * jsval].
Proof.
  intros N. cbn. destruct (String.eqb_spec k1 k2); [congruence|reflexivity].
Qed.

(** C4. Reconciliation never throws; and when the incoming record consists,
    in any order, of one entry whose deserialization throws and two entries
    that deserialize, all three naming controls, the patch holds exactly the
    two deserialized fields, exactly one warning is issued, for the failed
    entry, the failed field keeps its control as it was, and the two other
    controls take the deserialized values. *)
Theorem reconcile_partial_tolerance :
  (forall params c, fst (updateFormFromUrl params c) = Normal tt)
  /\ (forall params c kb vb k1 v1 k2 v2 fb f1 f2 e w1 w2,
        let fg := filterFormGroup c in
        Permutation params [(kb, vb); (k1, v1); (k2, v2)] ->
        k1 <> k2 -> kb <> k1 -> kb <> k2 ->
        vb <> EmptyString -> v1 <> EmptyString -> v2 <> EmptyString ->
        getFormControlKey fg kb = Some fb -> Forms.get fg fb <> None ->
        getFormControlKey fg k1 = Some f1 -> Forms.get fg f1 <> None ->
        getFormControlKey fg k2 = Some f2 -> Forms.get fg f2 <> None ->
        deserializeUrlParam kb vb = Abrupt e ->
        deserializeUrlParam k1 v1 = Normal w1 ->
        deserializeUrlParam k2 v2 = Normal w2 ->
        (exists patch c1,
            reconcile params c = (Normal (patch, true), c1)
            /\ Permutation patch [(f1, w1); (f2, w2)])
        /\ (let c' := snd (updateFormFromUrl params c) in
            warnings c' = (warnings c ++ [FailedToDeserialize kb e])%list
            /\ Obj.lookup fb (filterFormGroup c') = Obj.lookup fb fg
            /\ Obj.lookup f1 (filterFormGroup c')
               = option_map (Forms.set_value w1) (Obj.lookup f1 fg)
            /\ Obj.lookup f2 (filterFormGroup c')
               = option_map (Forms.set_value w2) (Obj.lookup f2 fg))).
Proof.
  split.
  { intros params c. rewrite updateFormFromUrl_reconciled. reflexivity. }
  intros params c kb vb k1 v1 k2 v2 fb f1 f2 e w1 w2 fg
         HP N12 Nb1 Nb2 Hvb Hv1 Hv2 Hkb Hgb Hk1 Hg1 Hk2 Hg2 Hdb Hd1 Hd2.
  assert (F12 : f1 <> f2).
  { intros E. apply N12. rewrite <- (getFormControlKey_url _ _ _ Hk1),
      <- (getFormControlKey_url _ _ _ Hk2). congruence. }
  assert (Fb1 : fb <> f1).
  { intros E. apply Nb1. rewrite <- (getFormControlKey_url _ _ _ Hkb),
      <- (getFormControlKey_url _ _ _ Hk1). congruence. }
  assert (Fb2 : fb <> f2).
  { intros E. apply Nb2. rewrite <- (getFormControlKey_url _ _ _ Hkb),
      <- (getFormControlKey_url _ _ _ Hk2). congruence. }
  assert (HA : Permutation [(f1, w1); (f2, w2)] (assignments fg params)).
  { symmetry.
    pose proof (Permutation_flat_map
                  (fun entry => match entry_outcome fg entry with
                                | Patched key v => [(key, v)]
                                | _ => []
                                end) HP) as H.
    cbn [flat_map] in H.
    rewrite (outcome_failed _ _ _ _ _ Hvb Hkb Hgb Hdb) in H.
    rewrite (outcome_patched _ _ _ _ _ Hv1 Hk1 Hg1 Hd1) in H.
    rewrite (outcome_patched _ _ _ _ _ Hv2 Hk2 Hg2 Hd2) in H.
    exact H. }
  assert (HW : diagnostics fg params = [FailedToDeserialize kb e]).
  { apply Permutation_length_1_inv. symmetry.
    pose proof (Permutation_flat_map
                  (fun entry => match entry_outcome fg entry with
                                | Warned d => [d]
                                | _ => []
                                end) HP) as H.
    cbn [flat_map] in H.
    rewrite (outcome_failed _ _ _ _ _ Hvb Hkb Hgb Hdb) in H.
    rewrite (outcome_patched _ _ _ _ _ Hv1 Hk1 Hg1 Hd1) in H.
    rewrite (outcome_patched _ _ _ _ _ Hv2 Hk2 Hg2 Hd2) in H.
    exact H. }
  rewrite updateFormFromUrl_reconciled. unfold reconcile.
  rewrite forEach_reconcile. unfold reconciled. fold fg.
  cbn [snd warnings with_form with_warnings filterFormGroup orb].
  rewrite HW.
  apply Permutation_length_2_inv in HA.
  assert (E1 : String.eqb fb f1 = false) by (apply String.eqb_neq; exact Fb1).
  assert (E2 : String.eqb fb f2 = false) by (apply String.eqb_neq; exact Fb2).
  assert (E3 : String.eqb f1 f2 = false) by (apply String.eqb_neq; exact F12).
  assert (E4 : String.eqb f2 f1 = false) by (apply String.eqb_neq; congruence).
  destruct HA as [HA|HA]; rewrite HA.
  - rewrite assign_two by exact F12. split.
    + eexists _, _. split; [reflexivity|apply Permutation_refl].
    + cbn [Forms.patchValue fold_left fst snd].
      rewrite !lookup_patch_control, ?E1, ?E2, ?E3, ?E4, ?String.eqb_refl.
      repeat split; reflexivity.
  - rewrite assign_two by congruence. split.
    + eexists _, _. split; [reflexivity|apply perm_swap].
    + cbn [Forms.patchValue fold_left fst snd].
      rewrite !lookup_patch_control, ?E1, ?E2, ?E3, ?E4, ?String.eqb_refl.
      repeat split; reflexivity.
Qed.

Lemma assignments_present fg params :
  assignments fg (filter present params) = assignments fg params.
Proof.
  unfold assignments. induction params as [|[k v] params IH]; [reflexivity|].
  cbn [filter flat_map]. unfold present at 1. cbn [snd].
  destruct v as [|a v]; cbn [JS.is_empty negb].
  - rewrite IH. reflexivity.
  - cbn [flat_map]. rewrite IH. reflexivity.
Qed.

Lemma diagnostics_present fg params :
  diagnostics fg (filter present params) = diagnostics fg params.
Proof.
  unfold diagnostics. induction params as [|[k v] params IH]; [reflexivity|].
  cbn [filter flat_map]. unfold present at 1. cbn [snd].
  destruct v as [|a v]; cbn [JS.is_empty negb].
  - rewrite IH. reflexivity.
  - cbn [flat_map]. rewrite IH. reflexivity.
Qed.

End Reconciler.

Lemma outcome_deserializer {host : JS.Host} {D} (screen : Screen D) f fg entry :
  (forall k v, v <> EmptyString -> f k v = deserializeUrlParam k v) ->
  entry_outcome (screen := with_deserializer f screen) fg entry
  = entry_outcome fg entry.
Proof.
  intros H. destruct entry as [k v]. unfold entry_outcome.
  destruct v as [|a v]; [reflexivity|]. cbn [JS.is_empty].
  change (getFormControlKey (screen := with_deserializer f screen) fg k)
    with (getFormControlKey fg k).
  destruct (getFormControlKey fg k) as [key|]; [|reflexivity].
  destruct (Forms.get fg key); [|reflexivity].
  change (@deserializeUrlParam _ (with_deserializer f screen) k (String a v))
    with (f k (String a v)).
  rewrite H by discriminate. reflexivity.
Qed.

(** C10. An entry of the incoming record whose value is the empty string is
    skipped: reconciling a record is reconciling it without its empty
    entries; a record of empty entries only changes nothing at all, neither
    a control nor the warnings; and the outcome does not depend on what the
    deserializer would make of an empty string, which it is never asked. *)
Theorem empty_entries_are_skipped {host : JS.Host} {D} (screen : Screen D) :
  (forall params (c : Component D),
      updateFormFromUrl params c = updateFormFromUrl (filter present params) c)
  /\ (forall params (c : Component D),
         (forall entry, In entry params -> snd entry = EmptyString) ->
         updateFormFromUrl params c = (Normal tt, c))
  /\ (forall f params (c : Component D),
         (forall k v, v <> EmptyString -> f k v = deserializeUrlParam k v) ->
         updateFormFromUrl (screen := with_deserializer f screen) params c
         = updateFormFromUrl params c).
Proof.
  split; [|split].
  - intros params c. rewrite !updateFormFromUrl_reconciled. unfold reconciled.
    rewrite assignments_present, diagnostics_present. reflexivity.
  - intros params c H. rewrite updateFormFromUrl_reconciled. unfold reconciled.
    assert (EA : assignments (filterFormGroup c) params = []).
    { unfold assignments. induction params as [|[k v] params IH]; [reflexivity|].
      cbn [flat_map]. rewrite IH by (intros; apply H; right; assumption).
      specialize (H (k, v) (or_introl eq_refl)). cbn in H. subst v. reflexivity. }
    assert (ED : diagnostics (filterFormGroup c) params = []).
    { clear EA. unfold diagnostics. induction params as [|[k v] params IH]; [reflexivity|].
      cbn [flat_map]. rewrite IH by (intros; apply H; right; assumption).
      specialize (H (k, v) (or_introl eq_refl)). cbn in H. subst v. reflexivity. }
    rewrite EA, ED, app_nil_r. cbn [fold_left Forms.patchValue].
    destruct c; reflexivity.
  - intros f params c H. rewrite !updateFormFromUrl_reconciled. unfold reconciled.
    assert (EA : assignments (screen := with_deserializer f screen) (filterFormGroup c) params
                 = assignments (filterFormGroup c) params).
    { unfold assignments. induction params as [|entry params IH]; [reflexivity|].
      cbn [flat_map]. rewrite IH, (outcome_deserializer screen f _ _ H). reflexivity. }
    assert (ED : diagnostics (screen := with_deserializer f screen) (filterFormGroup c) params
                 = diagnostics (filterFormGroup c) params).
    { clear EA. unfold diagnostics. induction params as [|entry params IH]; [reflexivity|].
      cbn [flat_map]. rewrite IH, (outcome_deserializer screen f _ _ H). reflexivity. }
    rewrite EA, ED. reflexivity.
Qed.

End ReconcilerFacts.

Module StatsReconciler.
Import FilteredAbstractComponent BaseFacts ReconcilerFacts CodecFacts.

(** C3. On [StatsComponent], the incoming record [{dateFrom: "not-a-date"}]
    is not rejected: [deserializeUrlParam] returns an Invalid Date without
    throwing, so the patch is [{dateFrom: Invalid Date}], no warning is
    issued and the control [dateFrom] is overwritten with the Invalid
    Date. *)
Theorem not_a_date_is_patched {host : JS.Host} (today : JS.Date)
    (c : Component (list StatsComponent.StatsModel)) :
  let screen := StatsComponent.screen today in
  let c0 := with_form (StatsComponent.createFilters today) c in
  StatsComponent.deserializeUrlParam "dateFrom" "not-a-date" = Normal (Vdate None)
  /\ reconcile [("dateFrom", "not-a-date")] c0
     = (Normal ([("dateFrom", Vdate None)], true), c0)
  /\ (let c' := snd (updateFormFromUrl [("dateFrom", "not-a-date")] c0) in
      warnings c' = warnings c
      /\ Obj.lookup "dateFrom" (filterFormGroup c')
         = Some (StatsComponent.control (Vdate None) true)).
Proof.
  intros screen c0.
  assert (E : StatsComponent.deserializeUrlParam "dateFrom" "not-a-date"
              = Normal (Vdate None)) by (vm_compute; reflexivity).
  assert (O : entry_outcome (filterFormGroup c0) ("dateFrom", "not-a-date")
              = Patched "dateFrom" (Vdate None)).
  { apply outcome_patched; [discriminate|reflexivity|discriminate|exact E]. }
  split; [exact E|]. split.
  - unfold reconcile. rewrite forEach_reconcile.
    unfold assignments, diagnostics. cbn [flat_map]. rewrite O.
    cbn [List.app fold_left assign fst snd Obj.set changed orb].
    rewrite app_nil_r, with_warnings_same. reflexivity.
  - rewrite updateFormFromUrl_reconciled. unfold reconciled, assignments, diagnostics.
    cbn [flat_map]. rewrite O.
    cbn [List.app fold_left assign fst snd Obj.set snd warnings with_form with_warnings
         filterFormGroup].
    rewrite app_nil_r. split; reflexivity.
Qed.

End StatsReconciler.

Module ProjectorFacts.
Import FilteredAbstractComponent BaseFacts ReconcilerFacts.

Lemma keys_app {A} (a b : object A) : Obj.keys (a ++ b) = (Obj.keys a ++ Obj.keys b)%list.
Proof. apply map_app. Qed.

Lemma set_fresh {A} k (v : A) o :
  ~ In k (Obj.keys o) -> Obj.set k v o = (o ++ [(k, v)])%list.
Proof.
  induction o as [|[k' v'] o IH]; cbn; [reflexivity|].
  intros H. destruct (String.eqb_spec k' k) as [E|N].
  - exfalso. apply H. left. exact E.
  - rewrite IH by tauto. reflexivity.
Qed.

Lemma lookup_not_in {A} k (o : object A) : ~ In k (Obj.keys o) -> Obj.lookup k o = None.
Proof.
  induction o as [|[k' v'] o IH]; cbn; [reflexivity|].
  intros H. destruct (String.eqb_spec k' k); [tauto|apply IH; tauto].
Qed.

Lemma lookup_in {A} k (v : A) o :
  NoDup (Obj.keys o) -> In (k, v) o -> Obj.lookup k o = Some v.
Proof.
  induction o as [|[k' v'] o IH]; cbn; [tauto|].
  intros ND [E|I].
  - injection E as -> ->. rewrite String.eqb_refl. reflexivity.
  - inversion ND as [|? ? Hn ND']; subst.
    destruct (String.eqb_spec k' k) as [->|N].
    + exfalso. apply Hn. apply (in_map fst) in I. exact I.
    + apply IH; assumption.
Qed.

Lemma NoDup_map_injective {A B} (f : A -> B) l a b :
  NoDup (map f l) -> In a l -> In b l -> f a = f b -> a = b.
Proof.
  induction l as [|x l IH]; cbn; [tauto|].
  intros ND Ha Hb E. inversion ND as [|? ? Hn ND']; subst.
  destruct Ha as [->|Ha], Hb as [->|Hb].
  - reflexivity.
  - exfalso. apply Hn. rewrite E. apply in_map. exact Hb.
  - exfalso. apply Hn. rewrite <- E. apply in_map. exact Ha.
  - apply IH; assumption.
Qed.

(** Assignments to distinct property names just accumulate. *)
Lemma fold_assign_distinct (l : list (string * jsval)) : forall acc,
  NoDup (Obj.keys (acc ++ l)) -> fold_left assign l acc = (acc ++ l)%list.
Proof.
  induction l as [|[k v] l IH]; intros acc ND; cbn [fold_left].
  - rewrite app_nil_r. reflexivity.
  - unfold assign at 2. cbn [fst snd].
    rewrite set_fresh.
    + rewrite IH; rewrite <- app_assoc; [reflexivity|exact ND].
    + rewrite keys_app in ND. cbn in ND. apply NoDup_remove_2 in ND.
      intros I. apply ND. apply in_or_app. left. exact I.
Qed.

Section Projector.
Context {host : JS.Host} {D : Type} {screen : Screen D}.
Implicit Type c : Component D.

Lemma keys_serialized fv k :
  In k (Obj.keys (serialized fv)) -> In k (map getUrlParamKey (Obj.keys fv)).
Proof.
  induction fv as [|[n v] fv IH]; cbn; [tauto|].
  intros H. unfold Obj.keys in H. rewrite map_app in H. apply in_app_or in H.
  destruct H as [H|H].
  - left. destruct (serializeUrlParam _ _); cbn in H; tauto.
  - right. apply IH. exact H.
Qed.

Lemma fold_project fv : forall acc,
  NoDup (map getUrlParamKey (Obj.keys fv)) ->
  (forall k, In k (map getUrlParamKey (Obj.keys fv)) -> ~ In k (Obj.keys acc)) ->
  fold_left project_step fv acc = (acc ++ serialized fv)%list.
Proof.
  induction fv as [|[n v] fv IH]; intros acc ND Hf; cbn [fold_left serialized flat_map].
  - rewrite app_nil_r. reflexivity.
  - cbn in ND. inversion ND as [|? ? Hn ND']; subst.
    unfold project_step at 2. cbn [fst snd].
    destruct (serializeUrlParam (getUrlParamKey n) v) as [s|].
    + rewrite set_fresh by (apply Hf; left; reflexivity).
      rewrite IH; [rewrite <- app_assoc; reflexivity|exact ND'|].
      intros k Hk I. rewrite keys_app in I. apply in_app_or in I.
      destruct I as [I|I].
      * apply (Hf k); [right; exact Hk|exact I].
      * cbn in I. destruct I as [<-|[]]. apply Hn. exact Hk.
    + apply IH; [exact ND'|]. intros k Hk. apply Hf. right. exact Hk.
Qed.

(** With distinct URL keys, the projection is one entry per field that
    serializes, in the order of the fields. *)
Lemma project_serialized fv :
  NoDup (map getUrlParamKey (Obj.keys fv)) -> project fv = serialized fv.
Proof.
  intros ND. unfold project. change (fold_left _ fv []) with (fold_left project_step fv []).
  rewrite fold_project; [reflexivity|exact ND|]. intros k _ [].
Qed.

Lemma serialized_value_gen dis fg :
  serialized (map (fun kc => (fst kc, Forms.value_of (snd kc)))
                  (filter (fun kc => Forms.enabled (snd kc) || dis) fg))
  = flat_map (wire_of_control dis) fg.
Proof.
  induction fg as [|[k ctl] fg IH]; [reflexivity|].
  cbn [filter flat_map]. unfold wire_of_control at 1. cbn [fst snd].
  destruct (Forms.enabled ctl || dis).
  - cbn [map serialized flat_map fst snd]. fold (serialized (map (fun kc => (fst kc, Forms.value_of (snd kc)))
                  (filter (fun kc => Forms.enabled (snd kc) || dis) fg))).
    rewrite IH. reflexivity.
  - exact IH.
Qed.

Lemma serialized_value fg :
  serialized (Forms.value fg) = flat_map (wire_of_control (Forms.disabled fg)) fg.
Proof. apply serialized_value_gen. Qed.

Lemma keys_value_incl fg k : In k (Obj.keys (Forms.value fg)) -> In k (Obj.keys fg).
Proof.
  unfold Forms.value, Obj.keys. rewrite map_map. cbn [fst].
  intros H. apply in_map_iff in H. destruct H as (kc & <- & I).
  apply filter_In in I. apply in_map. tauto.
Qed.

Lemma NoDup_map_filter {A B} (f : A -> B) p l :
  NoDup (map f l) -> NoDup (map f (filter p l)).
Proof.
  induction l as [|x l IH]; cbn; [tauto|].
  intros ND. inversion ND as [|? ? Hn ND']; subst.
  destruct (p x); cbn; [constructor|]; auto.
  intros I. apply Hn. apply in_map_iff in I. destruct I as (y & E & I).
  apply filter_In in I. apply in_map_iff. exists y. tauto.
Qed.

Lemma NoDup_url_value fg :
  NoDup (map getUrlParamKey (Obj.keys fg)) ->
  NoDup (map getUrlParamKey (Obj.keys (Forms.value fg))).
Proof.
  intros ND. unfold Forms.value, Obj.keys in *. rewrite !map_map in *. cbn [fst].
  apply (NoDup_map_filter (fun x => getUrlParamKey (fst x))). exact ND.
Qed.

(** The projection of a form with distinct URL keys. *)
Lemma project_form fg :
  NoDup (map getUrlParamKey (Obj.keys fg)) ->
  project (Forms.value fg) = flat_map (wire_of_control (Forms.disabled fg)) fg.
Proof.
  intros ND. rewrite project_serialized by (apply NoDup_url_value; exact ND).
  apply serialized_value.
Qed.

Lemma disabled_patch_control name v fg :
  Forms.disabled (Forms.patch_control name v fg) = Forms.disabled fg.
Proof.
  assert (H : forallb (fun kc => negb (Forms.enabled (snd kc))) (Forms.patch_control name v fg)
              = forallb (fun kc => negb (Forms.enabled (snd kc))) fg).
  { induction fg as [|[k ctl] fg IH]; [reflexivity|].
    cbn [Forms.patch_control]. destruct (String.eqb k name); cbn; [reflexivity|].
    rewrite IH. reflexivity. }
  destruct fg as [|[k ctl] fg]; [reflexivity|].
  unfold Forms.disabled. rewrite <- H. cbn [Forms.patch_control].
  destruct (String.eqb k name); reflexivity.
Qed.

Lemma keys_patch_control name v fg :
  Obj.keys (Forms.patch_control name v fg) = Obj.keys fg.
Proof.
  induction fg as [|[k ctl] fg IH]; [reflexivity|].
  cbn [Forms.patch_control]. destruct (String.eqb k name); cbn; [reflexivity|].
  f_equal. exact IH.
Qed.

Lemma filter_keeps_all {A} (p : A -> bool) l :
  (forall x, In x l -> p x = true) -> filter p l = l.
Proof.
  induction l as [|x l IH]; cbn; [reflexivity|].
  intros H. rewrite (H x) by tauto. f_equal. apply IH. intros; apply H; tauto.
Qed.

Lemma filter_drops_all {A} (p : A -> bool) l :
  (forall x, In x l -> p x = false) -> filter p l = [].
Proof.
  induction l as [|x l IH]; cbn; [reflexivity|].
  intros H. rewrite (H x) by tauto. apply IH. intros; apply H; tauto.
Qed.

Lemma wire_of_control_key dis kc kv :
  In kv (wire_of_control dis kc) -> fst kv = getUrlParamKey (fst kc).
Proof.
  unfold wire_of_control. destruct (_ || _); [|intros []].
  destruct (serializeUrlParam _ _); [|intros []].
  intros [<-|[]]. reflexivity.
Qed.

Lemma clear_control dis name fg :
  NoDup (map getUrlParamKey (Obj.keys fg)) -> In name (Obj.keys fg) ->
  flat_map (wire_of_control dis) (Forms.patch_control name Vnull fg)
  = filter (other_key (getUrlParamKey name)) (flat_map (wire_of_control dis) fg).
Proof.
  induction fg as [|[k ctl] fg IH]; intros ND I; [destruct I|].
  cbn in ND. inversion ND as [|? ? Hn ND']; subst.
  cbn [Forms.patch_control flat_map]. rewrite filter_app.
  destruct (String.eqb_spec k name) as [->|N].
  - cbn [flat_map]. unfold wire_of_control at 1.
    cbn [fst snd Forms.set_value Forms.enabled Forms.value_of serializeUrlParam].
    replace (if Forms.enabled ctl || dis then [] else []) with (@nil (string * string))
      by (destruct (_ || _); reflexivity).
    rewrite filter_drops_all, filter_keeps_all; [destruct (_ || _); reflexivity| |].
    + intros kv Hkv. unfold other_key. apply negb_true_iff, String.eqb_neq.
      apply in_flat_map in Hkv. destruct Hkv as (kc & Hkc & Hkv).
      rewrite (wire_of_control_key _ _ _ Hkv). intros E. apply Hn. rewrite <- E.
      apply in_map. apply (in_map fst) in Hkc. exact Hkc.
    + intros kv Hkv. unfold other_key. rewrite (wire_of_control_key _ _ _ Hkv).
      cbn [fst]. rewrite String.eqb_refl. reflexivity.
  - destruct I as [E|I]; [cbn in E; congruence|].
    cbn [flat_map]. rewrite IH by assumption.
    rewrite (filter_keeps_all _ (wire_of_control dis (k, ctl))); [reflexivity|].
    intros kv Hkv. unfold other_key. rewrite (wire_of_control_key _ _ _ Hkv).
    cbn [fst]. apply negb_true_iff, String.eqb_neq. intros E. apply Hn. rewrite E.
    apply in_map. exact I.
Qed.

(** C6. In a form whose controls have distinct URL keys, a control whose
    value is [null] or [undefined] has no key in the projected record; the
    record [updateUrl] leaves in the router is the projection, whatever the
    query parameters were before; and setting one control to [null] and
    projecting again removes the entry of that control's key, and nothing
    else, from the projection. *)
Theorem absent_fields_are_omitted (fg : Forms.FormGroup) :
  NoDup (map getUrlParamKey (Obj.keys fg)) ->
  (forall name ctl,
      Obj.lookup name fg = Some ctl -> absent (Forms.value_of ctl) ->
      ~ In (getUrlParamKey name) (Obj.keys (project (Forms.value fg))))
  /\ (forall c, filterFormGroup c = fg ->
        query (snd (updateUrl c)) = project (Forms.value fg))
  /\ (forall name, In name (Obj.keys fg) ->
        project (Forms.value (Forms.patch_control name Vnull fg))
        = filter (other_key (getUrlParamKey name)) (project (Forms.value fg))).
Proof.
  intros ND. split; [|split].
  - intros name ctl Hl Ha. rewrite project_form by exact ND.
    intros I. apply in_map_iff in I. destruct I as (kv & Ek & I).
    apply in_flat_map in I. destruct I as ([k ctl'] & Hkc & Hkv).
    pose proof (wire_of_control_key _ _ _ Hkv) as Ekv. cbn [fst] in Ekv.
    assert (Hk : k = name).
    { apply (NoDup_map_injective getUrlParamKey (Obj.keys fg)); [exact ND| | |congruence].
      - apply (in_map fst) in Hkc. exact Hkc.
      - destruct (in_dec string_dec name (Obj.keys fg)) as [|Hn]; [assumption|].
        rewrite (lookup_not_in _ _ Hn) in Hl. discriminate. }
    subst k.
    rewrite (lookup_in _ _ _ (NoDup_map_inv _ _ ND) Hkc) in Hl. injection Hl as ->.
    unfold wire_of_control in Hkv. cbn [fst snd] in Hkv.
    destruct (_ || _); [|destruct Hkv].
    destruct Ha as [E|E]; rewrite E in Hkv; destruct Hkv.
  - intros c <-. reflexivity.
  - intros name I.
    rewrite !project_form; [|exact ND|rewrite keys_patch_control; exact ND].
    rewrite disabled_patch_control. apply clear_control; assumption.
Qed.

End Projector.
Section Writes.
Context {host : JS.Host} {D : Type} {screen : Screen D}.

Lemma updateUrl_twice (c : Component D) :
  navigations (snd (updateUrl (snd (updateUrl c))))
  = navigations c ++ [wire_write (filterFormGroup c); wire_write (filterFormGroup c)].
Proof.
  unfold updateUrl, navigate, bind, read, modify.
  cbn [fst snd navigations with_navigations with_query filterFormGroup].
  rewrite <- app_assoc. reflexivity.
Qed.

(** C8 (amended). Every call of [updateUrl] returns and adds exactly one
    call of [router.navigate], whose options are the projection of the form,
    the handling ["replace"] and [replaceUrl]; nothing else is attached to
    the write, so that two calls in a row on an unchanged form issue two
    equal writes. *)
Theorem updateUrl_writes_once (c : Component D) :
  let fg := filterFormGroup c in
  let c1 := snd (updateUrl c) in
  let c2 := snd (updateUrl c1) in
  fst (updateUrl c) = Normal tt
  /\ navigations c1 = navigations c ++ [wire_write fg]
  /\ filterFormGroup c1 = fg
  /\ navigations c2 = navigations c ++ [wire_write fg; wire_write fg].
Proof.
  cbv zeta. split; [reflexivity|]. split; [reflexivity|]. split; [reflexivity|].
  apply updateUrl_twice.
Qed.

End Writes.

(** C8, as stated, fails: two writes in a row on the opened stats screen are
    the same value, so nothing they carry increases from one to the next. *)
Lemma consecutive_writes_are_equal :
  let c2 := snd (updateUrl (host := Example.utc) (screen := Example.stats)
                   (snd (updateUrl (host := Example.utc) (screen := Example.stats)
                           Example.opened))) in
  (exists w, navigations c2 = [w; w])
  /\ ~ (exists tag : NavigationExtras -> nat,
           forall w1 w2, navigations c2 = [w1; w2] -> (tag w1 < tag w2)%nat).
Proof.
  cbv zeta.
  pose proof (updateUrl_twice (host := Example.utc) (screen := Example.stats)
                Example.opened) as E.
  change (navigations Example.opened) with (@nil NavigationExtras) in E.
  cbn [List.app] in E. split.
  - eexists. exact E.
  - intros (tag & H). specialize (H _ _ E). lia.
Qed.

End ProjectorFacts.

Module EchoFacts.
Import FilteredAbstractComponent BaseFacts ReconcilerFacts ProjectorFacts.



Section AtMostOne.
Context {A B : Type} (P : string * A -> list (string * B)).
Hypothesis P_key : forall kc kv, In kv (P kc) -> fst kv = fst kc.
Hypothesis P_one : forall kc, (List.length (P kc) <= 1)%nat.




End AtMostOne.

Section Echo.
Context {host : JS.Host} {D : Type} {screen : Screen D}.
Implicit Type c : Component D.

Lemma find_url_key l k :
  NoDup (map getUrlParamKey l) -> In k l ->
  find (fun key => String.eqb (getUrlParamKey key) (getUrlParamKey k)) l = Some k.
Proof.
  induction l as [|x l IH]; intros ND I; [destruct I|].
  cbn [find]. destruct (String.eqb_spec (getUrlParamKey x) (getUrlParamKey k)) as [E|N].
  - f_equal. apply (NoDup_map_injective getUrlParamKey (x :: l)); auto. left. reflexivity.
  - cbn in ND. inversion ND; subst. destruct I as [->|I]; [congruence|]. apply IH; assumption.
Qed.

Lemma getFormControlKey_found fg k :
  NoDup (map getUrlParamKey (Obj.keys fg)) -> In k (Obj.keys fg) ->
  JS.is_empty k = false ->
  getFormControlKey fg (getUrlParamKey k) = Some k.
Proof.
  intros ND I E. unfold getFormControlKey.
  rewrite (find_url_key _ _ ND I), E. reflexivity.
Qed.








End Echo.
End EchoFacts.

Module StatsEcho.
Import FilteredAbstractComponent BaseFacts ReconcilerFacts CodecFacts ProjectorFacts EchoFacts.
Import JS JSFacts.



Section WithHost.
Context {host : Host}.



Lemma names_date_key k : In k StatsComponent.names -> StatsComponent.date_key k = true.
Proof. intros [<-|[<-|[<-|[<-|[]]]]]; reflexivity. Qed.

Lemma names_plain k : In k StatsComponent.names -> plain_name k.
Proof. intros [<-|[<-|[<-|[<-|[]]]]]; split; reflexivity. Qed.

Lemma names_NoDup : NoDup StatsComponent.names.
Proof.
  unfold StatsComponent.names. repeat constructor; cbn; intuition discriminate.
Qed.



End WithHost.


End StatsEcho.

Module CoordinatorFacts.
Import FilteredAbstractComponent BaseFacts.

Section Coordinator.
Context {host : JS.Host} {D : Type} {screen : Screen D}.
Implicit Type c : Component D.





End Coordinator.


End CoordinatorFacts.

Module DebounceFacts.
Import FilteredAbstractComponent BaseFacts.

Section Debounce.
Context {host : JS.Host} {D : Type} {screen : Screen D}.
Implicit Type c : Component D.

(** One notification of [dataUpdateRequested$]: it returns, counts, and
    with a subscriber in place calls [loadData] on the current form. *)
Lemma next_effects c :
  exists c',
    dataUpdateRequested_next c = (Normal tt, c')
    /\ requested c' = S (requested c)
    /\ filterFormGroup c' = filterFormGroup c
    /\ navigations c' = navigations c
    /\ query c' = query c
    /\ debounce c' = debounce c
    /\ warnings c' = warnings c
    /\ loads c' = (if subscribed c then loads c ++ [Forms.value (filterFormGroup c)]
                   else loads c).
Proof.
  unfold dataUpdateRequested_next, bind, read, modify, ret.
  cbn [subscribed with_requested].
  destruct (subscribed c).
  - cbn [filterFormGroup with_loading with_requested loads with_loads].
    destruct (loadData (filterFormGroup c) (List.length (loads c))).
    + eexists. split; [reflexivity|]. cbn. repeat split.
    + cbn [retried with_loading with_loads with_requested].
      destruct (retried c <? 3)%nat; eexists; (split; [reflexivity|]); cbn; repeat split.
  - eexists. split; [reflexivity|]. cbn. repeat split.
Qed.

(** The subscriber of the debounced changes: one write of the current form,
    and a notification exactly when the form is valid. *)
Lemma handler_effects c :
  exists c',
    onDebouncedValueChange c = (Normal tt, c')
    /\ filterFormGroup c' = filterFormGroup c
    /\ navigations c' = navigations c ++ [wire_write (filterFormGroup c)]
    /\ query c' = project (Forms.value (filterFormGroup c))
    /\ debounce c' = debounce c
    /\ warnings c' = warnings c
    /\ requested c'
       = (requested c + if Forms.valid (filterFormGroup c) then 1 else 0)%nat
    /\ loads c'
       = (if Forms.valid (filterFormGroup c) && subscribed c
          then loads c ++ [Forms.value (filterFormGroup c)] else loads c).
Proof.
  unfold onDebouncedValueChange, updateUrl, navigate, bind, read, modify, ret.
  cbn [wire_write queryParams queryParamsHandling String.eqb Ascii.eqb Bool.eqb].
  cbn [filterFormGroup with_navigations with_query].
  destruct (Forms.valid (filterFormGroup c)).
  - match goal with |- context [dataUpdateRequested_next ?x] =>
      destruct (next_effects x) as (c' & E & R & F & N & Q & B & W & L) end.
    exists c'. rewrite E, R, F, N, Q, B, W, L. cbn. repeat split. lia.
  - eexists. split; [reflexivity|]. cbn. repeat split. lia.
Qed.

Lemma dispatch_change now mutation c :
  (forall due, debounce c = Some due -> now < due) ->
  dispatch now (ValueChange mutation) c
  = (Normal tt, with_debounce (Some (now + debounceTime))
                  (with_form (mutation (filterFormGroup c)) c)).
Proof.
  intros H. unfold dispatch, fire_due, bind, read, modify, ret.
  destruct (debounce c) as [due|] eqn:E; [|reflexivity].
  specialize (H due eq_refl).
  replace (due <=? now) with false by (symmetry; apply Z.leb_gt; exact H).
  reflexivity.
Qed.

Lemma run_burst changes : forall c due,
  debounce c = Some due -> in_window (due - debounceTime) changes ->
  exists due',
    run (value_changes changes) c
    = (Normal tt, with_debounce (Some due') (with_form (mutated changes (filterFormGroup c)) c)).
Proof.
  induction changes as [|[now m] rest IH]; intros c due Hd Hw.
  - exists due. cbn. unfold ret. destruct c; cbn in *. subst. reflexivity.
  - destruct Hw as [Hn Hw]. cbn [value_changes map run fst snd].
    unfold bind. rewrite dispatch_change.
    2:{ intros due0 E. rewrite Hd in E. injection E as <-. lia. }
    destruct (IH (with_debounce (Some (now + debounceTime))
                    (with_form (m (filterFormGroup c)) c)) (now + debounceTime))
      as (due' & E); [reflexivity|replace (now + debounceTime - debounceTime) with now by lia; exact Hw|].
    fold (value_changes rest). rewrite E. exists due'. reflexivity.
Qed.

Lemma settle_fires c due :
  debounce c = Some due ->
  settle c = onDebouncedValueChange (with_debounce None c).
Proof.
  intros E. unfold settle, fire_due, bind, read, modify. rewrite E. cbn beta iota.
  rewrite E, Z.leb_refl. reflexivity.
Qed.



End Debounce.
End DebounceFacts.

Module StatsCodec.
Import FilteredAbstractComponent BaseFacts ReconcilerFacts CodecFacts ProjectorFacts EchoFacts.
Import JS JSFacts.

(** X1. Where the date codec is faithful: for every valid date whose local year
    is at least 100, whatever its time of day, serializing it gives the local
    calendar date as year, month and day in decimal, joined by dashes, month
    and day on two digits and the year on four when it is between 1000 and
    9999; and deserializing that string under a date key gives the date at
    local midnight of the same local year, month and day. *)
Lemma date_round_trip {host : Host} (key : string) (t : Z) :
  StatsComponent.date_key key = true ->
  Z.abs t <= maxTime -> Z.abs LocalTZA <= msPerDay ->
  100 <= YearFromTime (LocalTime t) ->
  exists s year month day,
    serializeUrlParam key (Vdate (Some t)) = Some s
    /\ s = (year ++ "-" ++ month ++ "-" ++ day)%string
    /\ spells year (YearFromTime (LocalTime t))
    /\ spells month (MonthFromTime (LocalTime t) + 1)
    /\ spells day (DateFromTime (LocalTime t))
    /\ String.length month = 2%nat /\ String.length day = 2%nat
    /\ (1000 <= YearFromTime (LocalTime t) <= 9999 -> String.length year = 4%nat)
    /\ StatsComponent.deserializeUrlParam key s = Normal (Vdate (start_of_day (Some t)))
    /\ same_calendar_day (Some t) (start_of_day (Some t)).
Proof.
  intros Hk Ht Hz Hy.
  pose proof (MonthFromTime_range (LocalTime t)) as Hm.
  pose proof (DateFromTime_range (LocalTime t)) as Hd.
  eexists _, _, _, _. split; [apply serialize_date|].
  cbn [getFullYear getMonth getDate option_map succ].
  split; [reflexivity|].
  split; [apply spells_ToString; lia|].
  split; [apply spells_padStart, spells_ToString; lia|].
  split; [apply spells_padStart, spells_ToString; lia|].
  split; [apply two_digit_pad; lia|].
  split; [apply two_digit_pad; lia|].
  split; [apply four_digit_year|].
  split; [|apply start_of_day_same].
  apply (codec_round_trip key key (Some t)); [exact Hz|exact Hk|split; assumption|].
  reflexivity.
Qed.

(** C5. The round trip fails for a year below 100: on a UTC host,
    1 January of the year 50, a valid date, serializes to ["50-01-01"], which
    is not of the form YYYY-MM-DD the serializer documents, and that string
    deserializes to 1 January 1950, [new Date(50, 0, 1)] reading a year from
    0 to 99 as 1900 + year: the two dates differ under date-only
    equality. *)
Lemma two_digit_year_drifts :
  serializeUrlParam (host := Example.utc) "dateFrom" (Vdate (Some (-60589296000000)))
    = Some "50-01-01"
  /\ StatsComponent.deserializeUrlParam (host := Example.utc) "dateFrom" "50-01-01"
     = Normal (Vdate (Some (-631152000000)))
  /\ getFullYear (host := Example.utc) (Some (-60589296000000)) = Some 50
  /\ getFullYear (host := Example.utc) (Some (-631152000000)) = Some 1950
  /\ ~ same_calendar_day (host := Example.utc)
         (Some (-60589296000000)) (Some (-631152000000)).
Proof.
  repeat split; try (vm_compute; reflexivity).
  intros (H & _). vm_compute in H. discriminate H.
Qed.

End StatsCodec.

(* ================================================================== *)
(** * Further properties of the code *)
(* ================================================================== *)

Module CalendarFacts.
Import JS JSFacts.

(** The year of a day is the one whose first day is the last not after it. *)
Lemma YearFromDay_unique y n :
  DayFromYear y <= n < DayFromYear (y + 1) -> YearFromDay n = y.
Proof.
  intros H. pose proof (YearFromDay_spec n) as S.
  destruct (Z.lt_trichotomy (YearFromDay n) y) as [L|[E|G]]; [|exact E|].
  - pose proof (DayFromYear_mono (YearFromDay n + 1) y). lia.
  - pose proof (DayFromYear_mono (y + 1) (YearFromDay n)). lia.
Qed.

Lemma DaysInMonth_range m leap : 28 <= DaysInMonth m leap <= 31.
Proof.
  unfold DaysInMonth. destruct leap;
    repeat match goal with
           | |- context [match ?x with _ => _ end] => destruct x
           end; lia.
Qed.

Lemma DaysBeforeMonth_range m leap :
  0 <= m <= 11 ->
  0 <= DaysBeforeMonth m leap
  /\ DaysBeforeMonth m leap + DaysInMonth m leap <= if leap then 366 else 365.
Proof.
  intros H.
  assert (C : m = 0 \/ m = 1 \/ m = 2 \/ m = 3 \/ m = 4 \/ m = 5 \/ m = 6
              \/ m = 7 \/ m = 8 \/ m = 9 \/ m = 10 \/ m = 11) by lia.
  destruct leap;
    repeat (destruct C as [->|C]; [cbn; lia|]); subst; cbn; lia.
Qed.

(** The calendar fields of the day [d] of month [m] (0-based) of year [y]. *)
Lemma fields_of_civil y m d t :
  0 <= m <= 11 -> 1 <= d <= DaysInMonth m (is_leap y) ->
  Day t = DayFromYear y + DaysBeforeMonth m (is_leap y) + d - 1 ->
  YearFromTime t = y /\ MonthFromTime t = m /\ DateFromTime t = d.
Proof.
  intros Hm Hd E.
  assert (C : m = 0 \/ m = 1 \/ m = 2 \/ m = 3 \/ m = 4 \/ m = 5 \/ m = 6
              \/ m = 7 \/ m = 8 \/ m = 9 \/ m = 10 \/ m = 11) by lia.
  assert (Ey : YearFromTime t = y).
  { unfold YearFromTime. apply YearFromDay_unique. rewrite E, DayFromYear_step.
    unfold DaysInYear.
    destruct (is_leap y);
      repeat (destruct C as [->|C]; [cbn [DaysBeforeMonth DaysInMonth] in *; lia|]);
      subst; cbn [DaysBeforeMonth DaysInMonth] in *; lia. }
  assert (Ew : DayWithinYear t = DaysBeforeMonth m (is_leap y) + d - 1).
  { unfold DayWithinYear. rewrite Ey, E. lia. }
  assert (El : InLeapYear t = if is_leap y then 1 else 0).
  { unfold InLeapYear. rewrite Ey. reflexivity. }
  assert (Em : MonthFromTime t = m).
  { unfold MonthFromTime. rewrite Ew, El.
    destruct (is_leap y);
      repeat (destruct C as [->|C];
              [cbn [DaysBeforeMonth DaysInMonth] in *; month_cases; lia|]);
      subst; cbn [DaysBeforeMonth DaysInMonth] in *; month_cases; lia. }
  split; [exact Ey|]. split; [exact Em|].
  unfold DateFromTime. rewrite Em, Ew, El.
  destruct (is_leap y);
    repeat (destruct C as [->|C]; [cbn [DaysBeforeMonth DaysInMonth] in *; lia|]);
    subst; cbn [DaysBeforeMonth DaysInMonth] in *; lia.
Qed.

Section Dates.
Context {host : Host}.

(** [new Date(y, m, d)] on a calendar date from the year 100 on: the date
    at local midnight of that day. *)
Lemma Date_new_civil y m d :
  100 <= y <= 275000 -> 0 <= m <= 11 -> 1 <= d <= DaysInMonth m (is_leap y) ->
  Z.abs LocalTZA <= msPerDay ->
  exists t,
    Date_new (Fin (y # 1)) (Fin (m # 1)) (Fin (d # 1)) = Some t
    /\ LocalTime t = (DayFromYear y + DaysBeforeMonth m (is_leap y) + d - 1) * msPerDay
    /\ YearFromTime (LocalTime t) = y
    /\ MonthFromTime (LocalTime t) = m
    /\ DateFromTime (LocalTime t) = d.
Proof.
  intros Hy Hm Hd Hz.
  set (n := DayFromYear y + DaysBeforeMonth m (is_leap y) + d - 1).
  exists (UTC (MakeDate n 0)).
  assert (Hn : DayFromYear 100 <= n <= DayFromYear 275001).
  { pose proof (DayFromYear_mono 100 y ltac:(lia)).
    pose proof (DayFromYear_mono (y + 1) 275001 ltac:(lia)) as M.
    rewrite DayFromYear_step in M. unfold DaysInYear in M.
    pose proof (DaysBeforeMonth_range m (is_leap y) Hm) as [N1 N2].
    destruct (is_leap y); lia. }
  change (DayFromYear 100) with (-683003) in Hn.
  change (DayFromYear 275001) with 99722525 in Hn.
  assert (EL : LocalTime (UTC (MakeDate n 0)) = n * msPerDay).
  { unfold LocalTime, UTC, MakeDate. lia. }
  split.
  - unfold Date_new, MakeDay. rewrite !truncate_integer.
    replace ((0 <=? y) && (y <=? 99)) with false
      by (symmetry; apply andb_false_iff; right; apply Z.leb_gt; lia).
    rewrite !truncate_integer.
    rewrite (Z.div_small _ 12), (Z.mod_small _ 12) by lia.
    rewrite Z.add_0_r. fold n. unfold TimeClip.
    replace (maxTime <? Z.abs (UTC (MakeDate n 0))) with false; [reflexivity|].
    symmetry. apply Z.ltb_ge.
    unfold UTC, MakeDate, maxTime, msPerDay in *. lia.
  - split; [exact EL|].
    apply (fields_of_civil y m d); try assumption.
    rewrite EL. apply Day_of_midnight.
Qed.

End Dates.
End CalendarFacts.

Module DateTextFacts.
Local Open Scope string_scope.
Local Open Scope Z_scope.
Import FilteredAbstractComponent BaseFacts ReconcilerFacts CodecFacts.
Import JS JSFacts CalendarFacts.

Lemma split_free_last s :
  forall_chars (fun ch => negb (Ascii.eqb ch "-")) s = true -> split "-" s = [s].
Proof.
  induction s as [|ch s IH]; simpl; [reflexivity|].
  intros H. apply andb_prop in H. destruct H as [Hc Hs].
  apply negb_true_iff in Hc. rewrite Hc, (IH Hs). reflexivity.
Qed.

Lemma split_free_cons s rest :
  forall_chars (fun ch => negb (Ascii.eqb ch "-")) s = true ->
  split "-" (s ++ String "-" rest) = s :: split "-" rest.
Proof.
  induction s as [|ch s IH]; simpl; [reflexivity|].
  intros H. apply andb_prop in H. destruct H as [Hc Hs].
  apply negb_true_iff in Hc. rewrite Hc, (IH Hs). reflexivity.
Qed.

Section Dates.
Context {host : Host}.

Lemma Date_new_not_finite year month day :
  (forall q, year <> Fin q) \/ (forall q, month <> Fin q) \/ (forall q, day <> Fin q) ->
  Date_new year month day = None.
Proof.
  intros H. unfold Date_new.
  destruct year as [| |qy]; try reflexivity.
  destruct month as [| |qm];
    try (unfold MakeDay; destruct ((0 <=? truncate qy) && (truncate qy <=? 99)); reflexivity).
  destruct day as [| |qd];
    try (unfold MakeDay; destruct ((0 <=? truncate qy) && (truncate qy <=? 99)); reflexivity).
  destruct H as [H|[H|H]]; exfalso; eapply H; reflexivity.
Qed.

Lemma sub_not_finite x y : (forall q, x <> Fin q) -> forall q, sub x y <> Fin q.
Proof.
  intros H q. destruct x as [|a|p]; [| |exfalso; eapply H; reflexivity];
    destruct y as [|b|p]; cbn; try discriminate.
  destruct (Bool.eqb a b); discriminate.
Qed.

Lemma deserialize_date_key key value :
  StatsComponent.date_key key = true ->
  StatsComponent.deserializeUrlParam key value
  = Normal (Vdate (Date_new (nth 0 (map Number (split "-" value)) NaN)
                            (sub (nth 1 (map Number (split "-" value)) NaN) (Fin 1))
                            (nth 2 (map Number (split "-" value)) NaN))).
Proof.
  intros Hk. unfold StatsComponent.deserializeUrlParam.
  fold (StatsComponent.date_key key). rewrite Hk. reflexivity.
Qed.

(** X2. [deserializeUrlParam] under a date key never throws and always
    returns a [Date]; the date is an Invalid Date whenever the text has fewer
    than three parts between dashes, or one of its first three parts is not
    read by [Number] as a finite number. *)
Theorem malformed_date_is_invalid (key value : string) :
  StatsComponent.date_key key = true ->
  let parts := map Number (split "-" value) in
  (exists d, StatsComponent.deserializeUrlParam key value = Normal (Vdate d))
  /\ ((List.length (split "-" value) < 3)%nat ->
      StatsComponent.deserializeUrlParam key value = Normal (Vdate None))
  /\ (forall i, (i < 3)%nat -> (forall q, nth i parts NaN <> Fin q) ->
      StatsComponent.deserializeUrlParam key value = Normal (Vdate None)).
Proof.
  intros Hk parts.
  assert (E : StatsComponent.deserializeUrlParam key value
              = Normal (Vdate (Date_new (nth 0 parts NaN)
                                        (sub (nth 1 parts NaN) (Fin 1))
                                        (nth 2 parts NaN)))).
  { apply deserialize_date_key. exact Hk. }
  assert (Hi : forall i, (i < 3)%nat -> (forall q, nth i parts NaN <> Fin q) ->
               StatsComponent.deserializeUrlParam key value = Normal (Vdate None)).
  { intros i Hi Hq. rewrite E. f_equal. f_equal. apply Date_new_not_finite.
    destruct i as [|[|[|i]]]; [left|right; left|right; right|lia].
    - exact Hq.
    - apply sub_not_finite. exact Hq.
    - exact Hq. }
  split; [eexists; exact E|]. split; [|exact Hi].
  intros Hl. apply (Hi 2%nat); [lia|].
  intros q. rewrite nth_overflow; [discriminate|].
  subst parts. rewrite length_map. lia.
Qed.

(** X3. Only the first three parts of the text are read: whatever follows a
    third dash is ignored. *)
Theorem trailing_parts_are_ignored (key a b c rest : string) :
  StatsComponent.date_key key = true ->
  forall_chars (fun ch => negb (Ascii.eqb ch "-")) a = true ->
  forall_chars (fun ch => negb (Ascii.eqb ch "-")) b = true ->
  forall_chars (fun ch => negb (Ascii.eqb ch "-")) c = true ->
  StatsComponent.deserializeUrlParam key (a ++ "-" ++ b ++ "-" ++ c ++ "-" ++ rest)
  = StatsComponent.deserializeUrlParam key (a ++ "-" ++ b ++ "-" ++ c).
Proof.
  intros Hk Ha Hb Hc.
  unfold StatsComponent.deserializeUrlParam. fold (StatsComponent.date_key key).
  rewrite Hk.
  change ("-" ++ b ++ "-" ++ c ++ "-" ++ rest)
    with (String "-" (b ++ String "-" (c ++ String "-" rest))).
  change ("-" ++ b ++ "-" ++ c) with (String "-" (b ++ String "-" c)).
  rewrite !(split_free_cons a), !(split_free_cons b) by assumption.
  rewrite (split_free_cons c), (split_free_last c) by assumption.
  reflexivity.
Qed.

(** X4. A calendar date from the year 100 on, written as three runs of
    digits (padded with zeros or not) between dashes, is read as the date at
    local midnight of that day, and that date is written back as the text
    [y-mm-dd] with month and day on two digits: the codec puts the text into
    this form, and a text in this form is left as it is. *)
Theorem date_text_is_normalised (key key' : string) (y m d : Z) :
  StatsComponent.date_key key = true ->
  Z.abs LocalTZA <= msPerDay ->
  100 <= y <= 275000 -> 1 <= m <= 12 -> 1 <= d <= DaysInMonth (m - 1) (is_leap y) ->
  exists t,
    (forall ys ms ds, spells ys y -> spells ms m -> spells ds d ->
       StatsComponent.deserializeUrlParam key (ys ++ "-" ++ ms ++ "-" ++ ds)
       = Normal (Vdate (Some t)))
    /\ StatsComponent.deserializeUrlParam key (StatsComponent.date_text y m d)
       = Normal (Vdate (Some t))
    /\ getFullYear (Some t) = Some y
    /\ getMonth (Some t) = Some (m - 1)
    /\ getDate (Some t) = Some d
    /\ TimeWithinDay (LocalTime t) = 0
    /\ serializeUrlParam key' (Vdate (Some t)) = Some (StatsComponent.date_text y m d).
Proof.
  intros Hk Hz Hy Hm Hd.
  pose proof (DaysInMonth_range (m - 1) (is_leap y)) as Hd'.
  destruct (Date_new_civil y (m - 1) d Hy ltac:(lia) Hd Hz) as (t & Et & El & Fy & Fm & Fd).
  exists t.
  assert (Hs : forall ys ms ds, spells ys y -> spells ms m -> spells ds d ->
       StatsComponent.deserializeUrlParam key (ys ++ "-" ++ ms ++ "-" ++ ds)
       = Normal (Vdate (Some t))).
  { intros ys ms ds Sy Sm Sd. rewrite <- Et.
    apply deserialize_spelled; try assumption; try lia.
    replace (m - 1 + 1) with m by lia. exact Sm. }
  split; [exact Hs|]. split.
  { apply Hs.
    - apply spells_ToString. lia.
    - apply spells_padStart, spells_ToString. lia.
    - apply spells_padStart, spells_ToString. lia. }
  cbn [getFullYear getMonth getDate option_map]. rewrite Fy, Fm, Fd.
  repeat split.
  - rewrite El. unfold TimeWithinDay. apply Z.mod_mul. discriminate.
  - rewrite serialize_date. cbn [getFullYear getMonth getDate option_map succ].
    rewrite Fy, Fm, Fd. replace (m - 1 + 1) with m by lia. reflexivity.
Qed.

(** X5. The default range of [createFilters]: [dateTo] is now, and
    [dateFrom] is local midnight of the day 14 days before today, also
    across the start of a month or of a year; both are enabled, the compare
    controls are disabled and hold [null], and the form is valid. *)
Theorem default_range_is_fourteen_days (t : Z) :
  Z.abs t <= maxTime -> Z.abs LocalTZA <= msPerDay ->
  100 <= YearFromTime (LocalTime t) ->
  let fg := StatsComponent.createFilters (Some t) in
  exists from,
    fg = [ ("dateFrom", StatsComponent.control (Vdate (Some from)) true);
           ("dateTo", StatsComponent.control (Vdate (Some t)) true);
           ("compareDateFrom", StatsComponent.control Vnull false);
           ("compareDateTo", StatsComponent.control Vnull false) ]
    /\ LocalTime from = (Day (LocalTime t) - 14) * msPerDay
    /\ t - from = 14 * msPerDay + TimeWithinDay (LocalTime t)
    /\ Forms.value fg = [("dateFrom", Vdate (Some from)); ("dateTo", Vdate (Some t))]
    /\ Forms.valid fg = true.
Proof.
  intros Ht Hz Hy fg.
  set (n := Day (LocalTime t) - 14).
  exists (UTC (MakeDate n 0)).
  assert (E : Date_new (StatsComponent.of_field (getFullYear (Some t)))
                       (StatsComponent.of_field (getMonth (Some t)))
                       (StatsComponent.of_field
                          (option_map (fun d => d - 14) (getDate (Some t))))
              = Some (UTC (MakeDate n 0))).
  { cbn [getFullYear getMonth getDate option_map StatsComponent.of_field].
    unfold Date_new, MakeDay. rewrite !truncate_integer.
    replace ((0 <=? YearFromTime (LocalTime t)) && (YearFromTime (LocalTime t) <=? 99))
      with false
      by (symmetry; apply andb_false_iff; right; apply Z.leb_gt; lia).
    rewrite !truncate_integer.
    pose proof (MonthFromTime_range (LocalTime t)) as Hm.
    rewrite (Z.div_small _ 12), (Z.mod_small _ 12) by lia.
    rewrite Z.add_0_r.
    replace (DayFromYear (YearFromTime (LocalTime t))
             + DaysBeforeMonth (MonthFromTime (LocalTime t))
                               (is_leap (YearFromTime (LocalTime t)))
             + (DateFromTime (LocalTime t) - 14) - 1) with n
      by (subst n; rewrite (Day_decomposition (LocalTime t)); lia).
    unfold TimeClip.
    replace (maxTime <? Z.abs (UTC (MakeDate n 0))) with false; [reflexivity|].
    symmetry. apply Z.ltb_ge.
    pose proof (year_100_day _ Hy) as Hd.
    change (DayFromYear 100) with (-683003) in Hd.
    subst n. unfold UTC, MakeDate, LocalTime, Day, maxTime, msPerDay in *.
    Z.div_mod_to_equations. lia. }
  assert (Ef : fg = [ ("dateFrom", StatsComponent.control (Vdate (Some (UTC (MakeDate n 0)))) true);
           ("dateTo", StatsComponent.control (Vdate (Some t)) true);
           ("compareDateFrom", StatsComponent.control Vnull false);
           ("compareDateTo", StatsComponent.control Vnull false) ]).
  { subst fg. unfold StatsComponent.createFilters. rewrite E. reflexivity. }
  split; [exact Ef|]. split; [unfold LocalTime, UTC, MakeDate; lia|].
  split.
  { subst n. unfold UTC, MakeDate, TimeWithinDay, LocalTime, Day, msPerDay.
    Z.div_mod_to_equations. lia. }
  rewrite Ef. split; reflexivity.
Qed.

Lemma prefix_app n s : String.prefix n (n ++ s) = true.
Proof.
  induction n as [|ch n IH]; cbn; [destruct s; reflexivity|].
  destruct (ascii_dec ch ch); [exact IH|congruence].
Qed.

Lemma includes_unfold hay needle :
  includes hay needle
  = String.prefix needle hay
    || match hay with
       | EmptyString => false
       | String _ hay' => includes hay' needle
       end.
Proof. destruct hay; reflexivity. Qed.

Lemma includes_infix pre needle post : includes (pre ++ needle ++ post) needle = true.
Proof.
  induction pre as [|ch pre IH].
  - cbn [append]. rewrite includes_unfold, prefix_app. reflexivity.
  - cbn [append]. rewrite includes_unfold, IH. apply orb_true_r.
Qed.

(** X22. A key is a date key as soon as it has [date] or [Date] somewhere
    in it, in this case, not only when it is the name of a date control: the
    text under such a key is always made a [Date].  Under any other key the
    text is returned as it is. *)
Theorem date_keys_are_matched_by_substring (pre post value : string) :
  (exists d, StatsComponent.deserializeUrlParam (pre ++ "date" ++ post) value
             = Normal (Vdate d))
  /\ (exists d, StatsComponent.deserializeUrlParam (pre ++ "Date" ++ post) value
                = Normal (Vdate d))
  /\ (forall key, StatsComponent.date_key key = false ->
        StatsComponent.deserializeUrlParam key value = Normal (Vstring value)).
Proof.
  split; [|split].
  - eexists. apply deserialize_date_key. unfold StatsComponent.date_key.
    rewrite includes_infix. reflexivity.
  - eexists. apply deserialize_date_key. unfold StatsComponent.date_key.
    rewrite includes_infix. apply orb_true_r.
  - intros key Hk. unfold StatsComponent.deserializeUrlParam.
    fold (StatsComponent.date_key key). rewrite Hk. reflexivity.
Qed.

End Dates.
End DateTextFacts.

Module FormFacts.
Import FilteredAbstractComponent BaseFacts ReconcilerFacts ProjectorFacts.

Lemma shape_patch_control name v fg :
  map Forms.shape_of (Forms.patch_control name v fg) = map Forms.shape_of fg.
Proof.
  induction fg as [|[k ctl] fg IH]; [reflexivity|].
  cbn [Forms.patch_control]. destruct (String.eqb k name); cbn [map].
  - reflexivity.
  - rewrite IH. reflexivity.
Qed.

Lemma shape_patchValue patch : forall fg,
  map Forms.shape_of (Forms.patchValue patch fg) = map Forms.shape_of fg.
Proof.
  unfold Forms.patchValue.
  induction patch as [|[k v] patch IH]; intros fg; [reflexivity|].
  cbn [fold_left fst snd]. rewrite IH. apply shape_patch_control.
Qed.

Lemma keys_of_shape fg fg' :
  map Forms.shape_of fg = map Forms.shape_of fg' -> Obj.keys fg = Obj.keys fg'.
Proof.
  intros H. unfold Obj.keys.
  assert (E : forall g, map fst g = map (fun s => fst (fst s)) (map Forms.shape_of g)).
  { intros g. rewrite map_map. reflexivity. }
  rewrite (E fg), (E fg'), H. reflexivity.
Qed.

Lemma keys_patchValue patch fg :
  Obj.keys (Forms.patchValue patch fg) = Obj.keys fg.
Proof. apply keys_of_shape, shape_patchValue. Qed.

Lemma lookup_patchValue_other name patch : forall fg,
  ~ In name (Obj.keys patch) ->
  Obj.lookup name (Forms.patchValue patch fg) = Obj.lookup name fg.
Proof.
  unfold Forms.patchValue.
  induction patch as [|[k v] patch IH]; intros fg Hn; [reflexivity|].
  cbn [fold_left fst snd]. rewrite IH by (intros H; apply Hn; right; exact H).
  rewrite lookup_patch_control.
  destruct (String.eqb_spec name k) as [->|]; [|reflexivity].
  exfalso. apply Hn. left. reflexivity.
Qed.

Lemma lookup_none_of_keys {A B} k (o : object A) (o' : object B) :
  Obj.keys o = Obj.keys o' -> Obj.lookup k o = None -> Obj.lookup k o' = None.
Proof.
  revert o'. induction o as [|[k1 v1] o IH]; intros [|[k2 v2] o'] E; try discriminate;
    [reflexivity|].
  cbn in E. injection E as <- E. cbn [Obj.lookup].
  destruct (String.eqb k1 k); [discriminate|]. apply IH. exact E.
Qed.

Lemma keys_set_incl {A} k (v : A) o x :
  In x (Obj.keys (Obj.set k v o)) -> x = k \/ In x (Obj.keys o).
Proof.
  induction o as [|[k' v'] o IH]; cbn.
  - intros [<-|[]]. left. reflexivity.
  - destruct (String.eqb k' k); cbn; intros [<-|H]; auto.
    destruct (IH H); auto.
Qed.

Lemma keys_fold_assign l : forall acc x,
  In x (Obj.keys (fold_left assign l acc)) -> In x (Obj.keys acc) \/ In x (Obj.keys l).
Proof.
  induction l as [|[k v] l IH]; intros acc x H; [left; exact H|].
  cbn [fold_left] in H. destruct (IH _ _ H) as [H1|H1].
  - unfold assign in H1. cbn [fst snd] in H1.
    destruct (keys_set_incl _ _ _ _ H1) as [->|H2]; [right; left; reflexivity|left; exact H2].
  - right. right. exact H1.
Qed.

Lemma NoDup_keys_set {A} k (v : A) o :
  NoDup (Obj.keys o) -> NoDup (Obj.keys (Obj.set k v o)).
Proof.
  induction o as [|[k' v'] o IH]; cbn; intros H.
  - constructor; [intros []|constructor].
  - inversion H as [|? ? Hn Hd]; subst.
    destruct (String.eqb_spec k' k) as [->|Hne]; cbn.
    + constructor; assumption.
    + constructor; [|apply IH; exact Hd].
      intros Hin. destruct (keys_set_incl _ _ _ _ Hin) as [->|H1]; [congruence|].
      apply Hn. exact H1.
Qed.

Lemma NoDup_keys_fold_assign l : forall acc,
  NoDup (Obj.keys acc) -> NoDup (Obj.keys (fold_left assign l acc)).
Proof.
  induction l as [|kv l IH]; intros acc H; [exact H|].
  cbn [fold_left]. apply IH. apply NoDup_keys_set. exact H.
Qed.

Lemma patch_control_twice name v w fg :
  Forms.patch_control name v (Forms.patch_control name w fg)
  = Forms.patch_control name v fg.
Proof.
  induction fg as [|[k ctl] fg IH]; [reflexivity|].
  cbn [Forms.patch_control]. destruct (String.eqb k name) eqn:E;
    cbn [Forms.patch_control]; rewrite E; [reflexivity|].
  rewrite IH. reflexivity.
Qed.

Lemma patch_control_swap k v k' v' fg :
  k <> k' ->
  Forms.patch_control k v (Forms.patch_control k' v' fg)
  = Forms.patch_control k' v' (Forms.patch_control k v fg).
Proof.
  intros Hne. induction fg as [|[n ctl] fg IH]; [reflexivity|].
  cbn [Forms.patch_control].
  destruct (String.eqb n k') eqn:E1; destruct (String.eqb n k) eqn:E2;
    cbn [Forms.patch_control]; rewrite ?E1, ?E2; try reflexivity.
  - apply String.eqb_eq in E1, E2. congruence.
  - rewrite IH. reflexivity.
Qed.

Lemma patch_control_patchValue k v patch : forall fg,
  ~ In k (Obj.keys patch) ->
  Forms.patch_control k v (Forms.patchValue patch fg)
  = Forms.patchValue patch (Forms.patch_control k v fg).
Proof.
  unfold Forms.patchValue.
  induction patch as [|[k' v'] patch IH]; intros fg Hn; [reflexivity|].
  cbn [fold_left fst snd].
  rewrite IH by (intros H; apply Hn; right; exact H).
  rewrite patch_control_swap; [reflexivity|].
  intros ->. apply Hn. left. reflexivity.
Qed.

Lemma patchValue_cons k v patch fg :
  Forms.patchValue ((k, v) :: patch) fg
  = Forms.patchValue patch (Forms.patch_control k v fg).
Proof. reflexivity. Qed.

(** Patching twice with the same patch is patching once. *)
Lemma patchValue_twice patch : forall fg,
  NoDup (Obj.keys patch) ->
  Forms.patchValue patch (Forms.patchValue patch fg) = Forms.patchValue patch fg.
Proof.
  induction patch as [|[k v] patch IH]; intros fg Hd; [reflexivity|].
  inversion Hd as [|? ? Hn Hd']; subst.
  rewrite !patchValue_cons.
  rewrite (patch_control_patchValue k v patch (Forms.patch_control k v fg)) by exact Hn.
  rewrite patch_control_twice. apply IH. exact Hd'.
Qed.

End FormFacts.

Module ReconcilerLaws.
Import FilteredAbstractComponent BaseFacts ReconcilerFacts ProjectorFacts EchoFacts FormFacts.

Section Reconciler.
Context {host : JS.Host} {D : Type} {screen : Screen D}.
Implicit Type c : Component D.

Lemma find_first_match (p : string -> bool) pre key post :
  (forall k, In k pre -> p k = false) -> p key = true ->
  find p (pre ++ key :: post) = Some key.
Proof.
  intros Hpre Hk. induction pre as [|x pre IH]; cbn.
  - rewrite Hk. reflexivity.
  - rewrite (Hpre x (or_introl eq_refl)). apply IH.
    intros k H. apply Hpre. right. exact H.
Qed.

(** X6. [getFormControlKey] returns the first control, in the order of
    declaration, whose URL key is the one asked for, and [null] when that
    control has the empty name or when there is none; so a name it returns
    is a non-empty control name that maps to the URL key, and with distinct
    URL keys it inverts [getUrlParamKey] on the non-empty control names. *)
Theorem getFormControlKey_is_first_match (fg : Forms.FormGroup) (urlKey : string) :
  (forall pre key post,
      Obj.keys fg = pre ++ key :: post ->
      (forall k, In k pre -> getUrlParamKey k <> urlKey) ->
      getUrlParamKey key = urlKey ->
      getFormControlKey fg urlKey = if JS.is_empty key then None else Some key)
  /\ ((forall k, In k (Obj.keys fg) -> getUrlParamKey k <> urlKey) ->
      getFormControlKey fg urlKey = None)
  /\ (forall key, getFormControlKey fg urlKey = Some key ->
        In key (Obj.keys fg) /\ getUrlParamKey key = urlKey /\ key <> EmptyString)
  /\ (forall key, NoDup (map getUrlParamKey (Obj.keys fg)) ->
        In key (Obj.keys fg) -> key <> EmptyString ->
        getFormControlKey fg (getUrlParamKey key) = Some key).
Proof.
  split; [|split; [|split]].
  - intros pre key post Ek Hpre Hkey. unfold getFormControlKey. rewrite Ek.
    rewrite (find_first_match _ pre key post); [reflexivity| |].
    + intros k Hk. apply String.eqb_neq. apply Hpre. exact Hk.
    + apply String.eqb_eq. exact Hkey.
  - intros Hn. unfold getFormControlKey.
    destruct (find _ _) as [key|] eqn:E; [|reflexivity].
    apply find_some in E. destruct E as [Hin He].
    apply String.eqb_eq in He. exfalso. exact (Hn key Hin He).
  - intros key H. split; [|split].
    + unfold getFormControlKey in H.
      destruct (find _ _) as [k|] eqn:E; [|discriminate].
      destruct (JS.is_empty k); [discriminate|]. injection H as <-.
      apply find_some in E. tauto.
    + eapply getFormControlKey_url. eassumption.
    + unfold getFormControlKey in H.
      destruct (find _ _) as [k|] eqn:E; [|discriminate].
      destruct k; [discriminate|]. injection H as <-. discriminate.
  - intros key Hd Hin Hne. apply getFormControlKey_found; try assumption.
    apply is_empty_false. exact Hne.
Qed.

Lemma outcome_unknown fg entry :
  (forall key, In key (Obj.keys fg) -> getUrlParamKey key <> fst entry) ->
  entry_outcome fg entry
  = if present entry then Warned (NoFormControl (fst entry) None) else Skipped.
Proof.
  intros Hn. destruct entry as [urlKey value]. unfold entry_outcome, present. cbn [fst snd] in *.
  destruct (JS.is_empty value); [reflexivity|]. cbn [negb].
  destruct (getFormControlKey fg urlKey) as [key|] eqn:E; [|reflexivity].
  exfalso. apply (Hn key).
  - unfold getFormControlKey in E.
    destruct (find _ _) as [k|] eqn:F; [|discriminate].
    destruct (JS.is_empty k); [discriminate|]. injection E as <-.
    apply find_some in F. tauto.
  - eapply getFormControlKey_url. exact E.
Qed.

(** X7. Entries of the incoming record under keys that no control maps to
    change nothing in the component but the console: each one that is not
    empty is warned about once, in order, as having no form control. *)
Theorem unknown_keys_are_reported (params : object string) c :
  (forall entry key, In entry params -> In key (Obj.keys (filterFormGroup c)) ->
                     getUrlParamKey key <> fst entry) ->
  updateFormFromUrl params c
  = (Normal tt,
     with_warnings (warnings c ++ map (fun entry => NoFormControl (fst entry) None)
                                      (filter present params)) c).
Proof.
  intros Hn. rewrite updateFormFromUrl_reconciled. unfold reconciled.
  assert (E : assignments (filterFormGroup c) params = []
              /\ diagnostics (filterFormGroup c) params
                 = map (fun entry => NoFormControl (fst entry) None) (filter present params)).
  { induction params as [|entry params IH]; [split; reflexivity|].
    destruct IH as [IA ID]; [intros e k He; apply Hn; right; exact He|].
    unfold assignments, diagnostics in *. cbn [flat_map filter].
    rewrite (outcome_unknown _ entry) by (intros k; apply Hn; left; reflexivity).
    rewrite IA, ID. destruct (present entry); split; reflexivity. }
  destruct E as [-> ->]. cbn [fold_left]. unfold Forms.patchValue. cbn [fold_left].
  reflexivity.
Qed.

Lemma assignment_entry fg params kv :
  In kv (assignments fg params) ->
  exists entry, In entry params /\ entry_outcome fg entry = Patched (fst kv) (snd kv)
                /\ getUrlParamKey (fst kv) = fst entry.
Proof.
  unfold assignments. rewrite in_flat_map. intros (entry & Hin & H).
  exists entry. split; [exact Hin|].
  destruct (entry_outcome fg entry) as [|key v|d] eqn:E; try destruct H as [].
  - subst kv. split; [reflexivity|]. cbn [fst].
    destruct entry as [urlKey value]. unfold entry_outcome in E.
    destruct (JS.is_empty value); [discriminate|].
    destruct (getFormControlKey fg urlKey) as [key'|] eqn:G; [|discriminate].
    destruct (Forms.get fg key'); [|discriminate].
    destruct (deserializeUrlParam urlKey value); [|discriminate].
    injection E as <- _. cbn [fst]. eapply getFormControlKey_url. exact G.
  - destruct H.
Qed.

(** X8. [updateFormFromUrl] is silent: it returns normally and touches
    nothing but the values of controls and the console.  It does not call
    the router, does not start the debounce timer, does not request a load;
    it keeps every control's name, position, enablement and validator; and a
    control whose URL key is not a key of the incoming record keeps its
    value. *)
Theorem reconcile_is_silent (params : object string) c :
  let r := updateFormFromUrl params c in
  fst r = Normal tt
  /\ navigations (snd r) = navigations c
  /\ query (snd r) = query c
  /\ debounce (snd r) = debounce c
  /\ requested (snd r) = requested c
  /\ loads (snd r) = loads c
  /\ isLoading (snd r) = isLoading c
  /\ data (snd r) = data c
  /\ subscribed (snd r) = subscribed c
  /\ retried (snd r) = retried c
  /\ unhandled (snd r) = unhandled c
  /\ map Forms.shape_of (filterFormGroup (snd r)) = map Forms.shape_of (filterFormGroup c)
  /\ (forall name,
        ~ In (getUrlParamKey name) (Obj.keys params) ->
        Obj.lookup name (filterFormGroup (snd r)) = Obj.lookup name (filterFormGroup c)).
Proof.
  intros r. subst r. rewrite updateFormFromUrl_reconciled. unfold reconciled.
  cbn [fst snd navigations query debounce requested loads isLoading data subscribed
       retried unhandled filterFormGroup with_form with_warnings].
  repeat split.
  - apply shape_patchValue.
  - intros name Hn. apply lookup_patchValue_other. intros Hin.
    destruct (keys_fold_assign _ _ _ Hin) as [[]|H].
    unfold Obj.keys in H. apply in_map_iff in H. destruct H as (kv & <- & Hkv).
    destruct (assignment_entry _ _ _ Hkv) as (entry & He & _ & Hk).
    apply Hn. rewrite Hk. unfold Obj.keys. apply in_map. exact He.
Qed.

Lemma get_of_keys fg fg' key :
  Obj.keys fg = Obj.keys fg' -> Forms.get fg key = None -> Forms.get fg' key = None.
Proof.
  intros E. unfold Forms.get.
  destruct (JS.split "." key) as [|name [|? ?]]; try reflexivity.
  apply lookup_none_of_keys. exact E.
Qed.

Lemma outcome_of_keys fg fg' entry :
  Obj.keys fg = Obj.keys fg' -> entry_outcome fg entry = entry_outcome fg' entry.
Proof.
  intros E. destruct entry as [urlKey value]. unfold entry_outcome.
  destruct (JS.is_empty value); [reflexivity|].
  unfold getFormControlKey. rewrite <- E.
  destruct (find _ _) as [k|]; [|reflexivity].
  destruct (JS.is_empty k); [reflexivity|].
  destruct (Forms.get fg k) eqn:G1; destruct (Forms.get fg' k) eqn:G2; try reflexivity.
  - rewrite (get_of_keys fg' fg k (eq_sym E) G2) in G1. discriminate.
  - rewrite (get_of_keys fg fg' k E G1) in G2. discriminate.
Qed.

Lemma reconciled_twice params c :
  let c1 := reconciled params c in
  filterFormGroup (reconciled params c1) = filterFormGroup c1
  /\ warnings c1 = warnings c ++ diagnostics (filterFormGroup c) params
  /\ warnings (reconciled params c1)
     = warnings c1 ++ diagnostics (filterFormGroup c) params.
Proof.
  intros c1. subst c1. unfold reconciled.
  cbn [filterFormGroup warnings with_form with_warnings].
  set (fg := filterFormGroup c).
  set (patch := fold_left assign (assignments fg params) []).
  assert (Ek : Obj.keys fg = Obj.keys (Forms.patchValue patch fg))
    by (symmetry; apply keys_patchValue).
  assert (Ea : assignments (Forms.patchValue patch fg) params = assignments fg params).
  { unfold assignments. apply flat_map_ext. intros e.
    rewrite (outcome_of_keys _ _ e Ek). reflexivity. }
  assert (Ed : diagnostics (Forms.patchValue patch fg) params = diagnostics fg params).
  { unfold diagnostics. apply flat_map_ext. intros e.
    rewrite (outcome_of_keys _ _ e Ek). reflexivity. }
  rewrite Ea, Ed. fold patch. repeat split.
  apply patchValue_twice. subst patch. apply NoDup_keys_fold_assign. constructor.
Qed.

(** X9. Reconciling the same record a second time changes no control: the
    form is the one the first pass left; only the warnings of the first pass
    are issued again. *)
Theorem reconcile_twice_changes_nothing (params : object string) c :
  let c1 := snd (updateFormFromUrl params c) in
  let c2 := snd (updateFormFromUrl params c1) in
  filterFormGroup c2 = filterFormGroup c1
  /\ exists ds, warnings c1 = warnings c ++ ds /\ warnings c2 = warnings c1 ++ ds.
Proof.
  intros c1 c2. subst c1 c2. rewrite !updateFormFromUrl_reconciled. cbn [snd].
  destruct (reconciled_twice params c) as (F & W1 & W2).
  split; [exact F|]. eexists. split; eassumption.
Qed.

End Reconciler.
End ReconcilerLaws.

Module ProjectorLaws.
Import FilteredAbstractComponent BaseFacts ReconcilerFacts ProjectorFacts EchoFacts FormFacts.

Section Projector.
Context {host : JS.Host} {D : Type} {screen : Screen D}.
Implicit Type c : Component D.

Lemma serialize_absent key v :
  serializeUrlParam key v = None <-> is_absent v = true.
Proof. destruct v; cbn; split; intros H; (reflexivity || discriminate). Qed.

Lemma wire_of_control_on_wire fg kc :
  wire_of_control (Forms.disabled fg) kc
  = if on_wire fg kc
    then match serializeUrlParam (getUrlParamKey (fst kc)) (Forms.value_of (snd kc)) with
         | Some s => [(getUrlParamKey (fst kc), s)]
         | None => []
         end
    else [].
Proof.
  unfold wire_of_control, on_wire.
  destruct (Forms.enabled (snd kc) || Forms.disabled fg); cbn [andb]; [|reflexivity].
  destruct (is_absent (Forms.value_of (snd kc))) eqn:E; cbn [negb]; [|reflexivity].
  apply (proj2 (serialize_absent (getUrlParamKey (fst kc)) _)) in E.
  rewrite E. reflexivity.
Qed.

Lemma keys_wire dis (p : string * Forms.FormControl -> bool) l :
  (forall kc, In kc l ->
     Obj.keys (wire_of_control dis kc) = if p kc then [getUrlParamKey (fst kc)] else []) ->
  Obj.keys (flat_map (wire_of_control dis) l)
  = map getUrlParamKey (Obj.keys (filter p l)).
Proof.
  induction l as [|kc l IH]; intros H; [reflexivity|].
  cbn [flat_map filter]. rewrite keys_app, (H kc (or_introl eq_refl)).
  rewrite IH by (intros x Hx; apply H; right; exact Hx).
  destruct (p kc); reflexivity.
Qed.

Lemma project_keys_on_wire fg :
  NoDup (map getUrlParamKey (Obj.keys fg)) ->
  Obj.keys (project (Forms.value fg))
  = map getUrlParamKey (Obj.keys (filter (on_wire fg) fg)).
Proof.
  intros Hd. rewrite (project_form fg Hd).
  apply keys_wire. intros kc _. rewrite wire_of_control_on_wire.
  destruct (on_wire fg kc) eqn:E; [|reflexivity].
  destruct (serializeUrlParam _ _) eqn:S; [reflexivity|].
  apply serialize_absent in S. unfold on_wire in E. rewrite S in E.
  rewrite andb_false_r in E. discriminate.
Qed.


(** A control that does not reach the wire has no entry. *)
Lemma project_off_wire fg name ctl :
  NoDup (map getUrlParamKey (Obj.keys fg)) ->
  In (name, ctl) fg -> on_wire fg (name, ctl) = false ->
  ~ In (getUrlParamKey name) (Obj.keys (project (Forms.value fg))).
Proof.
  intros Hd Hin Hoff. rewrite (project_keys_on_wire fg Hd).
  unfold Obj.keys in *. rewrite map_map in *. intros H. apply in_map_iff in H.
  destruct H as (kc & Hk & Hkc). apply filter_In in Hkc. destruct Hkc as [Hkc Hon].
  assert (kc = (name, ctl)).
  { apply (NoDup_map_injective (fun kc => getUrlParamKey (fst kc)) fg); assumption. }
  subst kc. congruence.
Qed.



(** X11. A disabled control, in a form that has an enabled one, takes the
    value the URL gives it and is left out of what is written to the URL:
    [patchValue] sets it, [fg.value] omits it. *)
Theorem disabled_control_is_read_not_written (name value : string) (w : jsval)
    (ctl : Forms.FormControl) c :
  let fg := filterFormGroup c in
  NoDup (map getUrlParamKey (Obj.keys fg)) ->
  plain_name name ->
  Obj.lookup name fg = Some ctl ->
  Forms.enabled ctl = false -> Forms.disabled fg = false ->
  value <> EmptyString ->
  deserializeUrlParam (getUrlParamKey name) value = Normal w ->
  let c' := snd (updateFormFromUrl [(getUrlParamKey name, value)] c) in
  Obj.lookup name (filterFormGroup c') = Some (Forms.set_value w ctl)
  /\ warnings c' = warnings c
  /\ ~ In (getUrlParamKey name) (Obj.keys (project (Forms.value (filterFormGroup c')))).
Proof.
  intros fg Hd [Hp1 Hp2] Hl He Hg Hv Hw c'.
  assert (Hin : In name (Obj.keys fg)).
  { destruct (in_dec string_dec name (Obj.keys fg)) as [H|H]; [exact H|].
    rewrite (lookup_not_in _ _ H) in Hl. discriminate. }
  assert (Eo : entry_outcome fg (getUrlParamKey name, value) = Patched name w).
  { apply outcome_patched; try assumption.
    - apply getFormControlKey_found; assumption.
    - unfold Forms.get. rewrite Hp2. fold fg. rewrite Hl. discriminate. }
  assert (Ec : c' = with_form (Forms.patch_control name w fg) c).
  { subst c'. rewrite updateFormFromUrl_reconciled. unfold reconciled. fold fg.
    unfold assignments, diagnostics. cbn [flat_map snd]. rewrite Eo.
    cbn [List.app fold_left assign Obj.set fst snd]. unfold Forms.patchValue.
    cbn [fold_left fst snd]. rewrite app_nil_r. rewrite with_warnings_same. reflexivity. }
  rewrite Ec. cbn [filterFormGroup warnings with_form].
  split; [|split; [reflexivity|]].
  - rewrite lookup_patch_control, String.eqb_refl. fold fg. rewrite Hl. reflexivity.
  - set (fg' := Forms.patch_control name w fg).
    assert (Hd' : NoDup (map getUrlParamKey (Obj.keys fg'))).
    { subst fg'. rewrite keys_patch_control. exact Hd. }
    rewrite (project_form fg' Hd').
    assert (Eg : Forms.disabled fg' = false)
      by (subst fg'; rewrite disabled_patch_control; exact Hg).
    rewrite Eg. intros H. unfold Obj.keys in H. apply in_map_iff in H.
    destruct H as ([k s] & Hk & Hks). cbn [fst] in Hk.
    apply in_flat_map in Hks. destruct Hks as ([n ctl'] & Hn & Hks).
    pose proof (wire_of_control_key _ _ _ Hks) as K. cbn [fst] in K.
    assert (En : n = name).
    { apply (NoDup_map_injective getUrlParamKey (Obj.keys fg')); try assumption.
      - unfold Obj.keys. apply (in_map fst) in Hn. exact Hn.
      - subst fg'. rewrite keys_patch_control. exact Hin.
      - congruence. }
    subst n.
    assert (NoDup (Obj.keys fg')).
    { apply (NoDup_map_inv getUrlParamKey). exact Hd'. }
    assert (El : Obj.lookup name fg' = Some ctl') by (apply lookup_in; assumption).
    subst fg'. rewrite lookup_patch_control, String.eqb_refl in El. fold fg in El.
    rewrite Hl in El. cbn in El. injection El as <-.
    unfold wire_of_control in Hks. cbn [snd Forms.set_value Forms.enabled] in Hks.
    rewrite He in Hks. cbn in Hks. exact Hks.
Qed.

End Projector.
End ProjectorLaws.

Module LifecycleFacts.
Import FilteredAbstractComponent BaseFacts ReconcilerFacts ProjectorFacts EchoFacts FormFacts.
Import ReconcilerLaws DebounceFacts.

Section Lifecycle.
Context {host : JS.Host} {D : Type} {screen : Screen D}.
Implicit Type c : Component D.

Lemma reconciled_again params c c1 :
  filterFormGroup c1 = filterFormGroup (reconciled params c) ->
  filterFormGroup (reconciled params c1) = filterFormGroup c1
  /\ warnings (reconciled params c1)
     = warnings c1 ++ diagnostics (filterFormGroup c) params.
Proof.
  intros E. destruct (reconciled_twice params c) as (F & _ & W).
  cbv zeta in F, W. unfold reconciled in *.
  cbn [filterFormGroup warnings with_form with_warnings] in *.
  rewrite E. split; [exact F|].
  f_equal. apply (app_inv_head _ _ _ W).
Qed.

(** X12. [ngOnInit] creates the form, applies the query parameters of the
    route to it and requests the first load, whether the form is valid or
    not: the pipeline is subscribed and [loadData] is called once, on the
    form as the URL left it.  Nothing is written to the URL and no debounce
    timer is started.  The parameters are applied twice, by [loadFromUrl]
    and by the subscription to [route.queryParams]: the second pass changes
    no control and issues every warning again. *)
Theorem ngOnInit_loads_from_url_then_requests c :
  let r := ngOnInit c in
  let fg := filterFormGroup (snd (updateFormFromUrl (query c) (with_form createFilters c))) in
  fst r = Normal tt
  /\ filterFormGroup (snd r) = fg
  /\ map Forms.shape_of fg = map Forms.shape_of createFilters
  /\ navigations (snd r) = navigations c
  /\ query (snd r) = query c
  /\ debounce (snd r) = debounce c
  /\ requested (snd r) = S (requested c)
  /\ loads (snd r) = loads c ++ [Forms.value fg]
  /\ warnings (snd r)
     = warnings c ++ diagnostics createFilters (query c) ++ diagnostics createFilters (query c).
Proof.
  intros r fg.
  set (c0 := with_form createFilters c).
  set (c1 := reconciled (query c) c0).
  set (c2 := with_retried 0 (with_subscribed true c1)).
  set (c3 := reconciled (query c) c2).
  assert (Efg : fg = filterFormGroup c1).
  { subst fg. fold c0. rewrite updateFormFromUrl_reconciled. reflexivity. }
  destruct (reconciled_again (query c) c0 c2 eq_refl) as [F3 W3].
  fold c3 in F3, W3.
  destruct (next_effects c3) as (c' & E & R & F & N & Q & B & W & L).
  assert (Er : r = (Normal tt, c')).
  { subst r. unfold ngOnInit, loadFromUrl, bind, read, modify.
    change (query (with_form createFilters c)) with (query c). fold c0.
    rewrite updateFormFromUrl_reconciled. fold c1. cbn beta iota. fold c2.
    change (query c2) with (query c).
    rewrite updateFormFromUrl_reconciled. fold c3. exact E. }
  rewrite Er. cbn [fst snd]. rewrite F, N, Q, B, R, L, W, F3, W3, Efg.
  split; [reflexivity|]. split; [reflexivity|]. split.
  { subst c1. unfold reconciled. cbn [filterFormGroup with_form with_warnings].
    apply shape_patchValue. }
  assert (S3 : subscribed c3 = true) by reflexivity.
  rewrite S3. repeat split.
  subst c2 c1 c0. unfold reconciled.
  cbn [filterFormGroup warnings with_form with_warnings with_retried with_subscribed].
  rewrite <- app_assoc. reflexivity.
Qed.

(** One notification on a subscribed pipeline. *)
Lemma next_subscribed c :
  subscribed c = true ->
  let fg := filterFormGroup c in
  exists c',
    dataUpdateRequested_next c = (Normal tt, c')
    /\ filterFormGroup c' = fg
    /\ loads c' = loads c ++ [Forms.value fg]
    /\ isLoading c' = false
    /\ (fails fg (List.length (loads c)) = false ->
        subscribed c' = true /\ retried c' = retried c /\ unhandled c' = unhandled c)
    /\ (fails fg (List.length (loads c)) = true -> (retried c < 3)%nat ->
        subscribed c' = true /\ retried c' = S (retried c) /\ unhandled c' = unhandled c)
    /\ (fails fg (List.length (loads c)) = true -> (3 <= retried c)%nat ->
        subscribed c' = false
        /\ List.length (unhandled c') = S (List.length (unhandled c))).
Proof.
  intros Hs fg. unfold dataUpdateRequested_next, bind, read, modify, ret.
  cbn [subscribed with_requested]. rewrite Hs.
  cbn [filterFormGroup with_loading with_requested loads with_loads].
  unfold fails. fold fg.
  destruct (loadData fg (List.length (loads c))) as [d|e].
  - eexists. split; [reflexivity|]. cbn. rewrite Hs.
    repeat split; discriminate.
  - cbn [retried with_loading with_loads with_requested].
    destruct (Nat.ltb_spec (retried c) 3) as [Hr|Hr].
    + eexists. split; [reflexivity|]. cbn. rewrite Hs.
      repeat split; try discriminate; lia.
    + eexists. split; [reflexivity|]. cbn.
      repeat split; try discriminate; try lia.
      rewrite length_app. cbn. lia.
Qed.

Lemma next_unsubscribed c :
  subscribed c = false ->
  exists c',
    dataUpdateRequested_next c = (Normal tt, c')
    /\ loads c' = loads c /\ unhandled c' = unhandled c /\ subscribed c' = false.
Proof.
  intros Hs. unfold dataUpdateRequested_next, bind, read, modify, ret.
  cbn [subscribed with_requested]. rewrite Hs.
  eexists. split; [reflexivity|]. cbn. repeat split. exact Hs.
Qed.

Lemma requests_dropped n : forall c,
  subscribed c = false ->
  exists c',
    requests n c = (Normal tt, c')
    /\ loads c' = loads c /\ unhandled c' = unhandled c /\ subscribed c' = false.
Proof.
  induction n as [|n IH]; intros c Hs.
  - exists c. repeat split; assumption.
  - destruct (next_unsubscribed c Hs) as (c1 & E1 & L1 & U1 & S1).
    destruct (IH c1 S1) as (c' & E' & L' & U' & S').
    exists c'. cbn [requests]. unfold bind. rewrite E1, E'.
    repeat split; congruence.
Qed.

Lemma requests_budget n : forall c,
  subscribed c = true -> (retried c <= 3)%nat ->
  let fg := filterFormGroup c in
  let first := List.length (loads c) in
  exists c',
    requests n c = (Normal tt, c')
    /\ ((retried c + failures fg first n <= 3)%nat ->
        subscribed c' = true
        /\ retried c' = (retried c + failures fg first n)%nat
        /\ loads c' = loads c ++ repeat (Forms.value fg) n
        /\ unhandled c' = unhandled c)
    /\ ((4 <= retried c + failures fg first n)%nat ->
        subscribed c' = false
        /\ List.length (unhandled c') = S (List.length (unhandled c))
        /\ exists k, (k < n)%nat
                     /\ loads c' = loads c ++ repeat (Forms.value fg) (S k)
                     /\ (retried c + failures fg first (S k) = 4)%nat
                     /\ fails fg (first + k) = true).
Proof.
  induction n as [|n IH]; intros c Hs Hr fg first.
  - exists c. split; [reflexivity|]. cbn [failures repeat]. split.
    + intros _. rewrite app_nil_r. repeat split; try assumption. lia.
    + intros H. lia.
  - destruct (next_subscribed c Hs) as (c1 & E1 & F1 & L1 & _ & Hok & Hko & Hend).
    fold fg in F1, L1, Hok, Hko, Hend. fold first in Hok, Hko, Hend.
    cbn [requests failures]. unfold bind. rewrite E1.
    assert (Ef : List.length (loads c1) = S first).
    { rewrite L1, length_app. cbn. subst first. lia. }
    destruct (fails fg first) eqn:Ff.
    + destruct (Nat.ltb_spec (retried c) 3) as [Hlt|Hge].
      * destruct (Hko eq_refl Hlt) as (S1 & R1 & U1).
        destruct (IH c1 S1 ltac:(lia)) as (c' & E' & Hle & Hgt).
        rewrite F1, Ef, R1, L1, U1 in *.
        exists c'. split; [exact E'|]. split.
        -- intros H. destruct (Hle ltac:(lia)) as (A1 & A2 & A3 & A4).
           repeat split; try assumption; try lia;
             rewrite A3, <- app_assoc; reflexivity.
        -- intros H. destruct (Hgt ltac:(lia)) as (A1 & A2 & k & K1 & K2 & K3 & K4).
           repeat split; try assumption.
           exists (S k). repeat split; [lia| | |].
           ++ rewrite K2, <- app_assoc. reflexivity.
           ++ cbn [failures] in *. rewrite ?Ff. lia.
           ++ rewrite <- K4. f_equal. lia.
      * destruct (Hend eq_refl Hge) as (S1 & U1).
        destruct (requests_dropped n c1 S1) as (c' & E' & L' & U' & S').
        exists c'. split; [exact E'|]. split; [intros H; lia|].
        intros _. repeat split; try congruence.
        exists 0%nat. repeat split; [lia| | |].
        -- rewrite L', L1. reflexivity.
        -- cbn [failures]. rewrite ?Ff. lia.
        -- rewrite Nat.add_0_r. exact Ff.
    + destruct (Hok eq_refl) as (S1 & R1 & U1).
      destruct (IH c1 S1 ltac:(lia)) as (c' & E' & Hle & Hgt).
      rewrite F1, Ef, R1, L1, U1 in *.
      exists c'. split; [exact E'|]. split.
      * intros H. destruct (Hle ltac:(lia)) as (A1 & A2 & A3 & A4).
        repeat split; try assumption; try lia;
          rewrite A3, <- app_assoc; reflexivity.
      * intros H. destruct (Hgt ltac:(lia)) as (A1 & A2 & k & K1 & K2 & K3 & K4).
        repeat split; try assumption.
        exists (S k). repeat split; [lia| | |].
        -- rewrite K2, <- app_assoc. reflexivity.
        -- cbn [failures] in *. rewrite ?Ff. lia.
        -- rewrite <- K4. f_equal. lia.
Qed.

(** X13. The three retries are a budget for the life of the subscription,
    which a success does not restore.  Over [n] requested loads on an
    unchanged form, while at most 3 calls of [loadData] have failed every
    request calls it, the pipeline stays subscribed and no error is
    surfaced, however the failures and the successes alternate; the call
    that fails for the fourth time ends the subscription, its error is
    surfaced once, and no request after it calls [loadData]. *)
Theorem retry_budget_is_never_restored (n : nat) c :
  subscribed c = true -> retried c = 0%nat ->
  let fg := filterFormGroup c in
  let first := List.length (loads c) in
  let r := requests n c in
  fst r = Normal tt
  /\ ((failures fg first n <= 3)%nat ->
      subscribed (snd r) = true
      /\ retried (snd r) = failures fg first n
      /\ loads (snd r) = loads c ++ repeat (Forms.value fg) n
      /\ unhandled (snd r) = unhandled c)
  /\ ((4 <= failures fg first n)%nat ->
      subscribed (snd r) = false
      /\ List.length (unhandled (snd r)) = S (List.length (unhandled c))
      /\ exists k, (k < n)%nat
                   /\ loads (snd r) = loads c ++ repeat (Forms.value fg) (S k)
                   /\ failures fg first (S k) = 4%nat
                   /\ fails fg (first + k) = true).
Proof.
  intros Hs Hr fg first r.
  destruct (requests_budget n c Hs ltac:(lia)) as (c' & E & Hle & Hgt).
  fold fg first in Hle, Hgt. rewrite Hr in Hle, Hgt. cbn [Nat.add] in Hle, Hgt.
  subst r. rewrite E. cbn [fst snd]. split; [reflexivity|]. split; assumption.
Qed.

(** A burst of changes, then the timer. *)
Lemma burst_settles c now mutation rest :
  debounce c = None ->
  in_window now rest ->
  let changes := (now, mutation) :: rest in
  let fg := mutated changes (filterFormGroup c) in
  let r := bind (run (value_changes changes)) (fun _ => settle) c in
  fst r = Normal tt
  /\ filterFormGroup (snd r) = fg
  /\ navigations (snd r) = navigations c ++ [wire_write fg]
  /\ requested (snd r) = (requested c + if Forms.valid fg then 1 else 0)%nat
  /\ loads (snd r)
     = (if Forms.valid fg && subscribed c then loads c ++ [Forms.value fg] else loads c).
Proof.
  intros Hd Hw changes fg r.
  destruct (run_burst rest
              (with_debounce (Some (now + debounceTime))
                 (with_form (mutation (filterFormGroup c)) c)) (now + debounceTime))
    as (due' & E);
    [reflexivity|replace (now + debounceTime - debounceTime) with now by lia; exact Hw|].
  match type of E with _ = (_, ?x) =>
    destruct (handler_effects (with_debounce None x))
      as (c' & E' & F & N & Q & B & W & R & L) end.
  assert (Er : r = (Normal tt, c')).
  { subst r changes. cbn [value_changes map run fst snd]. fold (value_changes rest).
    unfold bind.
    rewrite dispatch_change by (intros due E0; congruence).
    rewrite E. rewrite (settle_fires _ due') by reflexivity. exact E'. }
  rewrite Er. cbn [fst snd]. rewrite F, N, R, L. repeat split.
Qed.

(** Two changes at least the debounce time apart, then the timer: the
    subscriber runs after each, on [c2] and on [c4]. *)
Lemma changes_apart c (t1 t2 : Z)
    (m1 m2 : Forms.FormGroup -> Forms.FormGroup) :
  debounce c = None -> t1 + debounceTime <= t2 ->
  let fg1 := m1 (filterFormGroup c) in
  exists c2 c4,
    bind (run [(t1, ValueChange m1); (t2, ValueChange m2)]) (fun _ => settle) c
    = (Normal tt, c4)
    /\ filterFormGroup c2 = fg1
    /\ navigations c2 = navigations c ++ [wire_write fg1]
    /\ requested c2 = (requested c + if Forms.valid fg1 then 1 else 0)%nat
    /\ filterFormGroup c4 = m2 fg1
    /\ navigations c4 = navigations c2 ++ [wire_write (m2 fg1)]
    /\ requested c4 = (requested c2 + if Forms.valid (m2 fg1) then 1 else 0)%nat.
Proof.
  intros Hd Ht fg1.
  set (c1 := with_debounce (Some (t1 + debounceTime)) (with_form fg1 c)).
  destruct (handler_effects (with_debounce None c1))
    as (c2 & E2 & F2 & N2 & Q2 & B2 & W2 & R2 & L2).
  set (c3 := with_debounce (Some (t2 + debounceTime)) (with_form (m2 (filterFormGroup c2)) c2)).
  destruct (handler_effects (with_debounce None c3))
    as (c4 & E4 & F4 & N4 & Q4 & B4 & W4 & R4 & L4).
  exists c2, c4. split.
  { cbn [run]. unfold bind at 1 2.
    rewrite dispatch_change by (intros due E0; congruence). fold fg1 c1.
    unfold dispatch, fire_due, bind, read, modify, ret.
    change (debounce c1) with (Some (t1 + debounceTime)). cbn beta iota.
    replace (t1 + debounceTime <=? t2) with true by (symmetry; apply Z.leb_le; exact Ht).
    rewrite E2. cbn beta iota. fold c3.
    rewrite (settle_fires _ (t2 + debounceTime)) by reflexivity. exact E4. }
  assert (F : filterFormGroup c2 = fg1) by (rewrite F2; reflexivity).
  split; [exact F|]. split; [rewrite N2; reflexivity|]. split; [rewrite R2; reflexivity|].
  rewrite F4, N4, R4. subst c3.
  cbn [filterFormGroup navigations requested with_debounce with_form].
  rewrite F. repeat split.
Qed.

(** X14. Two changes of the form at least 300 ms apart, from an idle
    component, are written to the URL apart: the first as the first change
    left the form, when the timer of the first change is found due, the
    second as the second change left it; each requests a load exactly when
    the form it writes is valid. *)
Theorem separated_changes_are_written_apart c (t1 t2 : Z)
    (m1 m2 : Forms.FormGroup -> Forms.FormGroup) :
  debounce c = None -> t1 + debounceTime <= t2 ->
  let fg1 := m1 (filterFormGroup c) in
  let fg2 := m2 fg1 in
  let r := bind (run [(t1, ValueChange m1); (t2, ValueChange m2)]) (fun _ => settle) c in
  fst r = Normal tt
  /\ filterFormGroup (snd r) = fg2
  /\ navigations (snd r) = navigations c ++ [wire_write fg1; wire_write fg2]
  /\ requested (snd r)
     = (requested c + (if Forms.valid fg1 then 1 else 0)
        + (if Forms.valid fg2 then 1 else 0))%nat.
Proof.
  intros Hd Ht fg1 fg2 r.
  destruct (changes_apart c t1 t2 m1 m2 Hd Ht) as (c2 & c4 & E & F2 & N2 & R2 & F4 & N4 & R4).
  fold fg1 in F2, N2, R2, F4, N4, R4. fold fg2 in F4, N4, R4.
  subst r. rewrite E. cbn [fst snd]. rewrite F4, N4, R4, N2, R2.
  rewrite <- app_assoc. repeat split.
Qed.

(** X15. A change of the URL that arrives while the debounce timer of a
    form change runs is applied to the form at once and in silence: nothing
    is written, the timer keeps its deadline, and when it fires the one
    write, and the load if the form is valid, are of the form as the URL
    change left it. *)
Theorem url_change_inside_the_window c (t1 t2 : Z)
    (m : Forms.FormGroup -> Forms.FormGroup) (params : object string) :
  debounce c = None -> t1 <= t2 < t1 + debounceTime ->
  let fg := filterFormGroup (snd (updateFormFromUrl params (with_form (m (filterFormGroup c)) c))) in
  let r1 := run [(t1, ValueChange m); (t2, QueryParams params)] c in
  let r := settle (snd r1) in
  fst r1 = Normal tt
  /\ filterFormGroup (snd r1) = fg
  /\ navigations (snd r1) = navigations c
  /\ debounce (snd r1) = Some (t1 + debounceTime)
  /\ fst r = Normal tt
  /\ navigations (snd r) = navigations c ++ [wire_write fg]
  /\ requested (snd r) = (requested c + if Forms.valid fg then 1 else 0)%nat
  /\ loads (snd r)
     = (if Forms.valid fg && subscribed c then loads c ++ [Forms.value fg] else loads c).
Proof.
  intros Hd Ht fg r1 r.
  set (c1 := with_debounce (Some (t1 + debounceTime)) (with_form (m (filterFormGroup c)) c)).
  set (c2 := reconciled params (with_query params c1)).
  assert (Efg : fg = filterFormGroup c2).
  { subst fg. rewrite updateFormFromUrl_reconciled. reflexivity. }
  assert (E1 : r1 = (Normal tt, c2)).
  { subst r1. cbn [run]. unfold bind at 1 2.
    rewrite dispatch_change by (intros due E0; congruence). fold c1.
    unfold dispatch, fire_due, bind, read, modify, ret.
    change (debounce c1) with (Some (t1 + debounceTime)). cbn beta iota.
    replace (t1 + debounceTime <=? t2) with false by (symmetry; apply Z.leb_gt; lia).
    rewrite updateFormFromUrl_reconciled. reflexivity. }
  destruct (handler_effects (with_debounce None c2))
    as (c3 & E3 & F3 & N3 & Q3 & B3 & W3 & R3 & L3).
  assert (Er : r = (Normal tt, c3)).
  { subst r. rewrite E1. cbn [snd].
    rewrite (settle_fires _ (t1 + debounceTime)) by reflexivity. exact E3. }
  rewrite Er, E1. cbn [fst snd]. rewrite N3, R3, L3, Efg.
  repeat split.
Qed.

End Lifecycle.
End LifecycleFacts.

Module EntrywiseFacts.
Import FilteredAbstractComponent BaseFacts ReconcilerFacts ProjectorFacts EchoFacts FormFacts.
Import ReconcilerLaws.

Lemma lookup_patchValue_in name v patch : forall fg,
  NoDup (Obj.keys patch) -> In (name, v) patch ->
  Obj.lookup name (Forms.patchValue patch fg)
  = option_map (Forms.set_value v) (Obj.lookup name fg).
Proof.
  induction patch as [|[k w] patch IH]; intros fg Hd Hin; [destruct Hin|].
  inversion Hd as [|? ? Hn Hd']; subst. rewrite patchValue_cons.
  destruct Hin as [E|Hin].
  - injection E as -> ->.
    rewrite lookup_patchValue_other by exact Hn.
    rewrite lookup_patch_control, String.eqb_refl. reflexivity.
  - rewrite IH by assumption. rewrite lookup_patch_control.
    destruct (String.eqb_spec name k) as [->|]; [|reflexivity].
    exfalso. apply Hn. unfold Obj.keys. apply (in_map fst) in Hin. exact Hin.
Qed.

Lemma lookup_some_in {A} k (v : A) o : Obj.lookup k o = Some v -> In (k, v) o.
Proof.
  induction o as [|[k' v'] o IH]; cbn; [discriminate|].
  destruct (String.eqb_spec k' k) as [->|].
  - intros E. injection E as <-. left. reflexivity.
  - intros H. right. apply IH. exact H.
Qed.

Lemma same_key_same_entry {A} (o : object A) k v v' :
  NoDup (Obj.keys o) -> In (k, v) o -> In (k, v') o -> v = v'.
Proof.
  intros Hd H1 H2.
  pose proof (NoDup_map_injective fst o (k, v) (k, v') Hd H1 H2 eq_refl) as E.
  congruence.
Qed.

Section Entrywise.
Context {host : JS.Host} {D : Type} {screen : Screen D}.
Implicit Type c : Component D.

Lemma NoDup_keys_assignments fg params :
  NoDup (Obj.keys params) -> NoDup (Obj.keys (assignments fg params)).
Proof.
  induction params as [|entry params IH]; intros Hd; [constructor|].
  inversion Hd as [|? ? Hn Hd']; subst.
  change (assignments fg (entry :: params))
    with (match entry_outcome fg entry with
          | Patched key v => [(key, v)]
          | _ => []
          end ++ assignments fg params).
  destruct (entry_outcome fg entry) as [|key v|d] eqn:E; cbn [List.app]; try (apply IH; exact Hd').
  cbn [Obj.keys map fst]. constructor; [|apply IH; exact Hd'].
  intros Hin. unfold Obj.keys in Hin. apply in_map_iff in Hin.
  destruct Hin as ([key' v'] & Ek & Hin). cbn [fst] in Ek. subst key'.
  destruct (assignment_entry _ _ _ Hin) as (entry' & Hin' & _ & Hk). cbn [fst] in Hk.
  destruct (assignment_entry fg [entry] (key, v)) as (e0 & [<-|[]] & _ & Hk0).
  { unfold assignments. cbn [flat_map]. rewrite E. left. reflexivity. }
  cbn [fst] in Hk0. apply Hn. rewrite <- Hk0, Hk. unfold Obj.keys. apply in_map. exact Hin'.
Qed.

Lemma patch_is_assignments fg params :
  NoDup (Obj.keys params) ->
  fold_left assign (assignments fg params) [] = assignments fg params.
Proof.
  intros Hd. apply (fold_assign_distinct _ []). cbn [List.app].
  apply NoDup_keys_assignments. exact Hd.
Qed.

Lemma outcome_of_control fg name ctl value :
  NoDup (map getUrlParamKey (Obj.keys fg)) -> plain_name name ->
  Obj.lookup name fg = Some ctl -> value <> EmptyString ->
  entry_outcome fg (getUrlParamKey name, value)
  = match deserializeUrlParam (getUrlParamKey name) value with
    | Normal v => Patched name v
    | Abrupt e => Warned (FailedToDeserialize (getUrlParamKey name) e)
    end.
Proof.
  intros Hd [Hp1 Hp2] Hl Hv.
  assert (Hin : In name (Obj.keys fg)).
  { apply lookup_some_in in Hl. apply (in_map fst) in Hl. exact Hl. }
  unfold entry_outcome. rewrite (is_empty_false _ Hv).
  rewrite (getFormControlKey_found fg name Hd Hin Hp1).
  unfold Forms.get. rewrite Hp2, Hl. reflexivity.
Qed.

(** The form and the warnings after [updateFormFromUrl], entry by entry. *)
Lemma reconciled_entry params c name ctl value :
  let fg := filterFormGroup c in
  NoDup (Obj.keys params) -> NoDup (map getUrlParamKey (Obj.keys fg)) ->
  plain_name name -> Obj.lookup name fg = Some ctl ->
  In (getUrlParamKey name, value) params ->
  let c' := reconciled params c in
  match deserializeUrlParam (getUrlParamKey name) value with
  | Normal w =>
      if JS.is_empty value then Obj.lookup name (filterFormGroup c') = Some ctl
      else Obj.lookup name (filterFormGroup c') = Some (Forms.set_value w ctl)
  | Abrupt e =>
      Obj.lookup name (filterFormGroup c') = Some ctl
      /\ (value <> EmptyString ->
          In (FailedToDeserialize (getUrlParamKey name) e) (diagnostics fg params))
  end.
Proof.
  intros fg Hp Hd Hn Hl Hin c'. subst c'. unfold reconciled. fold fg.
  cbn [filterFormGroup with_form with_warnings].
  rewrite (patch_is_assignments fg params Hp).
  pose proof (NoDup_keys_assignments fg params Hp) as Ha.
  assert (Hskip :
             (forall v, entry_outcome fg (getUrlParamKey name, value) <> Patched name v) ->
             Obj.lookup name (Forms.patchValue (assignments fg params) fg) = Some ctl).
  { intros Hno. rewrite lookup_patchValue_other; [exact Hl|].
    intros H. unfold Obj.keys in H. apply in_map_iff in H.
    destruct H as ([k v] & Ek & Hkv). cbn [fst] in Ek. subst k.
    destruct (assignment_entry _ _ _ Hkv) as ([k' v'] & Hin' & Eo & Hk).
    cbn [fst snd] in *. subst k'.
    rewrite (same_key_same_entry params _ _ _ Hp Hin Hin') in Hno.
    exact (Hno v Eo). }
  destruct (JS.is_empty value) eqn:Ev.
  - apply is_empty_true in Ev. subst value.
    assert (Obj.lookup name (Forms.patchValue (assignments fg params) fg) = Some ctl).
    { apply Hskip. intros v. rewrite outcome_empty. discriminate. }
    destruct (deserializeUrlParam (getUrlParamKey name) EmptyString);
      [assumption|split; [assumption|congruence]].
  - assert (Hv : value <> EmptyString) by (intros ->; discriminate).
    pose proof (outcome_of_control fg name ctl value Hd Hn Hl Hv) as Eo.
    destruct (deserializeUrlParam (getUrlParamKey name) value) as [w|e].
    + rewrite (lookup_patchValue_in name w); [rewrite Hl; reflexivity|exact Ha|].
      unfold assignments. apply in_flat_map. eexists. split; [exact Hin|].
      rewrite Eo. left. reflexivity.
    + split.
      * apply Hskip. intros v. rewrite Eo. discriminate.
      * intros _. unfold diagnostics. apply in_flat_map. eexists. split; [exact Hin|].
        rewrite Eo. left. reflexivity.
Qed.

(** X16. With distinct URL keys, [updateFormFromUrl] treats every entry of
    the incoming record on its own, whatever the number and the order of the
    entries.  An entry under the URL key of a control whose value
    deserializes sets that control to the deserialized value; one whose
    deserializer throws leaves its control as it was and is warned about;
    one whose value is empty leaves its control as it was. *)
Theorem reconcile_is_entrywise (params : object string) c :
  let fg := filterFormGroup c in
  NoDup (Obj.keys params) -> NoDup (map getUrlParamKey (Obj.keys fg)) ->
  let c' := snd (updateFormFromUrl params c) in
  (forall name ctl value w,
      plain_name name -> Obj.lookup name fg = Some ctl ->
      In (getUrlParamKey name, value) params -> value <> EmptyString ->
      deserializeUrlParam (getUrlParamKey name) value = Normal w ->
      Obj.lookup name (filterFormGroup c') = Some (Forms.set_value w ctl))
  /\ (forall name ctl value e,
        plain_name name -> Obj.lookup name fg = Some ctl ->
        In (getUrlParamKey name, value) params -> value <> EmptyString ->
        deserializeUrlParam (getUrlParamKey name) value = Abrupt e ->
        Obj.lookup name (filterFormGroup c') = Some ctl
        /\ In (FailedToDeserialize (getUrlParamKey name) e) (warnings c'))
  /\ (forall name ctl,
        plain_name name -> Obj.lookup name fg = Some ctl ->
        In (getUrlParamKey name, EmptyString) params ->
        Obj.lookup name (filterFormGroup c') = Some ctl).
Proof.
  intros fg Hp Hd c'. subst c'. rewrite updateFormFromUrl_reconciled. cbn [snd].
  split; [|split].
  - intros name ctl value w Hn Hl Hin Hv Hw.
    pose proof (reconciled_entry params c name ctl value Hp Hd Hn Hl Hin) as H.
    cbv zeta in H. rewrite Hw, (is_empty_false _ Hv) in H. exact H.
  - intros name ctl value e Hn Hl Hin Hv Hw.
    pose proof (reconciled_entry params c name ctl value Hp Hd Hn Hl Hin) as H.
    cbv zeta in H. rewrite Hw in H. destruct H as [H1 H2].
    split; [exact H1|]. unfold reconciled. cbn [warnings with_form with_warnings].
    apply in_or_app. right. apply H2. exact Hv.
  - intros name ctl Hn Hl Hin.
    pose proof (reconciled_entry params c name ctl EmptyString Hp Hd Hn Hl Hin) as H.
    cbv zeta in H. cbn [JS.is_empty] in H.
    destruct (deserializeUrlParam (getUrlParamKey name) EmptyString); tauto.
Qed.

End Entrywise.
End EntrywiseFacts.

Module StatsLaws.
Import FilteredAbstractComponent BaseFacts ReconcilerFacts ProjectorFacts EchoFacts FormFacts.
Import ReconcilerLaws EntrywiseFacts ProjectorLaws DebounceFacts StatsEcho DateTextFacts.

Lemma lookup_of_key {A} k (o : object A) :
  In k (Obj.keys o) -> exists v, Obj.lookup k o = Some v.
Proof.
  induction o as [|[k' v'] o IH]; cbn; [intros []|].
  destruct (String.eqb_spec k' k) as [->|Hne]; [eauto|].
  intros [E|H]; [congruence|]. apply IH. exact H.
Qed.

Lemma lookup_update_control k name f fg :
  Obj.lookup k (Forms.update_control name f fg)
  = if String.eqb k name then option_map f (Obj.lookup k fg) else Obj.lookup k fg.
Proof.
  induction fg as [|[k' ctl] fg IH]; cbn [Forms.update_control Obj.lookup].
  - destruct (String.eqb k name); reflexivity.
  - destruct (String.eqb_spec k' name) as [->|Hne]; cbn [Obj.lookup].
    + destruct (String.eqb_spec name k) as [->|Hk].
      * rewrite String.eqb_refl. reflexivity.
      * destruct (String.eqb_spec k name); [congruence|reflexivity].
    + destruct (String.eqb_spec k' k) as [->|Hk].
      * destruct (String.eqb_spec k name); [congruence|reflexivity].
      * exact IH.
Qed.

Lemma keys_update_control name f fg :
  Obj.keys (Forms.update_control name f fg) = Obj.keys fg.
Proof.
  induction fg as [|[k ctl] fg IH]; [reflexivity|].
  cbn [Forms.update_control]. destruct (String.eqb k name); cbn; [reflexivity|].
  unfold Obj.keys in IH. rewrite IH. reflexivity.
Qed.

Section Stats.
Context {host : JS.Host}.

Lemma known_names entry :
  StatsComponent.known entry = true <-> In (fst entry) StatsComponent.names.
Proof.
  unfold StatsComponent.known. rewrite existsb_exists. split.
  - intros (k & Hk & E). apply String.eqb_eq in E. subst. exact Hk.
  - intros H. exists (fst entry). split; [exact H|apply String.eqb_refl].
Qed.

Lemma stats_outcome (today : JS.Date) fg entry :
  Obj.keys fg = StatsComponent.names ->
  entry_outcome (screen := StatsComponent.screen today) fg entry
  = if present entry then
      if StatsComponent.known entry then
        match StatsComponent.deserializeUrlParam (fst entry) (snd entry) with
        | Normal v => Patched (fst entry) v
        | Abrupt e => Warned (FailedToDeserialize (fst entry) e)
        end
      else Warned (NoFormControl (fst entry) None)
    else Skipped.
Proof.
  intros Hk. destruct (StatsComponent.known entry) eqn:Ek.
  - destruct entry as [k v]. unfold present. cbn [fst snd].
    destruct (JS.is_empty v) eqn:Ev; cbn [negb].
    + apply is_empty_true in Ev. subst v. apply outcome_empty.
    + apply known_names in Ek. cbn [fst] in Ek.
      destruct (lookup_of_key k fg) as [ctl Hl]; [rewrite Hk; exact Ek|].
      apply (outcome_of_control (screen := StatsComponent.screen today) fg k ctl v).
      * rewrite Hk. change (map (@getUrlParamKey _ (StatsComponent.screen today)) StatsComponent.names)
          with StatsComponent.names. apply names_NoDup.
      * apply names_plain. exact Ek.
      * exact Hl.
      * intros ->. discriminate.
  - rewrite (outcome_unknown (screen := StatsComponent.screen today)); [reflexivity|].
    intros key Hin E. rewrite Hk in Hin.
    change (@getUrlParamKey _ (StatsComponent.screen today) key) with key in E. subst key.
    apply known_names in Hin. congruence.
Qed.

(** X17. On the stats screen no text is rejected: whatever the incoming
    record, [updateFormFromUrl] warns only about the non-empty entries that
    are not under one of the four control names, once each and as having no
    form control, never about a value; and every non-empty entry under a
    control name sets that control to the [Date] the deserializer makes of
    its text, valid or not. *)
Theorem stats_reconcile_accepts_any_text (today : JS.Date) (params : object string)
    (c : Component (list StatsComponent.StatsModel)) :
  let screen := StatsComponent.screen today in
  let fg := filterFormGroup c in
  Obj.keys fg = StatsComponent.names ->
  NoDup (Obj.keys params) ->
  let c' := snd (updateFormFromUrl params c) in
  warnings c'
  = warnings c
    ++ map (fun entry => NoFormControl (fst entry) None)
           (filter (fun entry => present entry && negb (StatsComponent.known entry)) params)
  /\ (forall name ctl value,
        Obj.lookup name fg = Some ctl -> In (name, value) params -> value <> EmptyString ->
        exists d,
          StatsComponent.deserializeUrlParam name value = Normal (Vdate d)
          /\ Obj.lookup name (filterFormGroup c') = Some (Forms.set_value (Vdate d) ctl)).
Proof.
  intros screen fg Hk Hp c'. subst c'. rewrite updateFormFromUrl_reconciled. cbn [snd].
  split.
  - unfold reconciled. cbn [warnings with_form with_warnings]. fold fg. f_equal.
    unfold diagnostics. clear Hp. induction params as [|entry params IH]; [reflexivity|].
    cbn [flat_map filter]. rewrite IH. subst screen. rewrite (stats_outcome today fg entry Hk).
    destruct (present entry); cbn [andb]; [|reflexivity].
    destruct (StatsComponent.known entry) eqn:Ek; cbn [negb]; [|reflexivity].
    apply known_names in Ek.
    rewrite (deserialize_date_key _ _ (names_date_key _ Ek)). reflexivity.
  - intros name ctl value Hl Hin Hv.
    assert (Hn : In name StatsComponent.names).
    { rewrite <- Hk. apply lookup_some_in in Hl. apply (in_map fst) in Hl. exact Hl. }
    eexists. split; [apply deserialize_date_key, names_date_key; exact Hn|].
    pose proof (reconciled_entry (screen := screen) params c name ctl value Hp) as H.
    cbv zeta in H. fold fg in H.
    change (@getUrlParamKey _ screen name) with name in H.
    change (@deserializeUrlParam _ screen name value)
      with (StatsComponent.deserializeUrlParam name value) in H.
    rewrite (deserialize_date_key _ _ (names_date_key _ Hn)), (is_empty_false _ Hv) in H.
    apply H; try assumption.
    + rewrite Hk. change (map (@getUrlParamKey _ screen) StatsComponent.names)
        with StatsComponent.names. apply names_NoDup.
    + apply names_plain. exact Hn.
Qed.

(** [toggleCompare], step by step, on a form that has the two compare
    controls. *)
Lemma toggleCompare_steps fg from to :
  Obj.lookup "compareDateFrom" fg = Some from ->
  Obj.lookup "compareDateTo" fg = Some to ->
  StatsComponent.toggleCompare fg
  = if Forms.enabled from then
      (Normal false,
       Forms.update_control "compareDateTo" (Forms.set_enabled false)
         (Forms.update_control "compareDateFrom" (Forms.set_enabled false)
            (Forms.update_control "compareDateTo" (Forms.set_value Vnull)
               (Forms.update_control "compareDateFrom" (Forms.set_value Vnull) fg))))
    else
      (Normal true,
       Forms.update_control "compareDateTo" (Forms.set_enabled true)
         (Forms.update_control "compareDateFrom" (Forms.set_enabled true) fg)).
Proof.
  intros Hf Ht. unfold StatsComponent.toggleCompare, StatsComponent.on_control, Forms.get.
  cbn [JS.split Ascii.eqb Bool.eqb]. rewrite Hf.
  destruct (Forms.enabled from) eqn:Ee;
    repeat (rewrite ?lookup_update_control, ?Hf, ?Ht;
            cbn [String.eqb Ascii.eqb Bool.eqb option_map]);
    cbn [Forms.enabled Forms.set_enabled Forms.set_value]; rewrite ?Ee; reflexivity.
Qed.

(** X18. [toggleCompare] reads the mode off [compareDateFrom] alone and
    puts both compare controls in the same state: leaving compare mode
    disables both and sets both to [null]; entering it enables both and
    keeps what they hold. [isCompareMode] is set to the new mode, and no
    other control is touched. *)
Theorem toggleCompare_switches_both (fg : Forms.FormGroup) (from to : Forms.FormControl) :
  Obj.lookup "compareDateFrom" fg = Some from ->
  Obj.lookup "compareDateTo" fg = Some to ->
  let r := StatsComponent.toggleCompare fg in
  fst r = Normal (negb (Forms.enabled from))
  /\ Obj.lookup "compareDateFrom" (snd r)
     = Some (if Forms.enabled from
             then Forms.set_enabled false (Forms.set_value Vnull from)
             else Forms.set_enabled true from)
  /\ Obj.lookup "compareDateTo" (snd r)
     = Some (if Forms.enabled from
             then Forms.set_enabled false (Forms.set_value Vnull to)
             else Forms.set_enabled true to)
  /\ (forall name, name <> "compareDateFrom" -> name <> "compareDateTo" ->
        Obj.lookup name (snd r) = Obj.lookup name fg)
  /\ Obj.keys (snd r) = Obj.keys fg.
Proof.
  intros Hf Ht r. subst r. rewrite (toggleCompare_steps fg from to Hf Ht).
  destruct (Forms.enabled from); cbn [fst snd negb];
    (split; [reflexivity|]);
    rewrite !lookup_update_control, ?Hf, ?Ht;
    cbn [String.eqb Ascii.eqb Bool.eqb option_map];
    rewrite ?lookup_update_control, ?Hf, ?Ht;
    cbn [String.eqb Ascii.eqb Bool.eqb option_map];
    (split; [reflexivity|]); (split; [reflexivity|]);
    (split; [|rewrite !keys_update_control; reflexivity]);
    intros name H1 H2; rewrite !lookup_update_control;
    apply String.eqb_neq in H1, H2; rewrite H1, H2; reflexivity.
Qed.

(** X19. Two calls of [toggleCompare] bring the mode back and lose the
    compare dates: both compare controls hold [null], in the enablement
    [compareDateFrom] had. *)
Theorem toggleCompare_twice_clears (fg : Forms.FormGroup) (from to : Forms.FormControl) :
  Obj.lookup "compareDateFrom" fg = Some from ->
  Obj.lookup "compareDateTo" fg = Some to ->
  let r := StatsComponent.toggleCompare (snd (StatsComponent.toggleCompare fg)) in
  fst r = Normal (Forms.enabled from)
  /\ Obj.lookup "compareDateFrom" (snd r)
     = Some (Forms.set_enabled (Forms.enabled from) (Forms.set_value Vnull from))
  /\ Obj.lookup "compareDateTo" (snd r)
     = Some (Forms.set_enabled (Forms.enabled from) (Forms.set_value Vnull to))
  /\ (forall name, name <> "compareDateFrom" -> name <> "compareDateTo" ->
        Obj.lookup name (snd r) = Obj.lookup name fg).
Proof.
  intros Hf Ht r. subst r. rewrite (toggleCompare_steps fg from to Hf Ht).
  destruct (Forms.enabled from) eqn:Ee; cbn [snd].
  - erewrite toggleCompare_steps.
    2,3: rewrite !lookup_update_control, ?Hf, ?Ht;
         cbn [String.eqb Ascii.eqb Bool.eqb option_map];
         rewrite ?lookup_update_control, ?Hf, ?Ht;
         cbn [String.eqb Ascii.eqb Bool.eqb option_map]; reflexivity.
    cbn [Forms.enabled Forms.set_enabled Forms.set_value fst snd].
    split; [reflexivity|].
    rewrite !lookup_update_control, ?Hf, ?Ht;
      cbn [String.eqb Ascii.eqb Bool.eqb option_map];
      rewrite ?lookup_update_control, ?Hf, ?Ht;
      cbn [String.eqb Ascii.eqb Bool.eqb option_map].
    split; [reflexivity|]. split; [reflexivity|].
    intros name H1 H2. rewrite !lookup_update_control.
    apply String.eqb_neq in H1, H2. rewrite H1, H2. reflexivity.
  - erewrite toggleCompare_steps.
    2,3: rewrite !lookup_update_control, ?Hf, ?Ht;
         cbn [String.eqb Ascii.eqb Bool.eqb option_map];
         rewrite ?lookup_update_control, ?Hf, ?Ht;
         cbn [String.eqb Ascii.eqb Bool.eqb option_map]; reflexivity.
    cbn [Forms.enabled Forms.set_enabled Forms.set_value fst snd].
    split; [reflexivity|].
    rewrite !lookup_update_control, ?Hf, ?Ht;
      cbn [String.eqb Ascii.eqb Bool.eqb option_map];
      rewrite ?lookup_update_control, ?Hf, ?Ht;
      cbn [String.eqb Ascii.eqb Bool.eqb option_map].
    split; [reflexivity|]. split; [reflexivity|].
    intros name H1 H2. rewrite !lookup_update_control.
    apply String.eqb_neq in H1, H2. rewrite H1, H2. reflexivity.
Qed.

End Stats.
End StatsLaws.

Module StatsPipeline.
Import FilteredAbstractComponent BaseFacts ReconcilerFacts ProjectorFacts EchoFacts FormFacts.
Import ReconcilerLaws EntrywiseFacts ProjectorLaws DebounceFacts LifecycleFacts StatsLaws.

Lemma invalid_control fg k ctl :
  In (k, ctl) fg -> Forms.enabled ctl = true ->
  Forms.validator ctl (Forms.value_of ctl) = false ->
  Forms.valid fg = false.
Proof.
  intros Hin He Hv. unfold Forms.valid. apply andb_false_iff. right.
  apply not_true_is_false. intros H. rewrite forallb_forall in H.
  specialize (H (k, ctl) Hin). cbn [snd] in H. rewrite He, Hv in H. discriminate.
Qed.

Section Pipeline.
Context {host : JS.Host} {D : Type} {screen : Screen D}.
Implicit Type c : Component D.

(** X20. A call of [toggleCompare] makes [valueChanges] emit twice, at
    once and from the zero-delay timer, and the two emissions lead to one
    write to the URL, of the form as [toggleCompare] left it.  Entering
    compare mode with no compare date makes the form invalid, so that no
    load is requested; leaving it removes both compare dates from what is
    written. *)
Theorem toggleCompare_is_written_once c (now delay : Z) (from to : Forms.FormControl) :
  debounce c = None -> 0 <= delay < debounceTime ->
  Obj.lookup "compareDateFrom" (filterFormGroup c) = Some from ->
  Obj.lookup "compareDateTo" (filterFormGroup c) = Some to ->
  let fg := snd (StatsComponent.toggleCompare (filterFormGroup c)) in
  let r := bind (run (value_changes (StatsComponent.toggleCompare_emits now delay)))
                (fun _ => settle) c in
  fst r = Normal tt
  /\ filterFormGroup (snd r) = fg
  /\ navigations (snd r) = navigations c ++ [wire_write fg]
  /\ (Forms.enabled from = false -> Forms.value_of from = Vnull ->
      Forms.validator from Vnull = false ->
      Forms.valid fg = false
      /\ requested (snd r) = requested c /\ loads (snd r) = loads c)
  /\ (Forms.enabled from = true ->
      NoDup (map getUrlParamKey (Obj.keys (filterFormGroup c))) ->
      ~ In (getUrlParamKey "compareDateFrom") (Obj.keys (queryParams (wire_write fg)))
      /\ ~ In (getUrlParamKey "compareDateTo") (Obj.keys (queryParams (wire_write fg)))).
Proof.
  intros Hd Hw Hf Ht fg r.
  destruct (burst_settles c now (fun g => snd (StatsComponent.toggleCompare g))
              [(now + delay, fun g => g)] Hd) as (A & F & N & R & L).
  { cbn [in_window]. split; [lia|exact I]. }
  cbn [mutated fold_left snd] in F, N, R, L. fold fg in F, N, R, L.
  change (bind (run (value_changes
                       [(now, fun g => snd (StatsComponent.toggleCompare g));
                        (now + delay, fun g => g)])) (fun _ => settle) c) with r in A, F, N, R, L.
  split; [exact A|]. split; [exact F|]. split; [exact N|].
  pose proof (toggleCompare_steps (filterFormGroup c) from to Hf Ht) as Es.
  split.
  - intros He Hv Hr.
    assert (Hi : Forms.valid fg = false).
    { apply (invalid_control fg "compareDateFrom" (Forms.set_enabled true from)).
      - apply lookup_some_in. subst fg. rewrite Es, He. cbn [snd].
        rewrite !lookup_update_control. cbn [String.eqb Ascii.eqb Bool.eqb].
        rewrite Hf. reflexivity.
      - reflexivity.
      - cbn [Forms.validator Forms.value_of Forms.set_enabled]. rewrite Hv. exact Hr. }
    split; [exact Hi|]. rewrite R, L, Hi. cbn [andb]. split; [lia|reflexivity].
  - intros He Hn.
    assert (Hk : Obj.keys fg = Obj.keys (filterFormGroup c)).
    { subst fg. rewrite Es, He. cbn [snd]. rewrite !keys_update_control. reflexivity. }
    assert (Hn' : NoDup (map getUrlParamKey (Obj.keys fg))) by (rewrite Hk; exact Hn).
    cbn [queryParams wire_write].
    split.
    + apply (project_off_wire fg "compareDateFrom"
               (Forms.set_enabled false (Forms.set_value Vnull from)) Hn').
      * apply lookup_some_in. subst fg. rewrite Es, He. cbn [snd].
        rewrite !lookup_update_control. cbn [String.eqb Ascii.eqb Bool.eqb].
        rewrite Hf. reflexivity.
      * unfold on_wire. cbn [snd Forms.value_of Forms.set_enabled Forms.set_value is_absent negb].
        apply andb_false_r.
    + apply (project_off_wire fg "compareDateTo"
               (Forms.set_enabled false (Forms.set_value Vnull to)) Hn').
      * apply lookup_some_in. subst fg. rewrite Es, He. cbn [snd].
        rewrite !lookup_update_control. cbn [String.eqb Ascii.eqb Bool.eqb].
        rewrite Ht. reflexivity.
      * unfold on_wire. cbn [snd Forms.value_of Forms.set_enabled Forms.set_value is_absent negb].
        apply andb_false_r.
Qed.


End Pipeline.
End StatsPipeline.

Module StatsLoads.
Import FilteredAbstractComponent BaseFacts.

Section Loads.
Context {host : JS.Host}.

Lemma stats_next (today : JS.Date) (c : Component (list StatsComponent.StatsModel)) :
  subscribed c = true ->
  dataUpdateRequested_next (screen := StatsComponent.screen today) c
  = (Normal tt,
     with_data (Some [])
       (with_loading false
          (with_loads (loads c ++ [Forms.value (filterFormGroup c)])
             (with_loading true (with_requested (S (requested c)) c))))).
Proof.
  intros Hs. unfold dataUpdateRequested_next, bind, read, modify, ret.
  cbn [subscribed with_requested]. rewrite Hs. reflexivity.
Qed.

(** X23. On the stats screen every requested load succeeds: [loadData]
    is called on the form as it is, the data is set to the empty list, the
    loading flag is cleared, and the pipeline never spends a retry, so that
    it stays subscribed for any number of loads. *)
Theorem stats_loads_always_succeed (today : JS.Date) (n : nat)
    (c : Component (list StatsComponent.StatsModel)) :
  subscribed c = true -> (0 < n)%nat ->
  let r := requests (screen := StatsComponent.screen today) n c in
  fst r = Normal tt
  /\ data (snd r) = Some []
  /\ isLoading (snd r) = false
  /\ subscribed (snd r) = true
  /\ retried (snd r) = retried c
  /\ unhandled (snd r) = unhandled c
  /\ filterFormGroup (snd r) = filterFormGroup c
  /\ loads (snd r) = loads c ++ repeat (Forms.value (filterFormGroup c)) n.
Proof.
  intros Hs Hn. destruct n as [|n]; [lia|]. clear Hn. revert c Hs.
  induction n as [|n IH]; intros c Hs r.
  - subst r. cbn [requests]. unfold bind. rewrite (stats_next today c Hs).
    cbn. repeat split. exact Hs.
  - set (c1 := with_data (Some [])
                 (with_loading false
                    (with_loads (loads c ++ [Forms.value (filterFormGroup c)])
                       (with_loading true (with_requested (S (requested c)) c))))).
    assert (E1 : r = requests (screen := StatsComponent.screen today) (S n) c1).
    { subst r. cbn [requests]. unfold bind at 1. rewrite (stats_next today c Hs).
      reflexivity. }
    destruct (IH c1 Hs) as (A & B & C & E & F & G & H & L).
    rewrite E1. rewrite A, B, C, E, F, G, H, L. subst c1.
    cbn [retried unhandled filterFormGroup loads with_data with_loading with_loads with_requested].
    repeat split. rewrite <- app_assoc. reflexivity.
Qed.

End Loads.
End StatsLoads.

(* ================================================================== *)
(** * The theorems at work on the example screens *)
(* ================================================================== *)

Module Instances.
Import FilteredAbstractComponent Example.


(** One malformed entry between two well-formed ones, on the screen whose
    deserializer throws on [b]. *)
Lemma reconcile_partial_tolerance_witness :
  let c := failing_opened in
  let params := [("a", "1"); ("b", "x"); ("c", "2")] in
  Permutation params [("b", "x"); ("a", "1"); ("c", "2")]
  /\ deserializeUrlParam (Screen := failing) "b" "x" = Abrupt (Error "malformed")
  /\ warnings (snd (updateFormFromUrl (screen := failing) params c))
     = warnings c ++ [FailedToDeserialize "b" (Error "malformed")]
  /\ Obj.lookup "b" (filterFormGroup (snd (updateFormFromUrl (screen := failing) params c)))
     = Obj.lookup "b" (filterFormGroup c).
Proof.
  cbv zeta.
  assert (HP : Permutation [("a", "1"); ("b", "x"); ("c", "2")]
                           [("b", "x"); ("a", "1"); ("c", "2")])
    by apply perm_swap.
  split; [exact HP|]. split; [reflexivity|].
  destruct (proj2 (ReconcilerFacts.reconcile_partial_tolerance (screen := failing))
              [("a", "1"); ("b", "x"); ("c", "2")] failing_opened
              "b" "x" "a" "1" "c" "2" "b" "a" "c" (Error "malformed")
              (Vstring "1") (Vstring "2") HP)
    as (_ & W & L & _);
    try discriminate; try reflexivity.
  split; assumption.
Defined.

(** Empty entries on the opened stats screen, and a deserializer that would
    throw on the empty string. *)
Lemma empty_entries_are_skipped_witness :
  (forall entry, In entry [("dateFrom", EmptyString); ("dateTo", EmptyString)] -> snd entry = EmptyString)
  /\ updateFormFromUrl (screen := stats) [("dateFrom", EmptyString); ("dateTo", EmptyString)] opened
     = (Normal tt, opened)
  /\ (let strict := fun k v => if JS.is_empty v then Abrupt (Error "empty")
                               else deserializeUrlParam (Screen := stats) k v in
      updateFormFromUrl (screen := with_deserializer strict stats)
        [("dateFrom", EmptyString); ("dateTo", "2024-02-01")] opened
      = updateFormFromUrl (screen := stats)
          [("dateFrom", EmptyString); ("dateTo", "2024-02-01")] opened).
Proof.
  assert (H : forall entry, In entry [("dateFrom", EmptyString); ("dateTo", EmptyString)] -> snd entry = EmptyString).
  { intros entry [<-|[<-|[]]]; reflexivity. }
  split; [exact H|]. split.
  - apply (proj1 (proj2 (ReconcilerFacts.empty_entries_are_skipped (host := utc) stats))
             _ opened H).
  - cbv zeta.
    apply (proj2 (proj2 (ReconcilerFacts.empty_entries_are_skipped (host := utc) stats))).
    intros k v Hv. destruct v; [congruence|reflexivity].
Defined.

(** Clearing [dateTo] on the opened stats screen. *)
Lemma absent_fields_are_omitted_witness :
  let fg := filterFormGroup opened in
  NoDup (map (getUrlParamKey (Screen := stats)) (Obj.keys fg))
  /\ project (host := utc) (screen := stats) (Forms.value fg)
     = [("dateFrom", "2024-01-17"); ("dateTo", "2024-01-31")]
  /\ project (host := utc) (screen := stats)
       (Forms.value (Forms.patch_control "dateTo" Vnull fg))
     = filter (other_key "dateTo") (project (host := utc) (screen := stats) (Forms.value fg)).
Proof.
  cbv zeta.
  assert (ND : NoDup (map (getUrlParamKey (Screen := stats))
                          (Obj.keys (filterFormGroup opened)))).
  { repeat constructor; cbn; intuition discriminate. }
  split; [exact ND|]. split; [vm_compute; reflexivity|].
  apply (proj2 (proj2 (ProjectorFacts.absent_fields_are_omitted (host := utc) (screen := stats)
                         (filterFormGroup opened) ND)) "dateTo").
  cbn. tauto.
Defined.




End Instances.

Module LawInstances.
Import FilteredAbstractComponent Example.

(** The round trip of 31 January 2024, 10:34:56.789, on a UTC host. *)
Lemma date_round_trip_witness :
  StatsComponent.date_key "dateTo" = true
  /\ Z.abs 1706697296789 <= JS.maxTime
  /\ Z.abs (JS.LocalTZA (Host := utc)) <= JS.msPerDay
  /\ 100 <= JS.YearFromTime (JS.LocalTime (host := utc) 1706697296789)
  /\ exists s,
       serializeUrlParam (host := utc) "dateTo" (Vdate (Some 1706697296789)) = Some s
       /\ StatsComponent.deserializeUrlParam (host := utc) "dateTo" s
          = Normal (Vdate (JS.start_of_day (host := utc) (Some 1706697296789))).
Proof.
  assert (H1 : Z.abs 1706697296789 <= JS.maxTime) by (vm_compute; discriminate).
  assert (H2 : Z.abs (JS.LocalTZA (Host := utc)) <= JS.msPerDay) by (vm_compute; discriminate).
  assert (H3 : 100 <= JS.YearFromTime (JS.LocalTime (host := utc) 1706697296789))
    by (vm_compute; discriminate).
  split; [reflexivity|]. split; [exact H1|]. split; [exact H2|]. split; [exact H3|].
  destruct (StatsCodec.date_round_trip (host := utc) "dateTo" 1706697296789 eq_refl H1 H2 H3)
    as (s & _ & _ & _ & E1 & _ & _ & _ & _ & _ & _ & _ & E2 & _).
  exists s. split; assumption.
Defined.

(** A text of two parts under a date key. *)
Lemma malformed_date_is_invalid_witness :
  StatsComponent.date_key "dateFrom" = true
  /\ (List.length (JS.split "-" "2024-02") < 3)%nat
  /\ StatsComponent.deserializeUrlParam (host := utc) "dateFrom" "2024-02"
     = Normal (Vdate None).
Proof.
  assert (H : (List.length (JS.split "-" "2024-02") < 3)%nat) by (cbn; lia).
  split; [reflexivity|]. split; [exact H|].
  exact (proj1 (proj2 (DateTextFacts.malformed_date_is_invalid (host := utc)
                         "dateFrom" "2024-02" eq_refl)) H).
Defined.

(** A date followed by a fourth part. *)
Lemma trailing_parts_are_ignored_witness :
  StatsComponent.date_key "dateTo" = true
  /\ StatsComponent.deserializeUrlParam (host := utc) "dateTo" "2024-03-15-anything"
     = StatsComponent.deserializeUrlParam (host := utc) "dateTo" "2024-03-15".
Proof.
  split; [reflexivity|].
  exact (DateTextFacts.trailing_parts_are_ignored (host := utc)
           "dateTo" "2024" "03" "15" "anything" eq_refl eq_refl eq_refl eq_refl).
Defined.

(** 29 February 2024, written without padding. *)
Lemma date_text_is_normalised_witness :
  StatsComponent.date_key "dateTo" = true
  /\ Z.abs (JS.LocalTZA (Host := utc)) <= JS.msPerDay
  /\ 1 <= 29 <= JS.DaysInMonth (2 - 1) (JS.is_leap 2024)
  /\ exists t,
       StatsComponent.deserializeUrlParam (host := utc) "dateTo" "2024-2-29"
       = Normal (Vdate (Some t))
       /\ serializeUrlParam (host := utc) "dateTo" (Vdate (Some t))
          = Some (StatsComponent.date_text 2024 2 29).
Proof.
  assert (H1 : Z.abs (JS.LocalTZA (Host := utc)) <= JS.msPerDay) by (vm_compute; discriminate).
  assert (H2 : 1 <= 29 <= JS.DaysInMonth (2 - 1) (JS.is_leap 2024)) by (vm_compute; intuition discriminate).
  split; [reflexivity|]. split; [exact H1|]. split; [exact H2|].
  destruct (DateTextFacts.date_text_is_normalised (host := utc) "dateTo" "dateTo" 2024 2 29
              eq_refl H1 ltac:(lia) ltac:(lia) H2)
    as (t & Hs & _ & _ & _ & _ & _ & E).
  exists t. split; [|exact E].
  apply (Hs "2024" "2" "29"); (split; [reflexivity|split; [discriminate|reflexivity]]).
Defined.

(** The default range on 31 January 2024: from 17 January. *)
Lemma default_range_is_fourteen_days_witness :
  Z.abs 1706697296789 <= JS.maxTime
  /\ Z.abs (JS.LocalTZA (Host := utc)) <= JS.msPerDay
  /\ 100 <= JS.YearFromTime (JS.LocalTime (host := utc) 1706697296789)
  /\ exists from,
       Forms.value (StatsComponent.createFilters (host := utc) (Some 1706697296789))
       = [("dateFrom", Vdate (Some from)); ("dateTo", Vdate (Some 1706697296789))]
       /\ 1706697296789 - from
          = 14 * JS.msPerDay + JS.TimeWithinDay (JS.LocalTime (host := utc) 1706697296789).
Proof.
  assert (H1 : Z.abs 1706697296789 <= JS.maxTime) by (vm_compute; discriminate).
  assert (H2 : Z.abs (JS.LocalTZA (Host := utc)) <= JS.msPerDay) by (vm_compute; discriminate).
  assert (H3 : 100 <= JS.YearFromTime (JS.LocalTime (host := utc) 1706697296789))
    by (vm_compute; discriminate).
  split; [exact H1|]. split; [exact H2|]. split; [exact H3|].
  destruct (DateTextFacts.default_range_is_fourteen_days (host := utc) 1706697296789 H1 H2 H3)
    as (from & _ & _ & E1 & E2 & _).
  exists from. split; assumption.
Defined.

(** A key with [date] inside, and one without. *)
Lemma date_keys_are_matched_by_substring_witness :
  StatsComponent.date_key "page" = false
  /\ (exists d, StatsComponent.deserializeUrlParam (host := utc) "candidate" "7"
                = Normal (Vdate d))
  /\ StatsComponent.deserializeUrlParam (host := utc) "page" "7" = Normal (Vstring "7").
Proof.
  split; [reflexivity|].
  destruct (DateTextFacts.date_keys_are_matched_by_substring (host := utc) "candi" EmptyString "7")
    as (A & _ & B).
  split; [exact A|]. apply B. reflexivity.
Defined.

(** The key [dateTo] on the opened stats screen. *)
Lemma getFormControlKey_is_first_match_witness :
  let fg := filterFormGroup opened in
  NoDup (map (getUrlParamKey (Screen := stats)) (Obj.keys fg))
  /\ In "dateTo" (Obj.keys fg)
  /\ getFormControlKey (screen := stats) fg "dateTo" = Some "dateTo".
Proof.
  cbv zeta.
  assert (ND : NoDup (map (getUrlParamKey (Screen := stats))
                          (Obj.keys (filterFormGroup opened)))).
  { repeat constructor; cbn; intuition discriminate. }
  assert (Hin : In "dateTo" (Obj.keys (filterFormGroup opened))) by (cbn; tauto).
  split; [exact ND|]. split; [exact Hin|].
  apply (proj2 (proj2 (proj2 (ReconcilerLaws.getFormControlKey_is_first_match
                                (screen := stats) (filterFormGroup opened) "dateTo")))
           "dateTo" ND Hin).
  discriminate.
Defined.

(** Two parameters the stats screen has no control for, one of them
    empty. *)
Lemma unknown_keys_are_reported_witness :
  let params := [("page", "2"); ("sort", EmptyString)] in
  (forall entry key, In entry params -> In key (Obj.keys (filterFormGroup opened)) ->
                     getUrlParamKey (Screen := stats) key <> fst entry)
  /\ updateFormFromUrl (screen := stats) params opened
     = (Normal tt, with_warnings (warnings opened ++ [NoFormControl "page" None]) opened).
Proof.
  cbv zeta.
  assert (H : forall entry key,
             In entry [("page", "2"); ("sort", EmptyString)] ->
             In key (Obj.keys (filterFormGroup opened)) ->
             getUrlParamKey (Screen := stats) key <> fst entry).
  { intros entry key [<-|[<-|[]]] [<-|[<-|[<-|[<-|[]]]]]; discriminate. }
  split; [exact H|].
  exact (ReconcilerLaws.unknown_keys_are_reported (screen := stats) _ opened H).
Defined.

(** A new [dateTo] on the opened stats screen leaves [dateFrom] alone. *)
Lemma reconcile_is_silent_witness :
  let params := [("dateTo", "2024-02-01")] in
  let r := updateFormFromUrl (screen := stats) params opened in
  ~ In (getUrlParamKey (Screen := stats) "dateFrom") (Obj.keys params)
  /\ navigations (snd r) = navigations opened
  /\ debounce (snd r) = debounce opened
  /\ requested (snd r) = requested opened
  /\ Obj.lookup "dateFrom" (filterFormGroup (snd r))
     = Obj.lookup "dateFrom" (filterFormGroup opened).
Proof.
  cbv zeta.
  assert (H : ~ In (getUrlParamKey (Screen := stats) "dateFrom")
                   (Obj.keys [("dateTo", "2024-02-01")])).
  { cbn. intuition discriminate. }
  split; [exact H|].
  destruct (ReconcilerLaws.reconcile_is_silent (screen := stats)
              [("dateTo", "2024-02-01")] opened)
    as (_ & N & _ & B & R & _ & _ & _ & _ & _ & _ & _ & L).
  split; [exact N|]. split; [exact B|]. split; [exact R|]. exact (L "dateFrom" H).
Defined.


(** A compare date in the URL of the opened stats screen, whose compare
    controls are disabled. *)
Lemma disabled_control_is_read_not_written_witness :
  let fg := filterFormGroup opened in
  let c' := snd (updateFormFromUrl (screen := stats) [("compareDateFrom", "2023-12-01")] opened) in
  NoDup (map (getUrlParamKey (Screen := stats)) (Obj.keys fg))
  /\ plain_name "compareDateFrom"
  /\ Obj.lookup "compareDateFrom" fg = Some (StatsComponent.control Vnull false)
  /\ Forms.disabled fg = false
  /\ deserializeUrlParam (Screen := stats) "compareDateFrom" "2023-12-01"
     = Normal (Vdate (Some 1701388800000))
  /\ Obj.lookup "compareDateFrom" (filterFormGroup c')
     = Some (StatsComponent.control (Vdate (Some 1701388800000)) false)
  /\ ~ In "compareDateFrom"
          (Obj.keys (project (host := utc) (screen := stats) (Forms.value (filterFormGroup c')))).
Proof.
  cbv zeta.
  assert (ND : NoDup (map (getUrlParamKey (Screen := stats))
                          (Obj.keys (filterFormGroup opened)))).
  { repeat constructor; cbn; intuition discriminate. }
  assert (HP : plain_name "compareDateFrom") by (split; reflexivity).
  assert (HD : deserializeUrlParam (Screen := stats) "compareDateFrom" "2023-12-01"
               = Normal (Vdate (Some 1701388800000))) by (vm_compute; reflexivity).
  split; [exact ND|]. split; [exact HP|]. split; [reflexivity|]. split; [reflexivity|].
  split; [exact HD|].
  destruct (ProjectorLaws.disabled_control_is_read_not_written (host := utc) (screen := stats)
              "compareDateFrom" "2023-12-01" (Vdate (Some 1701388800000))
              (StatsComponent.control Vnull false) opened ND HP eq_refl eq_refl eq_refl
              ltac:(discriminate) HD)
    as (A & _ & B).
  split; [exact A|exact B].
Defined.

(** Eight requested loads against the data source that fails on every other
    call: the seventh call is the fourth failure. *)
Lemma retry_budget_is_never_restored_witness :
  let c := with_subscribed true (blank (D := unit)) in
  let r := requests (screen := flaky) 8 c in
  subscribed c = true /\ retried c = 0%nat
  /\ (4 <= failures (screen := flaky) (filterFormGroup c) (List.length (loads c)) 8)%nat
  /\ subscribed (snd r) = false
  /\ List.length (unhandled (snd r)) = 1%nat
  /\ List.length (loads (snd r)) = 7%nat.
Proof.
  cbv zeta.
  assert (H : (4 <= failures (screen := flaky)
                      (filterFormGroup (with_subscribed true (blank (D := unit))))
                      (List.length (loads (with_subscribed true (blank (D := unit))))) 8)%nat)
    by (vm_compute; lia).
  split; [reflexivity|]. split; [reflexivity|]. split; [exact H|].
  destruct (LifecycleFacts.retry_budget_is_never_restored (screen := flaky) 8
              (with_subscribed true blank) eq_refl eq_refl)
    as (_ & _ & G).
  destruct (G H) as (A & B & _).
  split; [exact A|]. split; [exact B|]. vm_compute. reflexivity.
Defined.

(** Two changes 300 ms apart on the opened stats screen. *)
Lemma separated_changes_are_written_apart_witness :
  let m1 := Forms.patch_control "dateTo" Vnull in
  let m2 := Forms.patch_control "dateTo" (Vdate (Some 1709251200000)) in
  let r := bind (run (host := utc) (screen := stats)
                   [(0, ValueChange m1); (300, ValueChange m2)])
                (fun _ => settle (host := utc) (screen := stats)) opened in
  debounce opened = None
  /\ 0 + debounceTime <= 300
  /\ navigations (snd r)
     = navigations opened
       ++ [wire_write (host := utc) (screen := stats) (m1 (filterFormGroup opened));
           wire_write (host := utc) (screen := stats) (m2 (m1 (filterFormGroup opened)))].
Proof.
  cbv zeta.
  assert (H : 0 + debounceTime <= 300) by (unfold debounceTime; lia).
  split; [reflexivity|]. split; [exact H|].
  destruct (LifecycleFacts.separated_changes_are_written_apart (host := utc) (screen := stats)
              opened 0 300 (Forms.patch_control "dateTo" Vnull)
              (Forms.patch_control "dateTo" (Vdate (Some 1709251200000))) eq_refl H)
    as (_ & _ & N & _).
  exact N.
Defined.

(** The URL changes 100 ms after a change of the opened stats form. *)
Lemma url_change_inside_the_window_witness :
  let m := Forms.patch_control "dateTo" Vnull in
  let params := [("dateTo", "2024-02-01")] in
  let r1 := run (host := utc) (screen := stats)
              [(0, ValueChange m); (100, QueryParams params)] opened in
  debounce opened = None
  /\ 0 <= 100 < 0 + debounceTime
  /\ navigations (snd r1) = navigations opened
  /\ debounce (snd r1) = Some (0 + debounceTime)
  /\ List.length (navigations (snd (settle (host := utc) (screen := stats) (snd r1))))
     = S (List.length (navigations opened)).
Proof.
  cbv zeta.
  assert (H : 0 <= 100 < 0 + debounceTime) by (unfold debounceTime; lia).
  split; [reflexivity|]. split; [exact H|].
  destruct (LifecycleFacts.url_change_inside_the_window (host := utc) (screen := stats)
              opened 0 100 (Forms.patch_control "dateTo" Vnull)
              [("dateTo", "2024-02-01")] eq_refl H)
    as (_ & _ & N & B & _ & N' & _).
  split; [exact N|]. split; [exact B|]. rewrite N', length_app. cbn. lia.
Defined.

(** Three entries on the screen whose deserializer throws on [b]: one
    applied, one rejected, one empty. *)
Lemma reconcile_is_entrywise_witness :
  let params := [("a", "1"); ("b", "x"); ("c", EmptyString)] in
  let fg := filterFormGroup failing_opened in
  let c' := snd (updateFormFromUrl (screen := failing) params failing_opened) in
  NoDup (Obj.keys params)
  /\ NoDup (map (getUrlParamKey (Screen := failing)) (Obj.keys fg))
  /\ option_map Forms.value_of (Obj.lookup "a" (filterFormGroup c')) = Some (Vstring "1")
  /\ Obj.lookup "b" (filterFormGroup c') = Obj.lookup "b" fg
  /\ In (FailedToDeserialize "b" (Error "malformed")) (warnings c').
Proof.
  cbv zeta.
  assert (NP : NoDup (Obj.keys [("a", "1"); ("b", "x"); ("c", EmptyString)])).
  { repeat constructor; cbn; intuition discriminate. }
  assert (ND : NoDup (map (getUrlParamKey (Screen := failing))
                          (Obj.keys (filterFormGroup failing_opened)))).
  { repeat constructor; cbn; intuition discriminate. }
  split; [exact NP|]. split; [exact ND|].
  destruct (EntrywiseFacts.reconcile_is_entrywise (screen := failing)
              [("a", "1"); ("b", "x"); ("c", EmptyString)] failing_opened NP ND)
    as (A & B & _).
  split.
  - erewrite (A "a" _ "1" (Vstring "1")); try reflexivity.
    + split; reflexivity.
    + cbn. tauto.
    + discriminate.
  - destruct (B "b" {| Forms.value_of := Vstring "old"; Forms.enabled := true;
                       Forms.validator := fun _ => true |} "x" (Error "malformed"))
      as (B1 & B2); try reflexivity.
    + split; reflexivity.
    + cbn. tauto.
    + discriminate.
    + split; [rewrite B1; reflexivity|exact B2].
Defined.

(** A text that is no date and an unknown key, on the opened stats
    screen. *)
Lemma stats_reconcile_accepts_any_text_witness :
  let params := [("dateFrom", "garbage"); ("page", "2")] in
  let c' := snd (updateFormFromUrl (screen := stats) params opened) in
  Obj.keys (filterFormGroup opened) = StatsComponent.names
  /\ NoDup (Obj.keys params)
  /\ warnings c' = warnings opened ++ [NoFormControl "page" None]
  /\ exists d, option_map Forms.value_of (Obj.lookup "dateFrom" (filterFormGroup c'))
               = Some (Vdate d).
Proof.
  cbv zeta.
  assert (NP : NoDup (Obj.keys [("dateFrom", "garbage"); ("page", "2")])).
  { repeat constructor; cbn; intuition discriminate. }
  split; [reflexivity|]. split; [exact NP|].
  destruct (StatsLaws.stats_reconcile_accepts_any_text (host := utc) today
              [("dateFrom", "garbage"); ("page", "2")] opened eq_refl NP)
    as (W & P).
  split; [exact W|].
  destruct (P "dateFrom" _ "garbage" eq_refl ltac:(cbn; tauto) ltac:(discriminate))
    as (d & _ & L).
  exists d. fold stats in L. rewrite L. reflexivity.
Defined.

(** Entering compare mode on the opened stats screen. *)
Lemma toggleCompare_switches_both_witness :
  let fg := filterFormGroup opened in
  let r := StatsComponent.toggleCompare fg in
  Obj.lookup "compareDateFrom" fg = Some (StatsComponent.control Vnull false)
  /\ Obj.lookup "compareDateTo" fg = Some (StatsComponent.control Vnull false)
  /\ fst r = Normal true
  /\ Obj.lookup "compareDateTo" (snd r) = Some (StatsComponent.control Vnull true)
  /\ Obj.lookup "dateTo" (snd r) = Obj.lookup "dateTo" fg.
Proof.
  cbv zeta. split; [reflexivity|]. split; [reflexivity|].
  destruct (StatsLaws.toggleCompare_switches_both (filterFormGroup opened)
              (StatsComponent.control Vnull false) (StatsComponent.control Vnull false)
              eq_refl eq_refl)
    as (A & _ & B & C & _).
  split; [exact A|]. split; [exact B|].
  apply C; discriminate.
Defined.

(** Two toggles on a form whose compare controls are enabled and hold
    dates. *)
Lemma toggleCompare_twice_clears_witness :
  let fg := [ ("compareDateFrom", StatsComponent.control (Vdate (Some 0)) true);
              ("compareDateTo", StatsComponent.control (Vdate (Some 86400000)) true) ] in
  let r := StatsComponent.toggleCompare (snd (StatsComponent.toggleCompare fg)) in
  Obj.lookup "compareDateFrom" fg = Some (StatsComponent.control (Vdate (Some 0)) true)
  /\ Obj.lookup "compareDateTo" fg = Some (StatsComponent.control (Vdate (Some 86400000)) true)
  /\ fst r = Normal true
  /\ Obj.lookup "compareDateFrom" (snd r) = Some (StatsComponent.control Vnull true)
  /\ Obj.lookup "compareDateTo" (snd r) = Some (StatsComponent.control Vnull true).
Proof.
  cbv zeta. split; [reflexivity|]. split; [reflexivity|].
  destruct (StatsLaws.toggleCompare_twice_clears
              [ ("compareDateFrom", StatsComponent.control (Vdate (Some 0)) true);
                ("compareDateTo", StatsComponent.control (Vdate (Some 86400000)) true) ]
              (StatsComponent.control (Vdate (Some 0)) true)
              (StatsComponent.control (Vdate (Some 86400000)) true) eq_refl eq_refl)
    as (A & B & C & _).
  split; [exact A|]. split; [exact B|exact C].
Defined.

(** Entering compare mode on the opened stats screen: one write, no
    load. *)
Lemma toggleCompare_is_written_once_witness :
  let r := bind (run (host := utc) (screen := stats)
                   (value_changes (StatsComponent.toggleCompare_emits 0 1)))
                (fun _ => settle (host := utc) (screen := stats)) opened in
  debounce opened = None
  /\ 0 <= 1 < debounceTime
  /\ Obj.lookup "compareDateFrom" (filterFormGroup opened)
     = Some (StatsComponent.control Vnull false)
  /\ Obj.lookup "compareDateTo" (filterFormGroup opened)
     = Some (StatsComponent.control Vnull false)
  /\ List.length (navigations (snd r)) = S (List.length (navigations opened))
  /\ requested (snd r) = requested opened
  /\ loads (snd r) = loads opened.
Proof.
  cbv zeta.
  assert (H : 0 <= 1 < debounceTime) by (unfold debounceTime; lia).
  split; [reflexivity|]. split; [exact H|]. split; [reflexivity|]. split; [reflexivity|].
  destruct (StatsPipeline.toggleCompare_is_written_once (host := utc) (screen := stats)
              opened 0 1 (StatsComponent.control Vnull false)
              (StatsComponent.control Vnull false) eq_refl H eq_refl eq_refl)
    as (_ & _ & N & E & _).
  destruct (E eq_refl eq_refl eq_refl) as (_ & R & L).
  split; [rewrite N, length_app; cbn; lia|]. split; [exact R|exact L].
Defined.


(** Three loads on the opened stats screen. *)
Lemma stats_loads_always_succeed_witness :
  let r := requests (screen := stats) 3 opened in
  subscribed opened = true /\ (0 < 3)%nat
  /\ data (snd r) = Some []
  /\ subscribed (snd r) = true
  /\ List.length (loads (snd r)) = (List.length (loads opened) + 3)%nat.
Proof.
  cbv zeta. split; [reflexivity|]. split; [lia|].
  destruct (StatsLoads.stats_loads_always_succeed (host := utc) today 3 opened eq_refl
              ltac:(lia))
    as (_ & A & _ & B & _ & _ & _ & L).
  split; [exact A|]. split; [exact B|].
  fold stats in L. rewrite L, length_app, repeat_length. reflexivity.
Defined.

End LawInstances.
